(** * Congress scraper: URL builder, job queue and fetch orchestration

    A shallow embedding of [congress_scraper.py] (with the sibling
    [scraper.py] and the decoding steps of [url_test.py]) and the proofs of
    its specification.

    Conventions of the embedding.
    - A Python [str] is a [string]; a character stands for the code point of
      the same number (U+0000 to U+00FF).
    - A Python [int] is a [Z].
    - A Python [dict] with string keys whose order matters (the query object
      that is serialised) is an association list in insertion order, written
      through [dict_set]; a record whose order is irrelevant is a
      [gmap string value]; the set of sources is a [gset string].
    - Effects (HTTP requests, the clock, the HTML parser, the session) are
      threaded through an explicit state, and Python exceptions through an
      outcome type that keeps the two classes [except Exception] tells
      apart. *)

From Stdlib Require Import ZArith Ascii String List Lia Bool.
From Stdlib Require Import DecimalString DecimalZ DecimalPos DecimalN DecimalFacts.
From stdpp Require Import base gmap strings list fin_maps option sorting.

Local Open Scope Z_scope.

#[local] Set Warnings "-register-all".

(** stdpp blocks the unfolding of string concatenation; the proofs below
    compute with it. *)
#[local] Arguments String.append !_ _ / : simpl nomatch.

(* ===================================================================== *)
(** * Python strings                                                      *)
(* ===================================================================== *)

Module Py.

(** The double quote and the backslash, by code. *)
Abbreviation dquote := ("034"%char).
Abbreviation backslash := ("092"%char).

Definition ord (c : ascii) : N := N_of_ascii c.
Definition chr (n : N) : ascii := ascii_of_N n.

(** [str(n)] for an [int]: decimal digits, with a leading minus sign. *)
Definition str_of_int (n : Z) : string := NilZero.string_of_int (Z.to_int n).

(** [c.isspace()] on U+0000..U+00FF. *)
Definition isspace (c : ascii) : bool :=
  let n := ord c in
  ((9 <=? n) && (n <=? 13) || (28 <=? n) && (n <=? 32) || (n =? 133) || (n =? 160))%N.

Fixpoint lstrip (s : string) : string :=
  match s with
  | EmptyString => EmptyString
  | String c r => if isspace c then lstrip r else s
  end.

(** [rstrip] keeps a character when it, or something after it, is not
    white space. *)
Fixpoint rstrip (s : string) : string :=
  match s with
  | EmptyString => EmptyString
  | String c r =>
      match rstrip r with
      | EmptyString => if isspace c then EmptyString else String c EmptyString
      | r' => String c r'
      end
  end.

(** [s.strip()] *)
Definition strip (s : string) : string := rstrip (lstrip s).

(** [sep.join(parts)] *)
Fixpoint join (sep : string) (parts : list string) : string :=
  match parts with
  | [] => ""
  | [p] => p
  | p :: ps => p +:+ sep +:+ join sep ps
  end.

(** [s.removeprefix(p)] when [s.startswith(p)]. *)
Fixpoint drop_prefix (p s : string) : option string :=
  match p, s with
  | EmptyString, _ => Some s
  | String a p', String b s' => if Ascii.eqb a b then drop_prefix p' s' else None
  | String _ _, EmptyString => None
  end.

(** [s.split(sep, 1)[1]]: what follows the first occurrence of [sep]. *)
Fixpoint after_first (sep s : string) : option string :=
  match drop_prefix sep s with
  | Some r => Some r
  | None =>
      match s with
      | EmptyString => None
      | String _ r => after_first sep r
      end
  end.

(** Whether a space (U+0020) occurs in a string. *)
Fixpoint has_space (s : string) : bool :=
  match s with
  | EmptyString => false
  | String c r => Ascii.eqb c " " || has_space r
  end.

(** A dictionary with string keys in insertion order: [d[k] = v] replaces
    the value of a key that is present and appends a new key. *)
Section Dict.

Context {V : Type}.

Fixpoint dict_set (k : string) (v : V) (d : list (string * V)) : list (string * V) :=
  match d with
  | [] => [(k, v)]
  | (k', v') :: d' =>
      if String.eqb k k' then (k', v) :: d' else (k', v') :: dict_set k v d'
  end.

Fixpoint dict_get (k : string) (d : list (string * V)) : option V :=
  match d with
  | [] => None
  | (k', v') :: d' => if String.eqb k k' then Some v' else dict_get k d'
  end.

End Dict.

End Py.

(* ===================================================================== *)
(** * Hexadecimal digits                                                  *)
(* ===================================================================== *)

Module Hex.

Definition digit_lower (n : N) : ascii :=
  if (n <? 10)%N then Py.chr (48 + n) else Py.chr (87 + n).

Definition digit_upper (n : N) : ascii :=
  if (n <? 10)%N then Py.chr (48 + n) else Py.chr (55 + n).

(** The value of a hexadecimal digit of either case. *)
Definition value (c : ascii) : option N :=
  let n := Py.ord c in
  if ((48 <=? n) && (n <=? 57))%N then Some (n - 48)%N
  else if ((65 <=? n) && (n <=? 70))%N then Some (n - 55)%N
  else if ((97 <=? n) && (n <=? 102))%N then Some (n - 87)%N
  else None.

Definition byte (h l : ascii) : option N :=
  match value h, value l with
  | Some a, Some b => Some (16 * a + b)%N
  | _, _ => None
  end.

End Hex.

(* ===================================================================== *)
(** * The [json] module: [dumps] with compact separators, and [loads]     *)
(* ===================================================================== *)

Module Json.

(** The JSON values of the query object and of what [loads] may return.
    Floating-point numbers are outside the embedding. *)
Inductive json : Type :=
  | JNull
  | JBool (b : bool)
  | JInt (n : Z)
  | JStr (s : string)
  | JList (l : list json)
  | JObj (d : list (string * json)).

(** ** Encoding *)

(** [py_encode_basestring_ascii]: what is not in the range space..tilde, and
    the quote and the backslash, is escaped; [ensure_ascii] is on. *)
Definition escape_char (c : ascii) : string :=
  let n := Py.ord c in
  if Ascii.eqb c Py.dquote then String Py.backslash (String Py.dquote "")
  else if Ascii.eqb c Py.backslash then String Py.backslash (String Py.backslash "")
  else if (n =? 8)%N then String Py.backslash "b"
  else if (n =? 12)%N then String Py.backslash "f"
  else if (n =? 10)%N then String Py.backslash "n"
  else if (n =? 13)%N then String Py.backslash "r"
  else if (n =? 9)%N then String Py.backslash "t"
  else if ((32 <=? n) && (n <=? 126))%N then String c ""
  else String Py.backslash
         (String "u" (String "0" (String "0"
            (String (Hex.digit_lower (n / 16)) (String (Hex.digit_lower (n mod 16)) ""))))).

Fixpoint escape (s : string) : string :=
  match s with
  | EmptyString => ""
  | String c r => escape_char c +:+ escape r
  end.

Definition encode_basestring_ascii (s : string) : string :=
  String Py.dquote (escape s +:+ String Py.dquote "").

(** [json.dumps(v, separators=(',', ':'))] *)
Fixpoint dumps (v : json) : string :=
  match v with
  | JNull => "null"
  | JBool true => "true"
  | JBool false => "false"
  | JInt n => Py.str_of_int n
  | JStr s => encode_basestring_ascii s
  | JList l => "[" +:+ Py.join "," (map dumps l) +:+ "]"
  | JObj d =>
      "{" +:+ Py.join ","
                (map (fun kv => encode_basestring_ascii (fst kv) +:+ ":" +:+ dumps (snd kv)) d)
          +:+ "}"
  end.

(** ** Decoding *)

Definition is_ws (c : ascii) : bool :=
  let n := Py.ord c in ((n =? 32) || (n =? 9) || (n =? 10) || (n =? 13))%N.

Fixpoint skip_ws (s : string) : string :=
  match s with
  | EmptyString => EmptyString
  | String c r => if is_ws c then skip_ws r else s
  end.

Definition is_digit (c : ascii) : bool :=
  let n := Py.ord c in ((48 <=? n) && (n <=? 57))%N.

(** The character of a one-letter escape. *)
Definition unescape (e : ascii) : option ascii :=
  if Ascii.eqb e Py.dquote then Some Py.dquote
  else if Ascii.eqb e Py.backslash then Some Py.backslash
  else if Ascii.eqb e "/" then Some "/"%char
  else if Ascii.eqb e "b" then Some (Py.chr 8)
  else if Ascii.eqb e "f" then Some (Py.chr 12)
  else if Ascii.eqb e "n" then Some (Py.chr 10)
  else if Ascii.eqb e "r" then Some (Py.chr 13)
  else if Ascii.eqb e "t" then Some (Py.chr 9)
  else None.

(** The escape [\uXXXX]; a code point above U+00FF is outside the strings
    of the embedding. *)
Definition decode_uXXXX (a b c d : ascii) : option ascii :=
  match Hex.byte a b, Hex.byte c d with
  | Some hi, Some lo => if (hi =? 0)%N then Some (Py.chr lo) else None
  | _, _ => None
  end.

Definition prepend (c : ascii) (p : string * string) : string * string :=
  (String c (fst p), snd p).

(** [scanstring], strict: reads a string literal after its opening quote and
    returns the string and what follows the closing quote. *)
Fixpoint scanstring (s : string) : option (string * string) :=
  match s with
  | EmptyString => None
  | String c r =>
      if Ascii.eqb c Py.dquote then Some (EmptyString, r)
      else if Ascii.eqb c Py.backslash then
        match r with
        | EmptyString => None
        | String e r1 =>
            if Ascii.eqb e "u" then
              match r1 with
              | String h1 (String h2 (String h3 (String h4 r2))) =>
                  match decode_uXXXX h1 h2 h3 h4 with
                  | Some ch => prepend ch <$> scanstring r2
                  | None => None
                  end
              | _ => None
              end
            else
              match unescape e with
              | Some ch => prepend ch <$> scanstring r1
              | None => None
              end
        end
      else if (Py.ord c <? 32)%N then None
      else prepend c <$> scanstring r
  end.

(** The digits at the head of a string, as a decimal number, and the rest. *)
Fixpoint scan_digits (s : string) : Decimal.uint * string :=
  match s with
  | EmptyString => (Decimal.Nil, EmptyString)
  | String c r =>
      match DecimalString.uint_of_char c (Some Decimal.Nil) with
      | Some (Decimal.D0 _) => let p := scan_digits r in (Decimal.D0 (fst p), snd p)
      | Some (Decimal.D1 _) => let p := scan_digits r in (Decimal.D1 (fst p), snd p)
      | Some (Decimal.D2 _) => let p := scan_digits r in (Decimal.D2 (fst p), snd p)
      | Some (Decimal.D3 _) => let p := scan_digits r in (Decimal.D3 (fst p), snd p)
      | Some (Decimal.D4 _) => let p := scan_digits r in (Decimal.D4 (fst p), snd p)
      | Some (Decimal.D5 _) => let p := scan_digits r in (Decimal.D5 (fst p), snd p)
      | Some (Decimal.D6 _) => let p := scan_digits r in (Decimal.D6 (fst p), snd p)
      | Some (Decimal.D7 _) => let p := scan_digits r in (Decimal.D7 (fst p), snd p)
      | Some (Decimal.D8 _) => let p := scan_digits r in (Decimal.D8 (fst p), snd p)
      | Some (Decimal.D9 _) => let p := scan_digits r in (Decimal.D9 (fst p), snd p)
      | _ => (Decimal.Nil, s)
      end
  end.

(** A number follows the grammar [0 | [1-9][0-9]*]: no leading zero. *)
Definition well_formed_digits (u : Decimal.uint) : bool :=
  match u with
  | Decimal.Nil => false
  | Decimal.D0 Decimal.Nil => true
  | Decimal.D0 _ => false
  | _ => true
  end.

(** An integer literal; a fraction or an exponent makes a float, which is
    not embedded. *)
Definition starts_float (s : string) : bool :=
  match s with
  | String c _ => Ascii.eqb c "." || Ascii.eqb c "e" || Ascii.eqb c "E"
  | EmptyString => false
  end.

Definition scan_int (s : string) : option (Z * string) :=
  let '(neg, body) :=
    match s with
    | String c r => if Ascii.eqb c "-" then (true, r) else (false, s)
    | EmptyString => (false, s)
    end in
  let p := scan_digits body in
  if well_formed_digits (fst p) && negb (starts_float (snd p)) then
    let n := Z.of_uint (fst p) in
    Some (if neg then - n else n, snd p)
  else None.

(** [scan_once] with the object and array readers; [fuel] bounds the
    number of nested and successive values, each of which consumes at least
    one character. The cursor of the two loops stands after the white space
    that precedes a member or an element. *)
Fixpoint scan_once (fuel : nat) (s : string) : option (json * string) :=
  match fuel with
  | O => None
  | S f =>
      match s with
      | EmptyString => None
      | String c r =>
          if Ascii.eqb c Py.dquote then
            (fun p => (JStr (fst p), snd p)) <$> scanstring r
          else if Ascii.eqb c "{" then
            match skip_ws r with
            | String c1 r1 =>
                if Ascii.eqb c1 "}" then Some (JObj [], r1)
                else scan_members f [] (String c1 r1)
            | EmptyString => None
            end
          else if Ascii.eqb c "[" then
            match skip_ws r with
            | String c1 r1 =>
                if Ascii.eqb c1 "]" then Some (JList [], r1)
                else scan_elements f [] (String c1 r1)
            | EmptyString => None
            end
          else if String.prefix "null" s then Some (JNull, String.substring 4 (String.length s) s)
          else if String.prefix "true" s then Some (JBool true, String.substring 4 (String.length s) s)
          else if String.prefix "false" s then Some (JBool false, String.substring 5 (String.length s) s)
          else (fun p => (JInt (fst p), snd p)) <$> scan_int s
      end
  end
with scan_members (fuel : nat) (acc : list (string * json)) (s : string)
  : option (json * string) :=
  match fuel with
  | O => None
  | S f =>
      match s with
      | String c r =>
          if Ascii.eqb c Py.dquote then
            match scanstring r with
            | Some (k, r1) =>
                match skip_ws r1 with
                | String c2 r2 =>
                    if Ascii.eqb c2 ":" then
                      match scan_once f (skip_ws r2) with
                      | Some (v, r3) =>
                          match skip_ws r3 with
                          | String c4 r4 =>
                              if Ascii.eqb c4 "," then
                                scan_members f (Py.dict_set k v acc) (skip_ws r4)
                              else if Ascii.eqb c4 "}" then
                                Some (JObj (Py.dict_set k v acc), r4)
                              else None
                          | EmptyString => None
                          end
                      | None => None
                      end
                    else None
                | EmptyString => None
                end
            | None => None
            end
          else None
      | EmptyString => None
      end
  end
with scan_elements (fuel : nat) (acc : list json) (s : string)
  : option (json * string) :=
  match fuel with
  | O => None
  | S f =>
      match scan_once f s with
      | Some (v, r1) =>
          match skip_ws r1 with
          | String c2 r2 =>
              if Ascii.eqb c2 "," then scan_elements f (acc ++ [v]) (skip_ws r2)
              else if Ascii.eqb c2 "]" then Some (JList (acc ++ [v]), r2)
              else None
          | EmptyString => None
          end
      | None => None
      end
  end.

(** [json.loads(s)]: one value between optional white space, nothing
    after it. [None] stands for [JSONDecodeError]. *)
Definition loads (s : string) : option json :=
  match scan_once (S (String.length s)) (skip_ws s) with
  | Some (v, r) => match skip_ws r with EmptyString => Some v | _ => None end
  | None => None
  end.

End Json.

(* ===================================================================== *)
(** * [urllib.parse]: [quote_plus], [urlencode], [unquote]                *)
(* ===================================================================== *)

Module Urllib.

(** Letters, digits and [_.-~] are never quoted. *)
Definition always_safe (c : ascii) : bool :=
  let n := Py.ord c in
  ((65 <=? n) && (n <=? 90) || (97 <=? n) && (n <=? 122) || (48 <=? n) && (n <=? 57)
   || (n =? 95) || (n =? 46) || (n =? 45) || (n =? 126))%N.

Definition percent (b : N) : string :=
  String "%" (String (Hex.digit_upper (b / 16)) (String (Hex.digit_upper (b mod 16)) "")).

(** One character of [quote_plus(s)]: a space becomes a plus sign, a safe
    character stays, any other byte of the UTF-8 encoding is written [%XX]. *)
Definition quote_plus_char (c : ascii) : string :=
  let n := Py.ord c in
  if Ascii.eqb c " " then "+"
  else if always_safe c then String c ""
  else if (n <? 128)%N then percent n
  else percent (192 + n / 64) +:+ percent (128 + n mod 64).

Fixpoint quote_plus (s : string) : string :=
  match s with
  | EmptyString => ""
  | String c r => quote_plus_char c +:+ quote_plus r
  end.

(** [urlencode(params)] for string keys and values. *)
Definition urlencode (params : list (string * string)) : string :=
  Py.join "&" (map (fun kv => quote_plus (fst kv) +:+ "=" +:+ quote_plus (snd kv)) params).

(** [unquote(s)]: [%XX] with two hexadecimal digits becomes the byte, any
    other character stays, a plus sign included. The bytes are then decoded
    as UTF-8; a byte above 0x7F would start a multi-byte sequence, which the
    embedding leaves out ([None]). *)
Fixpoint unquote (s : string) : option string :=
  match s with
  | EmptyString => Some EmptyString
  | String c r =>
      if Ascii.eqb c "%" then
        match r with
        | String h (String l r2) =>
            match Hex.byte h l with
            | Some b => if (b <? 128)%N then String (Py.chr b) <$> unquote r2 else None
            | None => String c <$> unquote r
            end
        | _ => String c <$> unquote r
        end
      else String c <$> unquote r
  end.

(** [unquote_plus(s)]: the plus signs become spaces, then [unquote]. *)
Fixpoint replace_plus (s : string) : string :=
  match s with
  | EmptyString => EmptyString
  | String c r => String (if Ascii.eqb c "+" then " "%char else c) (replace_plus r)
  end.

Definition unquote_plus (s : string) : option string := unquote (replace_plus s).

End Urllib.

(* ===================================================================== *)
(** * [CongressScraper._build_search_url]                                 *)
(* ===================================================================== *)

(** The argument [congress : int | str]. *)
Inductive congress_arg : Type :=
  | CInt (n : Z)
  | CStr (s : string).

Definition base_url : string := "https://www.congress.gov/search".

(** [congress if isinstance(congress, str) else str(congress)] *)
Definition congress_str (congress : congress_arg) : string :=
  match congress with
  | CStr s => s
  | CInt n => Py.str_of_int n
  end.

(** The query object, as the function builds it. *)
Definition build_query (congress : congress_arg) (source : string) (page : Z)
  : list (string * Json.json) :=
  let query :=
    [("congress", Json.JStr (congress_str congress));
     ("source", Json.JList [Json.JStr source])] in
  if 1 <? page then
    Py.dict_set "page" (Json.JInt page) (Py.dict_set "pageSize" (Json.JInt 100) query)
  else query.

Definition _build_search_url (congress : congress_arg) (source : string) (page : Z) : string :=
  let query := build_query congress source page in
  let params := [("q", Json.dumps (Json.JObj query))] in
  base_url +:+ "?" +:+ Urllib.urlencode params.

(** The decoding steps of [url_test.py], applied to the value of the [q]
    parameter: [unquote], then [json.loads]. *)
Definition q_param (url : string) : option string := Py.after_first "?q=" url.

Definition decode_query (url : string) : option Json.json :=
  match q_param url with
  | Some v => match Urllib.unquote v with Some s => Json.loads s | None => None end
  | None => None
  end.

(* ===================================================================== *)
(** * The document tree of BeautifulSoup                                  *)
(* ===================================================================== *)

Module Bs4.

(** A parsed page: text nodes and tags. The multi-valued [class] attribute
    is kept apart from the other attributes, as the library does. *)
Inductive node : Type :=
  | Text (s : string)
  | Tag (name : string) (classes : list string) (attrs : list (string * string))
        (children : list node).

(** All nodes below a node, in document order. *)
Fixpoint descendants (n : node) : list node :=
  match n with
  | Text _ => []
  | Tag _ _ _ cs => flat_map (fun c => c :: descendants c) cs
  end.

(** [n.text]: the text nodes below [n], concatenated. *)
Fixpoint text (n : node) : string :=
  match n with
  | Text s => s
  | Tag _ _ _ cs => String.concat "" (map text cs)
  end.

Definition string_in (s : string) (l : list string) : bool :=
  existsb (String.eqb s) l.

(** A tag of the given name, carrying the given class when one is asked. *)
Definition matches (name : string) (class_ : option string) (n : node) : bool :=
  match n with
  | Text _ => false
  | Tag nm cls _ _ =>
      String.eqb nm name &&
      match class_ with
      | Some c => string_in c cls
      | None => true
      end
  end.

(** [n.find_all(name, class_=c)] *)
Definition find_all (name : string) (class_ : option string) (n : node) : list node :=
  List.filter (matches name class_) (descendants n).

(** [n.find(name, class_=c)]: the first match, or [None]. *)
Definition find (name : string) (class_ : option string) (n : node) : option node :=
  head (find_all name class_ n).

(** [n[key]] for an attribute other than [class]; [None] stands for
    [KeyError]. *)
Definition getitem (key : string) (n : node) : option string :=
  match n with
  | Text _ => None
  | Tag _ _ attrs _ => Py.dict_get key attrs
  end.

End Bs4.

(* ===================================================================== *)
(** * Records, jobs, exceptions and the world                             *)
(* ===================================================================== *)

(** The values of a result record. An action is a pair (date, action). *)
Inductive value : Type :=
  | VStr (s : string)
  | VNone
  | VList (l : list string)
  | VActions (l : list (string * string)).

(** A result record: a [dict] from field names to values. *)
Abbreviation record := (gmap string value).

(** [item.update(details)]: the keys of [details] win. *)
Definition update (item details : record) : record := details ∪ item.

(** [@dataclass ScrapingJob] *)
Record ScrapingJob : Type := mkJob {
  congress : Z;
  source : string;
  page : Z
}.

#[global] Instance ScrapingJob_eq_dec : EqDecision ScrapingJob.
Proof. solve_decision. Defined.

(** The default [page = 1] of the dataclass. *)
Definition new_job (c : Z) (s : string) : ScrapingJob := mkJob c s 1.

(** What is raised. [except Exception] catches the first class only:
    [asyncio.CancelledError], [KeyboardInterrupt] and [SystemExit] derive
    from [BaseException] directly. *)
Inductive exn : Type :=
  | Exception (cls : string)
  | BaseException (cls : string).

Inductive result (A : Type) : Type :=
  | Ok (a : A)
  | Err (e : exn).
Arguments Ok {A} a.
Arguments Err {A} e.

(** The world outside the process. The answer to a request and the reading
    of the clock depend on the moment [tick] they happen at. *)
Record env : Type := mkEnv {
  http_get : nat -> string -> result string;   (* [session.get(url)] and [response.text()] *)
  clock : nat -> string;                      (* [datetime.now().isoformat()] *)
  soup_of : string -> result Bs4.node         (* [BeautifulSoup(html, 'html.parser')] *)
}.

(** The classes registered in [self.scrapers]. *)
Inductive scraper_class : Type :=
  | LegislationScraper.

Inductive event : Type :=
  | SessionOpened
  | Get (url : string)
  | SessionClosed.

(** The state of a run: the moment, what happened to the session so far,
    and the registry [self.scrapers]. *)
Record state : Type := mkState {
  tick : nat;
  trace : list event;
  scrapers : gmap string scraper_class
}.

(** [CongressScraper.__init__]: no session yet, an empty registry. *)
Definition init_state (t : nat) : state := mkState t [] ∅.

(** ** Computations *)

Inductive outcome (A : Type) : Type :=
  | Return (a : A) (s : state)
  | Raise (e : exn) (s : state)
  | OutOfFuel.
Arguments Return {A} a s.
Arguments Raise {A} e s.
Arguments OutOfFuel {A}.

Definition M (A : Type) : Type := state -> outcome A.

Definition ret {A} (a : A) : M A := fun s => Return a s.

Definition raise {A} (e : exn) : M A := fun s => Raise e s.

Definition bind {A B} (m : M A) (k : A -> M B) : M B :=
  fun s =>
    match m s with
    | Return a s' => k a s'
    | Raise e s' => Raise e s'
    | OutOfFuel => OutOfFuel
    end.

Declare Scope py_scope.
Delimit Scope py_scope with py.
Notation "x <- m ;; k" := (bind m (fun x => k))
  (at level 90, m at level 89, right associativity) : py_scope.
Notation "m ;;; k" := (bind m (fun _ => k))
  (at level 90, right associativity) : py_scope.
Local Open Scope py_scope.

(** [try: body except Exception as e: handler]. The handlers of the program
    write to the log and go on; the log is not part of the state. *)
Definition try_except {A} (body : M A) (handler : string -> M A) : M A :=
  fun s =>
    match body s with
    | Raise (Exception cls) s' => handler cls s'
    | o => o
    end.

Definition lift {A} (r : result A) : M A :=
  match r with
  | Ok a => ret a
  | Err e => raise e
  end.

Section World.

Variable E : env.

(** [async with self.session.get(url) as response: html = await response.text()] *)
Definition get (url : string) : M string :=
  fun s =>
    let s' := mkState (S (tick s)) (trace s ++ [Get url]) (scrapers s) in
    match http_get E (tick s) url with
    | Ok html => Return html s'
    | Err e => Raise e s'
    end.

(** [datetime.now().isoformat()] *)
Definition now : M string :=
  fun s => Return (clock E (tick s)) (mkState (S (tick s)) (trace s) (scrapers s)).

(** [BeautifulSoup(html, 'html.parser')] *)
Definition BeautifulSoup (html : string) : M Bs4.node := lift (soup_of E html).

(* ===================================================================== *)
(** * [LegislationScraper]                                                *)
(* ===================================================================== *)

(** The fields read from one listing item, before the time stamp. [Ok None]
    is the [continue] of an item without a title element; an error is what
    the body raises under its [try]. *)
Definition item_fields (item : Bs4.node) : result (option record) :=
  match Bs4.find "h2" (Some "item-name") item with
  | None => Ok None
  | Some title_elem =>
      let link := Bs4.find "a" None title_elem in
      match link with
      | None => Err (Exception "AttributeError")
      | Some link =>
          let bill_number := Py.strip (Bs4.text link) in
          match Bs4.getitem "href" link with
          | None => Err (Exception "KeyError")
          | Some href =>
              let bill_url := "https://www.congress.gov" +:+ href in
              let description := Bs4.find "p" (Some "item-description") item in
              let title :=
                match description with
                | Some d => Py.strip (Bs4.text d)
                | None => "No title available"
                end in
              let status_elem := Bs4.find "span" (Some "status") item in
              let status :=
                match status_elem with
                | Some e => Py.strip (Bs4.text e)
                | None => "Status unknown"
                end in
              let sponsor_elem := Bs4.find "span" (Some "sponsor") item in
              let sponsor :=
                match sponsor_elem with
                | Some e => Py.strip (Bs4.text e)
                | None => "No sponsor info"
                end in
              Ok (Some (<["bill_number" := VStr bill_number]>
                       (<["title" := VStr title]>
                       (<["status" := VStr status]>
                       (<["sponsor" := VStr sponsor]>
                       (<["url" := VStr bill_url]> (∅ : record)))))))
          end
      end
  end.

(** One turn of the loop of [parse_search_results]: the body under its
    [try], the time stamp last, and [except Exception: continue]. *)
Definition parse_item (item : Bs4.node) : M (option record) :=
  try_except
    (fields <- lift (item_fields item) ;;
     match fields with
     | None => ret None
     | Some r => t <- now ;; ret (Some (<["scraped_at" := VStr t]> r))
     end)
    (fun _ => ret None).

(** [_parse_bill_item] of [scraper.py] is the same computation, with
    [return None] for [continue] and for the handler. *)
Definition _parse_bill_item (item_soup : Bs4.node) : M (option record) :=
  parse_item item_soup.

Fixpoint parse_items (items : list Bs4.node) (results : list record) : M (list record) :=
  match items with
  | [] => ret results
  | item :: rest =>
      r <- parse_item item ;;
      parse_items rest (match r with Some x => results ++ [x] | None => results end)
  end.

Definition parse_search_results (html : string) : M (list record) :=
  soup <- BeautifulSoup html ;;
  let items := Bs4.find_all "li" (Some "expanded") soup in
  parse_items items [].

Definition _extract_committees (soup : Bs4.node) : list string :=
  match Bs4.find "div" (Some "committees") soup with
  | Some committee_div =>
      map (fun item => Py.strip (Bs4.text item)) (Bs4.find_all "li" None committee_div)
  | None => []
  end.

Definition _extract_actions (soup : Bs4.node) : list (string * string) :=
  match Bs4.find "table" (Some "actions") soup with
  | Some action_table =>
      flat_map
        (fun row =>
           match Bs4.find_all "td" None row with
           | c0 :: c1 :: _ => [(Py.strip (Bs4.text c0), Py.strip (Bs4.text c1))]
           | _ => []
           end)
        (tail (Bs4.find_all "tr" None action_table))
  | None => []
  end.

Definition _extract_cosponsors (soup : Bs4.node) : list string :=
  match Bs4.find "div" (Some "cosponsors") soup with
  | Some cosponsor_div =>
      map (fun item => Py.strip (Bs4.text item)) (Bs4.find_all "li" None cosponsor_div)
  | None => []
  end.

Definition _extract_last_action_date (soup : Bs4.node) : value :=
  match Bs4.find "span" (Some "last-action") soup with
  | Some last_action => VStr (Py.strip (Bs4.text last_action))
  | None => VNone
  end.

Definition _extract_introduced_date (soup : Bs4.node) : value :=
  match Bs4.find "span" (Some "introduced-date") soup with
  | Some introduced => VStr (Py.strip (Bs4.text introduced))
  | None => VNone
  end.

(** The dictionary [details] of [scrape_item]. *)
Definition details_of (url : string) (soup : Bs4.node) (scraped_at : string) : record :=
  <["url" := VStr url]>
  (<["committees" := VList (_extract_committees soup)]>
  (<["actions" := VActions (_extract_actions soup)]>
  (<["cosponsors" := VList (_extract_cosponsors soup)]>
  (<["last_action_date" := _extract_last_action_date soup]>
  (<["introduced_date" := _extract_introduced_date soup]>
  (<["scraped_at" := VStr scraped_at]> (∅ : record))))))).

Definition scrape_item (url : string) : M record :=
  try_except
    (html <- get url ;;
     soup <- BeautifulSoup html ;;
     t <- now ;;
     ret (details_of url soup t))
    (fun _ => ret ∅).

(** The two methods of the interface [SourceScraper], by class. *)
Definition parse_search_results_of (c : scraper_class) : string -> M (list record) :=
  match c with
  | LegislationScraper => parse_search_results
  end.

Definition scrape_item_of (c : scraper_class) : string -> M record :=
  match c with
  | LegislationScraper => scrape_item
  end.

(* ===================================================================== *)
(** * [CongressScraper]                                                   *)
(* ===================================================================== *)

(** [_init_session]: opens the session and registers the scrapers. *)
Definition _init_session : M unit :=
  fun s =>
    Return tt (mkState (tick s) (trace s ++ [SessionOpened])
                       (<["legislation" := LegislationScraper]> (scrapers s))).

(** [await self.session.close()] *)
Definition session_close : M unit :=
  fun s => Return tt (mkState (tick s) (trace s ++ [SessionClosed]) (scrapers s)).

(** [self.scrapers.get(source)] *)
Definition scrapers_get (src : string) : M (option scraper_class) :=
  fun s => Return (scrapers s !! src) s.

(** [item['url']] *)
Definition item_url (item : record) : M string :=
  match item !! "url" with
  | Some (VStr u) => ret u
  | _ => raise (Exception "KeyError")
  end.

(** The loop over the parsed items of [_scrape_page]. *)
Fixpoint detail_items (scraper : scraper_class) (items detailed_items : list record)
  : M (list record) :=
  match items with
  | [] => ret detailed_items
  | item :: rest =>
      url <- item_url item ;;
      details <- scrape_item_of scraper url ;;
      detail_items scraper rest (detailed_items ++ [update item details])
  end.

Definition _scrape_page (job : ScrapingJob) : M (list record) :=
  let url := _build_search_url (CInt (congress job)) (source job) (page job) in
  try_except
    (html <- get url ;;
     scraper <- scrapers_get (source job) ;;
     match scraper with
     | None => ret []
     | Some scraper =>
         items <- parse_search_results_of scraper html ;;
         detail_items scraper items []
     end)
    (fun _ => ret []).

(** [range(start, stop, -1)] *)
Definition range_down (start stop : Z) : list Z :=
  map (fun i => start - Z.of_nat i) (seq 0 (Z.to_nat (start - stop))).

(** The jobs put on the queue before the loop; [elements] gives the order
    in which the set of sources is iterated. *)
Definition initial_jobs (start_congress end_congress : Z) (sources : gset string)
  : list ScrapingJob :=
  flat_map (fun c => map (fun src => new_job c src) (elements sources))
           (range_down start_congress (end_congress - 1)).

(** [if items: job_queue.put(ScrapingJob(congress, source, page + 1))],
    as the list of jobs that are put. *)
Definition continuation (job : ScrapingJob) (items : list record) : list ScrapingJob :=
  match items with
  | [] => []
  | _ :: _ => [mkJob (congress job) (source job) (page job + 1)]
  end.

(** One turn of the [while] loop, for the job taken from the head of the
    queue: the queue and the results after it. *)
Definition process_job (job : ScrapingJob) (rest : list ScrapingJob) (results : list record)
  : M (list ScrapingJob * list record) :=
  items <- _scrape_page job ;;
  ret (rest ++ continuation job items, results ++ items).

(** [while not job_queue.empty(): ...]; a turn costs one unit of [fuel]. *)
Fixpoint drain (fuel : nat) (job_queue : list ScrapingJob) (results : list record)
  {struct fuel} : M (list record) :=
  match job_queue with
  | [] => ret results
  | job :: rest =>
      match fuel with
      | O => fun _ => OutOfFuel
      | S fuel' =>
          qr <- process_job job rest results ;;
          drain fuel' (fst qr) (snd qr)
      end
  end.

(** [with ThreadPoolExecutor(max_workers=self.max_workers) as executor]: the
    constructor of the pool raises [ValueError] for a budget of 0 or less.
    The pool is never given any work, so that entering and leaving it does
    nothing else. *)
Definition ThreadPoolExecutor (max_workers : Z) : M unit :=
  if max_workers <=? 0 then raise (Exception "ValueError") else ret tt.

(** [CongressScraper.scrape] of a scraper made with the budget
    [max_workers]. The pool is made after the session is opened and the
    queue is filled; nothing catches what its constructor raises. *)
Definition scrape (fuel : nat) (max_workers : Z) (start_congress end_congress : Z)
    (sources : gset string) : M (list record) :=
  _init_session ;;;
  let job_queue := initial_jobs start_congress end_congress sources in
  ThreadPoolExecutor max_workers ;;;
  results <- drain fuel job_queue [] ;;
  session_close ;;;
  ret results.

End World.

(* ===================================================================== *)
(** * Example worlds                                                      *)
(* ===================================================================== *)

Module Examples.

Definition link (number href : string) : Bs4.node :=
  Bs4.Tag "h2" ["item-name"] []
    [Bs4.Tag "a" [] [("href", href)] [Bs4.Text number]].

Definition span (cls txt : string) : Bs4.node :=
  Bs4.Tag "span" [cls] [] [Bs4.Text txt].

(** A complete listing item. *)
Definition item_full : Bs4.node :=
  Bs4.Tag "li" ["expanded"] []
    [link " H.R.1 " "/bill/119th-congress/house-bill/1";
     Bs4.Tag "p" ["item-description"] [] [Bs4.Text "An Act "];
     span "status" "Introduced";
     span "sponsor" "Rep. A"].

(** An item with a title and a link and nothing else. *)
Definition item_bare : Bs4.node :=
  Bs4.Tag "li" ["expanded"] [] [link "S.2" "/bill/119th-congress/senate-bill/2"].

(** An item without its title element, one whose title has no link, and one
    whose link has no [href]. *)
Definition item_untitled : Bs4.node :=
  Bs4.Tag "li" ["expanded"] [] [span "status" "Introduced"].

Definition item_unlinked : Bs4.node :=
  Bs4.Tag "li" ["expanded"] [] [Bs4.Tag "h2" ["item-name"] [] [Bs4.Text "H.R.3"]].

Definition item_no_href : Bs4.node :=
  Bs4.Tag "li" ["expanded"] []
    [Bs4.Tag "h2" ["item-name"] [] [Bs4.Tag "a" [] [] [Bs4.Text "H.R.4"]]].

Definition page_of (items : list Bs4.node) : Bs4.node :=
  Bs4.Tag "html" [] [] [Bs4.Tag "ol" ["basic-search-results-lists"] [] items].

Definition detail_page : Bs4.node :=
  Bs4.Tag "html" [] []
    [Bs4.Tag "div" ["committees"] [] [Bs4.Tag "li" [] [] [Bs4.Text " Judiciary "]];
     Bs4.Tag "table" ["actions"] []
       [Bs4.Tag "tr" [] [] [Bs4.Tag "th" [] [] [Bs4.Text "Date"]];
        Bs4.Tag "tr" [] []
          [Bs4.Tag "td" [] [] [Bs4.Text "01/03/2025"];
           Bs4.Tag "td" [] [] [Bs4.Text "Introduced in House"]]];
     span "introduced-date" "01/03/2025"].

(** The parser of the example worlds: a page is named by its content. *)
Definition soup (html : string) : result Bs4.node :=
  if String.eqb html "three" then Ok (page_of [item_full; item_untitled; item_bare; item_full])
  else if String.eqb html "one" then Ok (page_of [item_bare])
  else if String.eqb html "mixed"
       then Ok (page_of [item_untitled; item_full; item_unlinked; item_bare; item_no_href])
  else if String.eqb html "none" then Ok (page_of [])
  else if String.eqb html "detail" then Ok detail_page
  else Err (Exception "ParserRejectedMarkup").

Definition stamp (t : nat) : string :=
  "2025-01-01T00:00:" +:+ NilZero.string_of_uint (Nat.to_uint t).

(** Three listing items on the first page of (119, legislation), none on
    the second; every detail page answers. *)
Definition two_pages : env :=
  mkEnv
    (fun _ url =>
       if String.eqb url (_build_search_url (CInt 119) "legislation" 1) then Ok "three"
       else if String.prefix (base_url +:+ "?") url then Ok "none"
       else Ok "detail")
    stamp soup.

(** Every search page lists one item. *)
Definition endless : env :=
  mkEnv
    (fun _ url => if String.prefix (base_url +:+ "?") url then Ok "one" else Ok "detail")
    stamp soup.

(** Every request fails with a client error. *)
Definition offline : env :=
  mkEnv (fun _ _ => Err (Exception "ClientConnectorError")) stamp soup.

(** The first request is interrupted by the cancellation of the task. *)
Definition cancelled : env :=
  mkEnv (fun _ _ => Err (BaseException "CancelledError")) stamp soup.

(** The search page answers; the detail pages fail. *)
Definition details_down : env :=
  mkEnv
    (fun _ url =>
       if String.prefix (base_url +:+ "?") url then Ok "mixed"
       else Err (Exception "ClientResponseError"))
    stamp soup.

(** A search page that the parser rejects. *)
Definition garbled : env :=
  mkEnv (fun _ _ => Ok "garbage") stamp soup.

Definition job1 : ScrapingJob := new_job 119 "legislation".

Definition ready (t : nat) : state :=
  mkState t [SessionOpened] {["legislation" := LegislationScraper]}.

End Examples.

(* ===================================================================== *)
(** * Vocabulary of the statements                                        *)
(* ===================================================================== *)

(** A string made of printable ASCII characters other than the space. *)
Fixpoint plain (s : string) : bool :=
  match s with
  | EmptyString => true
  | String c r => (32 <? Py.ord c)%N && (Py.ord c <? 127)%N && plain r
  end.

(** What ends, respectively starts, a run of decimal digits. *)
Definition not_digit_head (s : string) : Prop :=
  match s with
  | String c _ => DecimalString.uint_of_char c (Some Decimal.Nil) = None
  | EmptyString => True
  end.

Definition digit_head (s : string) : Prop :=
  match s with
  | String c _ => Json.is_digit c = true
  | EmptyString => False
  end.

(** A string literal of the JSON text, followed by [rest]. *)
Definition lit (s rest : string) : string :=
  String Py.dquote (Json.escape s +:+ String Py.dquote rest).

(** The end of the JSON text: the pagination members when there are any. *)
Definition json_tail (page : Z) : string :=
  if 1 <? page then
    String "," (lit "pageSize" (String ":" ("100" +:+
      String "," (lit "page" (String ":" (Py.str_of_int page +:+ "}"))))))
  else "}".

(** The compact JSON text of the query object. *)
Definition json_text (congress : congress_arg) (source : string) (page : Z) : string :=
  String "{" (lit "congress" (String ":" (lit (congress_str congress)
    (String "," (lit "source" (String ":" (String "[" (lit source
      (String "]" (json_tail page)))))))))).

Definition is_get (e : event) : bool :=
  match e with
  | Get _ => true
  | _ => false
  end.

(** The state [s'] comes after [s] with requests as the only new events
    and the same registry. *)
Definition extends (s s' : state) : Prop :=
  scrapers s' = scrapers s /\
  exists mid, trace s' = trace s ++ mid /\ Forall (fun e => is_get e = true) mid.

(** A computation that touches the session by requests only. *)
Definition requests_only {A} (m : M A) : Prop :=
  forall s,
    match m s with
    | Return _ s' | Raise _ s' => extends s s'
    | OutOfFuel => True
    end.

(** A computation that returns, or raises inside [Exception]. *)
Definition mild {A} (m : M A) : Prop :=
  forall s,
    match m s with
    | Return _ _ | Raise (Exception _) _ => True
    | _ => False
    end.

(** A computation that returns. *)
Definition total {A} (m : M A) : Prop :=
  forall s, match m s with Return _ _ => True | _ => False end.

(** A computation that does not raise: it returns or the fuel runs out. *)
Definition quiet {A} (m : M A) : Prop :=
  forall s, match m s with Raise _ _ => False | _ => True end.

(** A world whose failures are all of class [Exception]. *)
Definition only_exceptions (E : env) : Prop :=
  (forall t url e, http_get E t url = Err e -> exists cls, e = Exception cls) /\
  (forall html e, soup_of E html = Err e -> exists cls, e = Exception cls).

(** A world in which no job of page [bound] or more has results. *)
Definition pages_end (E : env) (bound : Z) : Prop :=
  forall job s items s',
    bound <= page job -> _scrape_page E job s = Return items s' -> items = [].

(** The turns that a queue can still cost when pages end at [bound]. *)
Definition weight (bound : Z) (job : ScrapingJob) : nat :=
  S (Z.to_nat (bound - page job)).

Definition total_weight (bound : Z) (queue : list ScrapingJob) : nat :=
  list_sum (map (weight bound) queue).

(** The search-result fields that the enrichment must leave alone. *)
Definition search_field (k : string) : Prop :=
  k = "bill_number" \/ k = "title" \/ k = "status" \/ k = "sponsor".

(** The record of a listing item without its time stamp, when the item is
    kept. *)
Definition kept_fields (item : Bs4.node) : option record :=
  match item_fields item with
  | Ok (Some r) => Some r
  | _ => None
  end.

(** The state after a request and after a reading of the clock. *)
Definition after_get (s : state) (url : string) : state :=
  mkState (S (tick s)) (trace s ++ [Get url]) (scrapers s).

Definition after_now (s : state) : state :=
  mkState (S (tick s)) (trace s) (scrapers s).

(** The text of an element, or a placeholder when it is absent. *)
Definition or_default (elem : option Bs4.node) (default : string) : value :=
  VStr (match elem with
        | Some e => Py.strip (Bs4.text e)
        | None => default
        end).


(** A record with its time stamp and the URL of its detail page. *)
Definition stamped_with_url (r : record) : Prop :=
  (exists t, r !! "scraped_at" = Some (VStr t)) /\ (exists u, r !! "url" = Some (VStr u)).

(** The URL that [_scrape_page] requests for a job. *)
Definition search_url (job : ScrapingJob) : string :=
  _build_search_url (CInt (congress job)) (source job) (page job).


(** A string made of printable ASCII characters, the space included. *)
Fixpoint printable (s : string) : bool :=
  match s with
  | EmptyString => true
  | String c r => (32 <=? Py.ord c)%N && (Py.ord c <? 127)%N && printable r
  end.


(* ===================================================================== *)
(** * [url_test.py]: decoding a built URL                                 *)
(* ===================================================================== *)

(** [s.split(sep)] for a separator that is not empty: the pieces between
    the occurrences of [sep], found from the left without overlap. [skip]
    counts the characters of an occurrence still to pass, [cur] is the piece
    being read. *)
Fixpoint split_go (sep : string) (skip : nat) (cur s : string) : list string :=
  match s with
  | EmptyString => [cur]
  | String c r =>
      match skip with
      | S k => split_go sep k cur r
      | O =>
          if String.prefix sep s
          then cur :: split_go sep (String.length sep - 1) "" r
          else split_go sep 0 (cur +:+ String c "") r
      end
  end.

Definition str_split (sep s : string) : list string := split_go sep 0 "" s.

(** The steps of [test_url_builder]: [unquote] on the whole URL, the piece
    of index 1 of [split('?q=')], then [json.loads]. [None] stands for the
    [IndexError] and the [JSONDecodeError]. *)
Definition test_url_builder_query (url : string) : option Json.json :=
  match Urllib.unquote url with
  | Some decoded_url =>
      match nth_error (str_split "?q=" decoded_url) 1 with
      | Some q_param => Json.loads q_param
      | None => None
      end
  | None => None
  end.

(** Whether [sep] occurs in [s]. *)
Fixpoint occurs (sep s : string) : bool :=
  String.prefix sep s
  || match s with
     | EmptyString => false
     | String _ r => occurs sep r
     end.

(** The matcher of the text [?q=]: [k] of its characters have just been
    read. *)
Definition q_step (k : nat) (c : ascii) : nat :=
  match k with
  | 1%nat => if Ascii.eqb c "q" then 2%nat else if Ascii.eqb c "?" then 1%nat else 0%nat
  | 2%nat => if Ascii.eqb c "=" then 3%nat else if Ascii.eqb c "?" then 1%nat else 0%nat
  | _ => if Ascii.eqb c "?" then 1%nat else 0%nat
  end.

Fixpoint q_run (k : nat) (s : string) : bool :=
  match s with
  | EmptyString => false
  | String c r => Nat.eqb (q_step k c) 3 || q_run (q_step k c) r
  end.

(** The state of the matcher after a string. *)
Fixpoint q_state (k : nat) (s : string) : nat :=
  match s with
  | EmptyString => k
  | String c r => q_state (q_step k c) r
  end.

(* ===================================================================== *)
(** * [scraper.py]: the synchronous scraper                               *)
(* ===================================================================== *)

Module Sync.

(** The world of [requests]: a response has a status code beside its
    content. *)
Record requests_env : Type := mkRequestsEnv {
  world : env;
  status_code : nat -> string -> Z
}.

Definition base_url : string := "https://www.congress.gov".

(** [bill_items[:limit]] *)
Definition slice_to {A} (limit : Z) (l : list A) : list A :=
  if 0 <=? limit then firstn (Z.to_nat limit) l
  else firstn (length l - Z.to_nat (- limit)) l.

(** The truth value of [None] and of a dictionary. *)
Definition truthy (d : option record) : bool :=
  match d with
  | Some r => negb (Nat.eqb (size r) 0)
  | None => false
  end.

(** [response.raise_for_status()] *)
Definition raise_for_status (status : Z) : M unit :=
  if (400 <=? status) && (status <? 600) then raise (Exception "HTTPError") else ret tt.

(** [time.sleep(1)]: a moment passes. *)
Definition sleep : M unit := fun s => Return tt (after_now s).

Definition _extract_full_text (soup : Bs4.node) : string :=
  match Bs4.find "div" (Some "generated-text-container") soup with
  | Some text_div => Py.strip (Bs4.text text_div)
  | None => "Full text not available"
  end.

(** The dictionary [details] of [get_bill_details]; the three extractors
    are those of [congress_scraper.py], word for word. *)
Definition details_of (bill_url : string) (soup : Bs4.node) (scraped_at : string) : record :=
  <["url" := VStr bill_url]>
  (<["full_text" := VStr (_extract_full_text soup)]>
  (<["committees" := VList (_extract_committees soup)]>
  (<["actions" := VActions (_extract_actions soup)]>
  (<["cosponsors" := VList (_extract_cosponsors soup)]>
  (<["scraped_at" := VStr scraped_at]> (∅ : record)))))).

Section SyncWorld.

Variable R : requests_env.

(** [response = self.session.get(url)] *)
Definition session_get (url : string) : M (Z * string) :=
  fun s =>
    match http_get (world R) (tick s) url with
    | Ok content => Return (status_code R (tick s) url, content) (after_get s url)
    | Err e => Raise e (after_get s url)
    end.

(** What the body of the loop of [get_recent_bills] does with the result of
    [_parse_bill_item]: the list [bills] after it, and whether the log line,
    which reads [bill_info['bill_number']], raised. *)
Definition keep_bill (bill_info : option record) (bills : list record) (s : state)
  : list record * outcome unit :=
  match bill_info with
  | Some r =>
      if truthy bill_info then
        match r !! "bill_number" with
        | Some _ => (bills ++ [r], Return tt s)
        | None => (bills ++ [r], Raise (Exception "KeyError") s)
        end
      else (bills, Return tt s)
  | None => (bills, Return tt s)
  end.

(** The loop of [get_recent_bills]. The list [bills] outlives an exception:
    the result is the list and the way the loop ended. *)
Fixpoint bills_loop (items : list Bs4.node) (bills : list record) (s : state)
  : list record * outcome unit :=
  match items with
  | [] => (bills, Return tt s)
  | item :: rest =>
      match _parse_bill_item (world R) item s with
      | Return bill_info s1 =>
          match keep_bill bill_info bills s1 with
          | (bills', Return _ s2) =>
              match sleep s2 with
              | Return _ s3 => bills_loop rest bills' s3
              | Raise e s3 => (bills', Raise e s3)
              | OutOfFuel => (bills', OutOfFuel)
              end
          | stopped => stopped
          end
      | Raise e s1 => (bills, Raise e s1)
      | OutOfFuel => (bills, OutOfFuel)
      end
  end.

(** The statements of [get_recent_bills] before its loop. *)
Definition fetch_bill_items (congress_number : Z) : M (list Bs4.node) :=
  let url := base_url +:+ "/browse/bills-" +:+ Py.str_of_int congress_number
             +:+ "th-congress/all" in
  (response <- session_get url ;;
   raise_for_status (fst response) ;;;
   soup <- BeautifulSoup (world R) (snd response) ;;
   ret (Bs4.find_all "li" (Some "expanded") soup))%py.

(** [get_recent_bills]: [except Exception] returns the list as it stands. *)
Definition get_recent_bills (congress_number limit : Z) : M (list record) :=
  fun s =>
    match fetch_bill_items congress_number s with
    | Return bill_items s1 =>
        match bills_loop (slice_to limit bill_items) [] s1 with
        | (bills, Return _ s2) => Return bills s2
        | (bills, Raise (Exception _) s2) => Return bills s2
        | (_, Raise e s2) => Raise e s2
        | (_, OutOfFuel) => OutOfFuel
        end
    | Raise (Exception _) s1 => Return [] s1
    | Raise e s1 => Raise e s1
    | OutOfFuel => OutOfFuel
    end.

Definition get_bill_details (bill_url : string) : M (option record) :=
  try_except
    (response <- session_get bill_url ;;
     raise_for_status (fst response) ;;;
     soup <- BeautifulSoup (world R) (snd response) ;;
     t <- now (world R) ;;
     ret (Some (details_of bill_url soup t)))%py
    (fun _ => ret None).

(** The loop of [main]: [details = get_bill_details(bill['url'])] and
    [if details: bill.update(details)]. *)
Fixpoint enrich_bills (bills done : list record) : M (list record) :=
  match bills with
  | [] => ret done
  | bill :: rest =>
      (url <- item_url bill ;;
       details <- get_bill_details url ;;
       enrich_bills rest
         (done ++ [match details with
                   | Some d => if truthy details then update bill d else bill
                   | None => bill
                   end]))%py
  end.

(** [main] up to the list handed to [save_to_csv]; writing the file is
    outside the embedding. *)
Definition main_bills : M (list record) :=
  (bills <- get_recent_bills 118 10 ;; enrich_bills bills [])%py.

End SyncWorld.

End Sync.

(* ===================================================================== *)
(** * More vocabulary                                                     *)
(* ===================================================================== *)

(** The URL of a record, the empty string when it has none. *)
Definition record_url (r : record) : string :=
  match r !! "url" with
  | Some (VStr u) => u
  | _ => ""
  end.

(** A string without white space at either end. *)
Definition stripped (s : string) : Prop := Py.lstrip s = s /\ Py.rstrip s = s.

(** The keys of a record of the search and of an enrichment mapping. *)
Definition search_keys : gset string :=
  {["bill_number"; "title"; "status"; "sponsor"; "url"; "scraped_at"]}.

Definition detail_keys : gset string :=
  {["url"; "committees"; "actions"; "cosponsors"; "last_action_date";
    "introduced_date"; "scraped_at"]}.

(** A job of the configured range and sources, on a page that exists. *)
Definition in_scope (start_congress end_congress : Z) (sources : gset string)
    (job : ScrapingJob) : Prop :=
  end_congress <= congress job <= start_congress /\ source job ∈ sources /\ 1 <= page job.

(** A request that [scrape] may make: the search page of a job in scope, or
    a page below [https://www.congress.gov]. *)
Definition allowed_request (start_congress end_congress : Z) (sources : gset string)
    (e : event) : Prop :=
  (exists job, in_scope start_congress end_congress sources job /\ e = Get (search_url job))
  \/ (exists href, e = Get ("https://www.congress.gov" +:+ href)).

(** The state [s'] comes after [s] with events that satisfy [P] as the only
    new ones. *)
Definition extends_by (P : event -> Prop) (s s' : state) : Prop :=
  exists mid, trace s' = trace s ++ mid /\ Forall P mid.

Definition events_in {A} (P : event -> Prop) (m : M A) : Prop :=
  forall s,
    match m s with
    | Return _ s' | Raise _ s' => extends_by P s s'
    | OutOfFuel => True
    end.

Definition on_site (e : event) : Prop :=
  exists href, e = Get ("https://www.congress.gov" +:+ href).

(** A string of unreserved characters, percent signs and plus signs. *)
Fixpoint url_value (s : string) : bool :=
  match s with
  | EmptyString => true
  | String c r =>
      (Urllib.always_safe c || Ascii.eqb c "%" || Ascii.eqb c "+") && url_value r
  end.

(** A record as [parse_search_results] makes it: the fields of a kept item
    and a time stamp. *)
Definition parsed_record (r : record) : Prop :=
  exists item r0 t, kept_fields item = Some r0 /\ r = <["scraped_at" := VStr t]> r0.

(** What [_scrape_page] makes of a parsed record: the record itself when the
    detail scrape failed, the record updated with the details otherwise. *)
Definition enriched (item final : record) : Prop :=
  final = item
  \/ exists soup t, final = update item (details_of (record_url item) soup t).

(** The URL that [get_recent_bills] requests, and the statuses for which
    [raise_for_status] raises. *)
Definition bills_url (congress_number : Z) : string :=
  Sync.base_url +:+ "/browse/bills-" +:+ Py.str_of_int congress_number +:+ "th-congress/all".

Definition error_status (status : Z) : bool := (400 <=? status) && (status <? 600).

(** Example worlds of the synchronous scraper. *)
Module SyncExamples.

(** The listing of the 118th congress has five items, two of them kept; the
    other pages are detail pages; every status is 200. *)
Definition listing : Sync.requests_env :=
  Sync.mkRequestsEnv
    (mkEnv (fun _ url => if String.eqb url (bills_url 118) then Ok "mixed" else Ok "detail")
           Examples.stamp Examples.soup)
    (fun _ _ => 200).

(** The same pages, answered with the status 404. *)
Definition not_found : Sync.requests_env :=
  Sync.mkRequestsEnv (Sync.world listing) (fun _ _ => 404).

End SyncExamples.
(* ===================================================================== *)
(** * Facts about strings, numbers and the codecs                         *)
(* ===================================================================== *)

Section StringFacts.

Lemma append_assoc (a b c : string) : (a +:+ b) +:+ c = a +:+ (b +:+ c).
Proof. induction a as [|x a IH]; simpl; [reflexivity | now rewrite IH]. Qed.

Lemma append_nil_r (a : string) : a +:+ "" = a.
Proof. induction a as [|x a IH]; simpl; [reflexivity | now rewrite IH]. Qed.

Lemma plain_app (a b : string) : plain (a +:+ b) = plain a && plain b.
Proof.
  induction a as [|x a IH]; simpl; [reflexivity|].
  rewrite IH. now rewrite andb_assoc.
Qed.

End StringFacts.

Ltac each_char c := destruct c as [[] [] [] [] [] [] [] []].

Section CodecFacts.

(** The escaped form of a string without a space is plain. *)
Lemma plain_escape (s : string) : Py.has_space s = false -> plain (Json.escape s) = true.
Proof.
  induction s as [|c s IH]; simpl; [reflexivity|].
  intros H. apply orb_false_iff in H as [Hc Hs].
  rewrite plain_app, (IH Hs), andb_true_r.
  clear IH Hs. revert Hc. each_char c; vm_compute; congruence.
Qed.

(** [scanstring] undoes the escape of one character. *)
Lemma scanstring_escape_char (c : ascii) (tail : string) :
  Json.scanstring (Json.escape_char c +:+ tail) = Json.prepend c <$> Json.scanstring tail.
Proof. each_char c; reflexivity. Qed.

(** [scanstring] reads back what [escape] wrote, up to the closing quote. *)
Lemma scanstring_escape (s rest : string) :
  Json.scanstring (Json.escape s +:+ String Py.dquote rest) = Some (s, rest).
Proof.
  induction s as [|c s IH]; [reflexivity|].
  change (Json.escape (String c s)) with (Json.escape_char c +:+ Json.escape s).
  rewrite append_assoc, scanstring_escape_char, IH. reflexivity.
Qed.

(** ** Percent-encoding *)

Lemma unquote_quote_plus_char (c : ascii) (tail : string) :
  (32 <? Py.ord c)%N && (Py.ord c <? 127)%N = true ->
  Urllib.unquote (Urllib.quote_plus_char c +:+ tail) = String c <$> Urllib.unquote tail.
Proof. each_char c; intros H; try discriminate H; reflexivity. Qed.

Lemma unquote_quote_plus (s : string) :
  plain s = true -> Urllib.unquote (Urllib.quote_plus s) = Some s.
Proof.
  induction s as [|c s IH]; [reflexivity|].
  simpl plain. intros H. apply andb_true_iff in H as [Hc Hs].
  change (Urllib.quote_plus (String c s))
    with (Urllib.quote_plus_char c +:+ Urllib.quote_plus s).
  rewrite (unquote_quote_plus_char _ _ Hc), (IH Hs). reflexivity.
Qed.


(** ** Decimal numbers *)

Lemma scan_digits_string_of_uint (u : Decimal.uint) (rest : string) :
  not_digit_head rest ->
  Json.scan_digits (NilEmpty.string_of_uint u +:+ rest) = (u, rest).
Proof.
  intros Hrest. induction u; simpl; try (rewrite IHu; reflexivity).
  destruct rest as [|c r]; [reflexivity|]. simpl in *. now rewrite Hrest.
Qed.

Lemma plain_string_of_uint (u : Decimal.uint) : plain (NilEmpty.string_of_uint u) = true.
Proof. induction u; simpl; auto. Qed.

Lemma nzhead_not_D0 (d : Decimal.uint) :
  match Decimal.nzhead d with Decimal.D0 _ => False | _ => True end.
Proof. induction d; simpl; auto. Qed.

Lemma well_formed_unorm (d : Decimal.uint) : Json.well_formed_digits (Decimal.unorm d) = true.
Proof.
  unfold Decimal.unorm. pose proof (nzhead_not_D0 d) as H.
  destruct (Decimal.nzhead d); simpl; auto; contradiction.
Qed.

Lemma to_uint_unorm (p : positive) : Pos.to_uint p = Decimal.unorm (Pos.to_uint p).
Proof.
  rewrite <- DecimalPos.Unsigned.to_of, DecimalPos.Unsigned.of_to. reflexivity.
Qed.

Lemma well_formed_to_uint (p : positive) : Json.well_formed_digits (Pos.to_uint p) = true.
Proof. rewrite to_uint_unorm. apply well_formed_unorm. Qed.

Lemma of_uint_to_uint (p : positive) : Z.of_uint (Pos.to_uint p) = Z.pos p.
Proof. unfold Z.of_uint. now rewrite DecimalPos.Unsigned.of_to. Qed.

Lemma str_of_int_pos (p : positive) :
  Py.str_of_int (Z.pos p) = NilEmpty.string_of_uint (Pos.to_uint p).
Proof.
  unfold Py.str_of_int. simpl. unfold NilZero.string_of_uint.
  pose proof (DecimalPos.Unsigned.to_uint_nonnil p).
  destruct (Pos.to_uint p); congruence.
Qed.

(** A positive number is read back from its decimal form when what follows
    ends it. *)
Lemma scan_int_str_of_int (p : positive) (rest : string) :
  not_digit_head rest -> Json.starts_float rest = false ->
  Json.scan_int (Py.str_of_int (Z.pos p) +:+ rest) = Some (Z.pos p, rest).
Proof.
  intros Hd Hf. rewrite str_of_int_pos.
  pose proof (DecimalPos.Unsigned.to_uint_nonnil p) as Hnil.
  pose proof (well_formed_to_uint p) as Hwf.
  pose proof (of_uint_to_uint p) as Hval.
  pose proof (scan_digits_string_of_uint (Pos.to_uint p) rest Hd) as Hscan.
  unfold Json.scan_int.
  destruct (Pos.to_uint p) as [|u|u|u|u|u|u|u|u|u|u] eqn:E; [congruence| ..];
    (cbn [NilEmpty.string_of_uint String.append Ascii.eqb Bool.eqb];
     cbn [NilEmpty.string_of_uint String.append] in Hscan;
     rewrite Hscan; cbn [fst snd]; rewrite Hwf, Hf, Hval; reflexivity).
Qed.

Lemma plain_str_of_int_pos (p : positive) : plain (Py.str_of_int (Z.pos p)) = true.
Proof. rewrite str_of_int_pos. apply plain_string_of_uint. Qed.

End CodecFacts.

(* ===================================================================== *)
(** * The URL builder                                                     *)
(* ===================================================================== *)

Section UrlBuilder.

Lemma dumps_build_query (congress : congress_arg) (source : string) (page : Z) :
  Json.dumps (Json.JObj (build_query congress source page)) = json_text congress source page.
Proof.
  unfold build_query, json_text, json_tail, lit.
  destruct (1 <? page); cbn -[Py.str_of_int Json.escape];
    unfold Json.encode_basestring_ascii;
    repeat first [rewrite append_assoc | progress cbn -[Py.str_of_int Json.escape]];
    reflexivity.
Qed.


Lemma length_json_text (congress : congress_arg) (source : string) (page : Z) :
  exists n, String.length (json_text congress source page) = (7 + n)%nat.
Proof. unfold json_text, lit. cbn -[Json.escape json_tail]. eexists. reflexivity. Qed.

(** *** The rules of the reader, one per construct *)

Lemma scan_once_lit (f : nat) (s rest : string) :
  Json.scan_once (S f) (Json.skip_ws (lit s rest)) = Some (Json.JStr s, rest).
Proof.
  unfold lit.
  transitivity ((fun p : string * string => (Json.JStr p.1, p.2))
                  <$> Json.scanstring (Json.escape s +:+ String Py.dquote rest));
    [reflexivity|].
  now rewrite scanstring_escape.
Qed.

Lemma scan_once_digit (f : nat) (s : string) :
  digit_head s ->
  Json.scan_once (S f) (Json.skip_ws s)
  = (fun p : Z * string => (Json.JInt p.1, p.2)) <$> Json.scan_int s.
Proof.
  destruct s as [|c r]; [contradiction|]. unfold digit_head.
  each_char c; intros H; try discriminate H; reflexivity.
Qed.

Lemma digit_head_str_of_int (p : positive) (rest : string) :
  digit_head (Py.str_of_int (Z.pos p) +:+ rest).
Proof.
  rewrite str_of_int_pos.
  pose proof (DecimalPos.Unsigned.to_uint_nonnil p) as Hnil.
  destruct (Pos.to_uint p); [congruence| ..]; reflexivity.
Qed.

Lemma scan_once_int (f : nat) (p : positive) (rest : string) :
  not_digit_head rest -> Json.starts_float rest = false ->
  Json.scan_once (S f) (Json.skip_ws (Py.str_of_int (Z.pos p) +:+ rest))
  = Some (Json.JInt (Z.pos p), rest).
Proof.
  intros Hd Hf.
  rewrite scan_once_digit by apply digit_head_str_of_int.
  now rewrite scan_int_str_of_int.
Qed.

Lemma scan_members_eq f acc r :
  Json.scan_members (S f) acc (String Py.dquote r)
  = match Json.scanstring r with
    | Some (k, r1) =>
        match Json.skip_ws r1 with
        | String c2 r2 =>
            if Ascii.eqb c2 ":" then
              match Json.scan_once f (Json.skip_ws r2) with
              | Some (v, r3) =>
                  match Json.skip_ws r3 with
                  | String c4 r4 =>
                      if Ascii.eqb c4 "," then
                        Json.scan_members f (Py.dict_set k v acc) (Json.skip_ws r4)
                      else if Ascii.eqb c4 "}" then
                        Some (Json.JObj (Py.dict_set k v acc), r4)
                      else None
                  | EmptyString => None
                  end
              | None => None
              end
            else None
        | EmptyString => None
        end
    | None => None
    end.
Proof. reflexivity. Qed.

Lemma scan_members_lit f acc k body :
  Json.scan_members (S f) acc (lit k (String ":" body))
  = match Json.scan_once f (Json.skip_ws body) with
    | Some (v, r3) =>
        match Json.skip_ws r3 with
        | String c4 r4 =>
            if Ascii.eqb c4 "," then
              Json.scan_members f (Py.dict_set k v acc) (Json.skip_ws r4)
            else if Ascii.eqb c4 "}" then
              Some (Json.JObj (Py.dict_set k v acc), r4)
            else None
        | EmptyString => None
        end
    | None => None
    end.
Proof. unfold lit. rewrite scan_members_eq, scanstring_escape. reflexivity. Qed.

(** A member [key:value] followed by a comma: the loop goes on. *)
Lemma scan_members_comma f acc k body v r4 :
  Json.scan_once f (Json.skip_ws body) = Some (v, String "," r4) ->
  Json.scan_members (S f) acc (lit k (String ":" body))
  = Json.scan_members f (Py.dict_set k v acc) (Json.skip_ws r4).
Proof. intros Hv. rewrite scan_members_lit, Hv. reflexivity. Qed.

(** A member followed by the closing brace: the object is complete. *)
Lemma scan_members_end f acc k body v r4 :
  Json.scan_once f (Json.skip_ws body) = Some (v, String "}" r4) ->
  Json.scan_members (S f) acc (lit k (String ":" body))
  = Some (Json.JObj (Py.dict_set k v acc), r4).
Proof. intros Hv. rewrite scan_members_lit, Hv. reflexivity. Qed.

(** A list of one string. *)
Lemma scan_once_list1 f s rest :
  Json.scan_once (S (S (S f))) (Json.skip_ws (String "[" (lit s (String "]" rest))))
  = Some (Json.JList [Json.JStr s], rest).
Proof.
  transitivity
    (match Json.scan_once (S f) (Json.skip_ws (lit s (String "]" rest))) with
     | Some (v, r1) =>
         match Json.skip_ws r1 with
         | String c2 r2 =>
             if Ascii.eqb c2 "," then Json.scan_elements (S f) ([] ++ [v]) (Json.skip_ws r2)
             else if Ascii.eqb c2 "]" then Some (Json.JList ([] ++ [v]), r2)
             else None
         | EmptyString => None
         end
     | None => None
     end); [reflexivity|].
  rewrite scan_once_lit. reflexivity.
Qed.

(** An object that opens on a key. *)
Lemma scan_once_object f k rest :
  Json.scan_once (S f) (String "{" (lit k rest)) = Json.scan_members f [] (lit k rest).
Proof. reflexivity. Qed.

Lemma skip_ws_lit k rest : Json.skip_ws (lit k rest) = lit k rest.
Proof. reflexivity. Qed.

(** Reading the JSON text gives the query object back. *)
Lemma scan_once_json_text (congress : congress_arg) (source : string) (page : Z) (n : nat) :
  Json.scan_once (7 + n) (json_text congress source page)
  = Some (Json.JObj (build_query congress source page), "").
Proof.
  unfold json_text, json_tail, build_query.
  change (7 + n)%nat with (S (S (S (S (S (S (S n))))))).
  rewrite scan_once_object.
  erewrite scan_members_comma by apply scan_once_lit.
  rewrite skip_ws_lit.
  destruct (1 <? page) eqn:Hpage.
  - destruct page as [|p|p]; try discriminate Hpage.
    erewrite scan_members_comma by apply scan_once_list1.
    rewrite skip_ws_lit.
    erewrite scan_members_comma by reflexivity.
    rewrite skip_ws_lit.
    erewrite scan_members_end by (apply scan_once_int; reflexivity).
    reflexivity.
  - erewrite scan_members_end by apply scan_once_list1.
    reflexivity.
Qed.

Lemma loads_json_text (congress : congress_arg) (source : string) (page : Z) :
  Json.loads (json_text congress source page)
  = Some (Json.JObj (build_query congress source page)).
Proof.
  unfold Json.loads.
  destruct (length_json_text congress source page) as [n Hn]. rewrite Hn.
  change (Json.skip_ws (json_text congress source page))
    with (json_text congress source page).
  change (S (7 + n)) with (7 + S n)%nat.
  rewrite scan_once_json_text. reflexivity.
Qed.

Lemma plain_lit (s rest : string) :
  Py.has_space s = false -> plain rest = true -> plain (lit s rest) = true.
Proof.
  intros Hs Hr. unfold lit.
  change (plain (String Py.dquote ?x)) with (plain x).
  rewrite plain_app, (plain_escape _ Hs). exact Hr.
Qed.

Lemma plain_json_text (congress : congress_arg) (source : string) (page : Z) :
  Py.has_space (congress_str congress) = false ->
  Py.has_space source = false ->
  plain (json_text congress source page) = true.
Proof.
  intros Hc Hs. unfold json_text, json_tail.
  change (plain (String "{" ?x)) with (plain x).
  repeat first
    [ apply plain_lit; [assumption || reflexivity|]
    | match goal with |- plain (String ?c ?x) = true => change (plain x = true) end ].
  destruct (1 <? page) eqn:Hpage; [|reflexivity].
  destruct page as [|p|p]; try discriminate Hpage.
  repeat first
    [ apply plain_lit; [assumption || reflexivity|]
    | rewrite plain_app, plain_str_of_int_pos; reflexivity
    | match goal with |- plain (String ?c ?x) = true => change (plain x = true) end
    | match goal with |- plain (String.append (String ?c ?a) ?x) = true =>
        change (plain (String.append a x) = true) end ].
Qed.

Lemma q_param_build_search_url (congress : congress_arg) (source : string) (page : Z) :
  q_param (_build_search_url congress source page)
  = Some (Urllib.quote_plus (json_text congress source page)).
Proof.
  unfold _build_search_url. rewrite dumps_build_query.
  unfold Urllib.urlencode, q_param. cbn [map Py.join fst snd].
  reflexivity.
Qed.

End UrlBuilder.

Section UrlClaims.

Lemma has_space_string_of_uint (u : Decimal.uint) :
  Py.has_space (NilEmpty.string_of_uint u) = false.
Proof. induction u; simpl; auto. Qed.

Lemma has_space_nilzero (u : Decimal.uint) :
  Py.has_space (NilZero.string_of_uint u) = false.
Proof. destruct u; try apply has_space_string_of_uint. reflexivity. Qed.

(** The decimal form of an [int] has no space in it. *)
Lemma has_space_str_of_int (n : Z) : Py.has_space (Py.str_of_int n) = false.
Proof.
  unfold Py.str_of_int. destruct (Z.to_int n); simpl; apply has_space_nilzero.
Qed.

(** [str(n)] is the decimal form of [n]: it reads back as [n]. *)
Lemma int_of_str_of_int (n : Z) :
  option_map Z.of_int (NilZero.int_of_string (Py.str_of_int n)) = Some n.
Proof.
  unfold Py.str_of_int. rewrite NilZero.isi.
  - simpl. now rewrite DecimalZ.of_to.
  - destruct n; simpl; try discriminate.
    intros [= H]. now apply DecimalPos.Unsigned.to_uint_nonnil in H.
  - destruct n; simpl; try discriminate.
    intros [= H]. now apply DecimalPos.Unsigned.to_uint_nonnil in H.
Qed.

Lemma build_search_url_q (congress : congress_arg) (source : string) (page : Z) :
  _build_search_url congress source page
  = base_url +:+ "?q=" +:+
    Urllib.quote_plus (Json.dumps (Json.JObj (build_query congress source page))).
Proof. reflexivity. Qed.

(** C2. The query object that [_build_search_url] serialises into the [q]
    parameter has the key [pageSize] exactly when [page > 1], and the key
    [page] exactly when [page > 1]; their values are then 100 and the page.
    For [page = 1] the JSON text consists of the members [congress] and
    [source] alone. *)
Theorem pagination_keys_iff_page_gt_1 (congress : congress_arg) (source : string) (page : Z) :
  let query := build_query congress source page in
  _build_search_url congress source page
    = base_url +:+ "?q=" +:+ Urllib.quote_plus (Json.dumps (Json.JObj query))
  /\ (In "pageSize" (map fst query) <-> 1 < page)
  /\ (In "page" (map fst query) <-> 1 < page)
  /\ (Py.dict_get "pageSize" query = Some (Json.JInt 100)
      /\ Py.dict_get "page" query = Some (Json.JInt page) <-> 1 < page)
  /\ Py.dict_get "pageSize" query = (if 1 <? page then Some (Json.JInt 100) else None)
  /\ Py.dict_get "page" query = (if 1 <? page then Some (Json.JInt page) else None)
  /\ map fst (build_query congress source 1) = ["congress"; "source"]
  /\ Json.dumps (Json.JObj (build_query congress source 1))
     = "{" +:+ Json.encode_basestring_ascii "congress" +:+ ":"
           +:+ Json.encode_basestring_ascii (congress_str congress) +:+ ","
           +:+ Json.encode_basestring_ascii "source" +:+ ":["
           +:+ Json.encode_basestring_ascii source +:+ "]}".
Proof.
  cbv zeta. split; [apply build_search_url_q|].
  assert (Hkeys : map fst (build_query congress source 1) = ["congress"; "source"])
    by reflexivity.
  assert (Htext : Json.dumps (Json.JObj (build_query congress source 1))
     = "{" +:+ Json.encode_basestring_ascii "congress" +:+ ":"
           +:+ Json.encode_basestring_ascii (congress_str congress) +:+ ","
           +:+ Json.encode_basestring_ascii "source" +:+ ":["
           +:+ Json.encode_basestring_ascii source +:+ "]}").
  { rewrite dumps_build_query. unfold json_text, json_tail, lit, Json.encode_basestring_ascii.
    change (1 <? 1) with false. cbv iota.
    repeat first [rewrite append_assoc | progress cbn -[Json.escape]]. reflexivity. }
  unfold build_query. destruct (1 <? page) eqn:Hp.
  - apply Z.ltb_lt in Hp.
    repeat split; auto; try (intros _; cbn; tauto).
  - apply Z.ltb_ge in Hp.
    repeat split; auto; try lia;
      cbn; try (intros [H|[H|[]]]; discriminate H); try (intros [H _]; discriminate H).
Qed.

(** C3. The query object maps [congress] to the string form of the
    argument: the decimal form of an integer, the string itself otherwise,
    so the token "all" stays "all"; it maps [source] to the list of the one
    source. *)
Theorem query_congress_and_source (congress : congress_arg) (source : string) (page : Z)
    (n : Z) (s : string) :
  Py.dict_get "congress" (build_query congress source page)
    = Some (Json.JStr (congress_str congress))
  /\ congress_str (CInt n) = Py.str_of_int n
  /\ option_map Z.of_int (NilZero.int_of_string (Py.str_of_int n)) = Some n
  /\ congress_str (CInt 119) = "119"
  /\ congress_str (CStr s) = s
  /\ Py.dict_get "congress" (build_query (CStr "all") source page) = Some (Json.JStr "all")
  /\ Py.dict_get "source" (build_query congress source page)
     = Some (Json.JList [Json.JStr source])
  /\ Json.dumps (Json.JList [Json.JStr source]) = "[" +:+ Json.encode_basestring_ascii source +:+ "]".
Proof.
  repeat split; try reflexivity; try apply int_of_str_of_int;
    unfold build_query; destruct (1 <? page); reflexivity.
Qed.

(** C4, as the claim states it, fails: the space of a source is written as
    a plus sign by [urlencode], and percent-decoding leaves the plus sign. *)
Lemma roundtrip_loses_space :
  decode_query (_build_search_url (CInt 119) "committee reports" 1)
    = Some (Json.JObj [("congress", Json.JStr "119");
                       ("source", Json.JList [Json.JStr "committee+reports"])])
  /\ decode_query (_build_search_url (CInt 119) "committee reports" 1)
     <> Some (Json.JObj (build_query (CInt 119) "committee reports" 1)).
Proof. split; [vm_compute; reflexivity | vm_compute; discriminate]. Qed.

(** C4, amended. When neither the string form of the congress nor the
    source has a space in it, percent-decoding the [q] parameter of the URL
    and decoding the JSON text gives back the query object, for every
    page. *)
Theorem roundtrip_without_space (congress : congress_arg) (source : string) (page : Z) :
  Py.has_space (congress_str congress) = false ->
  Py.has_space source = false ->
  decode_query (_build_search_url congress source page)
  = Some (Json.JObj (build_query congress source page)).
Proof.
  intros Hc Hs. unfold decode_query.
  rewrite q_param_build_search_url.
  rewrite unquote_quote_plus by now apply plain_json_text.
  apply loads_json_text.
Qed.

Lemma roundtrip_without_space_witness :
  decode_query (_build_search_url (CInt 118) "comreports" 2)
  = Some (Json.JObj (build_query (CInt 118) "comreports" 2)).
Proof. apply (roundtrip_without_space (CInt 118) "comreports" 2); reflexivity. Defined.

(** ** Decoding with [Urllib.unquote_plus] instead *)

Lemma replace_plus_app (a b : string) :
  Urllib.replace_plus (a +:+ b) = Urllib.replace_plus a +:+ Urllib.replace_plus b.
Proof. induction a as [|x a IH]; simpl; [reflexivity | now rewrite IH]. Qed.

Lemma printable_app (a b : string) : printable (a +:+ b) = printable a && printable b.
Proof.
  induction a as [|x a IH]; simpl; [reflexivity|].
  rewrite IH. now rewrite andb_assoc.
Qed.

Lemma printable_escape (s : string) : printable (Json.escape s) = true.
Proof.
  induction s as [|c s IH]; simpl; [reflexivity|].
  rewrite printable_app, IH, andb_true_r.
  clear IH. each_char c; vm_compute; congruence.
Qed.

Lemma plain_printable (s : string) : plain s = true -> printable s = true.
Proof.
  induction s as [|c s IH]; simpl; [reflexivity|].
  intros H. apply andb_true_iff in H as [H Hs]. apply andb_true_iff in H as [H1 H2].
  rewrite (IH Hs), H2, !andb_true_r.
  apply N.leb_le. apply N.ltb_lt in H1. lia.
Qed.

Lemma unquote_plus_quote_plus_char (c : ascii) (tail : string) :
  (32 <=? Py.ord c)%N && (Py.ord c <? 127)%N = true ->
  Urllib.unquote (Urllib.replace_plus (Urllib.quote_plus_char c) +:+ tail)
  = String c <$> Urllib.unquote tail.
Proof. each_char c; intros H; try discriminate H; reflexivity. Qed.

Lemma unquote_plus_quote_plus (s : string) :
  printable s = true -> Urllib.unquote_plus (Urllib.quote_plus s) = Some s.
Proof.
  unfold Urllib.unquote_plus. induction s as [|c s IH]; [reflexivity|].
  simpl printable. intros H. apply andb_true_iff in H as [Hc Hs].
  change (Urllib.quote_plus (String c s))
    with (Urllib.quote_plus_char c +:+ Urllib.quote_plus s).
  rewrite replace_plus_app, (unquote_plus_quote_plus_char _ _ Hc), (IH Hs). reflexivity.
Qed.

Lemma printable_lit (s rest : string) : printable rest = true -> printable (lit s rest) = true.
Proof.
  intros Hr. unfold lit.
  change (printable (String Py.dquote ?x)) with (printable x).
  rewrite printable_app, printable_escape. exact Hr.
Qed.

Lemma printable_json_text (congress : congress_arg) (source : string) (page : Z) :
  printable (json_text congress source page) = true.
Proof.
  unfold json_text, json_tail.
  change (printable (String "{" ?x)) with (printable x).
  repeat first
    [ apply printable_lit
    | match goal with |- printable (String ?c ?x) = true => change (printable x = true) end ].
  destruct (1 <? page) eqn:Hpage; [|reflexivity].
  destruct page as [|p|p]; try discriminate Hpage.
  repeat first
    [ apply printable_lit
    | rewrite printable_app, (plain_printable _ (plain_str_of_int_pos _)); reflexivity
    | match goal with |- printable (String ?c ?x) = true => change (printable x = true) end
    | match goal with |- printable (String.append (String ?c ?a) ?x) = true =>
        change (printable (String.append a x) = true) end ].
Qed.

(** Decoded with [Urllib.unquote_plus], which undoes what [urlencode] does to a
    space, the [q] parameter gives the query object back for every congress,
    source and page. *)
Lemma roundtrip_with_unquote_plus (congress : congress_arg) (source : string) (page : Z) :
  match q_param (_build_search_url congress source page) with
  | Some v => match Urllib.unquote_plus v with Some t => Json.loads t | None => None end
  | None => None
  end = Some (Json.JObj (build_query congress source page)).
Proof.
  rewrite q_param_build_search_url.
  rewrite unquote_plus_quote_plus by apply printable_json_text.
  apply loads_json_text.
Qed.

End UrlClaims.

(* ===================================================================== *)
(** * Reasoning about computations                                        *)
(* ===================================================================== *)

Create HintDb py discriminated.

Section Logic.

Context {A B : Type}.

Lemma extends_refl (s : state) : extends s s.
Proof. split; [reflexivity|]. exists []. now rewrite app_nil_r. Qed.

Lemma extends_trans (s1 s2 s3 : state) : extends s1 s2 -> extends s2 s3 -> extends s1 s3.
Proof.
  intros [Hr1 (m1 & Ht1 & Hg1)] [Hr2 (m2 & Ht2 & Hg2)]. split; [congruence|].
  exists (m1 ++ m2). split.
  - rewrite Ht2, Ht1. now rewrite app_assoc.
  - now apply Forall_app.
Qed.

Lemma requests_only_ret (a : A) : requests_only (ret a).
Proof. intros s. apply extends_refl. Qed.

Lemma requests_only_raise (e : exn) : requests_only (raise e : M A).
Proof. intros s. apply extends_refl. Qed.

Lemma requests_only_bind (m : M A) (k : A -> M B) :
  requests_only m -> (forall a, requests_only (k a)) -> requests_only (bind m k).
Proof.
  intros Hm Hk s. unfold bind. specialize (Hm s).
  destruct (m s) as [a s'|e s'|]; auto.
  specialize (Hk a s'). destruct (k a s'); auto; eapply extends_trans; eauto.
Qed.

Lemma requests_only_try_except (m : M A) (h : string -> M A) :
  requests_only m -> (forall cls, requests_only (h cls)) -> requests_only (try_except m h).
Proof.
  intros Hm Hh s. unfold try_except. specialize (Hm s).
  destruct (m s) as [a s'|[cls|cls] s'|]; auto.
  specialize (Hh cls s'). destruct (h cls s'); auto; eapply extends_trans; eauto.
Qed.

Lemma requests_only_lift (r : result A) : requests_only (lift r).
Proof. destruct r; [apply requests_only_ret | apply requests_only_raise]. Qed.

Lemma mild_ret (a : A) : mild (ret a).
Proof. intros s. exact I. Qed.

Lemma total_ret (a : A) : total (ret a).
Proof. intros s. exact I. Qed.

Lemma mild_raise (cls : string) : mild (raise (Exception cls) : M A).
Proof. intros s. exact I. Qed.

Lemma total_mild (m : M A) : total m -> mild m.
Proof. intros H s. specialize (H s). destruct (m s); auto; contradiction. Qed.

Lemma mild_bind (m : M A) (k : A -> M B) :
  mild m -> (forall a, mild (k a)) -> mild (bind m k).
Proof.
  intros Hm Hk s. unfold bind. specialize (Hm s).
  destruct (m s) as [a s'|[cls|cls] s'|]; auto. apply Hk.
Qed.

Lemma total_bind (m : M A) (k : A -> M B) :
  total m -> (forall a, total (k a)) -> total (bind m k).
Proof.
  intros Hm Hk s. unfold bind. specialize (Hm s).
  destruct (m s) as [a s'|e s'|]; auto. apply Hk.
Qed.

Lemma total_try_except (m : M A) (h : string -> M A) :
  mild m -> (forall cls, total (h cls)) -> total (try_except m h).
Proof.
  intros Hm Hh s. unfold try_except. specialize (Hm s).
  destruct (m s) as [a s'|[cls|cls] s'|]; auto. apply Hh.
Qed.

Lemma total_quiet (m : M A) : total m -> quiet m.
Proof. intros H s. specialize (H s). destruct (m s); auto. Qed.

End Logic.

#[local] Hint Resolve requests_only_ret requests_only_raise requests_only_lift
  mild_ret total_ret mild_raise total_mild : py.

Section WorldFacts.

Variable E : env.

Lemma requests_only_get (url : string) : requests_only (get E url).
Proof.
  intros s. unfold get.
  assert (extends s (mkState (S (tick s)) (trace s ++ [Get url]) (scrapers s))).
  { split; [reflexivity|]. exists [Get url]. split; [reflexivity|]. now repeat constructor. }
  destruct (http_get E (tick s) url); assumption.
Qed.

Lemma requests_only_now : requests_only (now E).
Proof.
  intros s. split; [reflexivity|]. exists []. simpl. now rewrite app_nil_r.
Qed.

Lemma requests_only_scrapers_get (src : string) : requests_only (scrapers_get src).
Proof. intros s. apply extends_refl. Qed.

Lemma requests_only_BeautifulSoup (html : string) : requests_only (BeautifulSoup E html).
Proof. apply requests_only_lift. Qed.

Lemma requests_only_parse_item (item : Bs4.node) : requests_only (parse_item E item).
Proof.
  apply requests_only_try_except; [|auto with py].
  apply requests_only_bind; [auto with py|]. intros [r|]; [|auto with py].
  apply requests_only_bind; [apply requests_only_now | auto with py].
Qed.

Lemma requests_only_parse_items (items : list Bs4.node) (results : list record) :
  requests_only (parse_items E items results).
Proof.
  revert results. induction items as [|item rest IH]; intros results; simpl.
  - auto with py.
  - apply requests_only_bind; [apply requests_only_parse_item | auto].
Qed.

Lemma requests_only_parse_search_results (html : string) :
  requests_only (parse_search_results E html).
Proof.
  apply requests_only_bind; [apply requests_only_BeautifulSoup|].
  intros soup. apply requests_only_parse_items.
Qed.

Lemma requests_only_scrape_item (url : string) : requests_only (scrape_item E url).
Proof.
  apply requests_only_try_except; [|auto with py].
  apply requests_only_bind; [apply requests_only_get|]. intros html.
  apply requests_only_bind; [apply requests_only_BeautifulSoup|]. intros soup.
  apply requests_only_bind; [apply requests_only_now | auto with py].
Qed.

Lemma requests_only_item_url (item : record) : requests_only (item_url item).
Proof. unfold item_url. destruct (item !! "url") as [[]|]; auto with py. Qed.

Lemma requests_only_detail_items (c : scraper_class) (items acc : list record) :
  requests_only (detail_items E c items acc).
Proof.
  revert acc. induction items as [|item rest IH]; intros acc; simpl.
  - auto with py.
  - apply requests_only_bind; [apply requests_only_item_url|]. intros url.
    apply requests_only_bind; [destruct c; apply requests_only_scrape_item | auto].
Qed.

Lemma requests_only_scrape_page (job : ScrapingJob) : requests_only (_scrape_page E job).
Proof.
  apply requests_only_try_except; [|auto with py].
  apply requests_only_bind; [apply requests_only_get|]. intros html.
  apply requests_only_bind; [apply requests_only_scrapers_get|]. intros [c|]; [|auto with py].
  apply requests_only_bind; [destruct c; apply requests_only_parse_search_results|].
  intros items. apply requests_only_detail_items.
Qed.

Lemma requests_only_process_job job rest results :
  requests_only (process_job E job rest results).
Proof.
  apply requests_only_bind; [apply requests_only_scrape_page | auto with py].
Qed.

Lemma requests_only_drain (fuel : nat) (queue : list ScrapingJob) (results : list record) :
  requests_only (drain E fuel queue results).
Proof.
  revert queue results. induction fuel as [|fuel IH]; intros [|job rest] results; simpl;
    auto with py.
  - intros s. exact I.
  - apply requests_only_bind; [apply requests_only_process_job | auto].
Qed.

(** ** Which computations return *)

Lemma item_fields_mild (item : Bs4.node) (e : exn) :
  item_fields item = Err e -> exists cls, e = Exception cls.
Proof.
  unfold item_fields.
  destruct (Bs4.find "h2" _ item); [|discriminate].
  destruct (Bs4.find "a" None _); [|intros [= <-]; eauto].
  destruct (Bs4.getitem "href" _); [discriminate | intros [= <-]; eauto].
Qed.

Lemma total_now : total (now E).
Proof. intros s. exact I. Qed.

Lemma total_parse_item (item : Bs4.node) : total (parse_item E item).
Proof.
  apply total_try_except; [|auto with py].
  apply mild_bind.
  - intros s. unfold lift. destruct (item_fields item) as [r|e] eqn:H; [exact I|].
    apply item_fields_mild in H as [cls ->]. exact I.
  - intros [r|]; [|auto with py].
    apply total_mild, total_bind; [apply total_now | auto with py].
Qed.

Lemma total_parse_items (items : list Bs4.node) (results : list record) :
  total (parse_items E items results).
Proof.
  revert results. induction items as [|item rest IH]; intros results; simpl.
  - auto with py.
  - apply total_bind; [apply total_parse_item | auto].
Qed.

Hypothesis HE : only_exceptions E.

Lemma mild_get (url : string) : mild (get E url).
Proof.
  intros s. unfold get. destruct (http_get E (tick s) url) as [html|e] eqn:H; [exact I|].
  apply HE in H as [cls ->]. exact I.
Qed.

Lemma mild_BeautifulSoup (html : string) : mild (BeautifulSoup E html).
Proof.
  intros s. unfold BeautifulSoup, lift. destruct (soup_of E html) as [soup|e] eqn:H; [exact I|].
  apply HE in H as [cls ->]. exact I.
Qed.

Lemma mild_parse_search_results (html : string) : mild (parse_search_results E html).
Proof.
  apply mild_bind; [apply mild_BeautifulSoup|].
  intros soup. apply total_mild, total_parse_items.
Qed.

Lemma total_scrape_item (url : string) : total (scrape_item E url).
Proof.
  apply total_try_except; [|auto with py].
  apply mild_bind; [apply mild_get|]. intros html.
  apply mild_bind; [apply mild_BeautifulSoup|]. intros soup.
  apply total_mild, total_bind; [apply total_now | auto with py].
Qed.

Lemma mild_item_url (item : record) : mild (item_url item).
Proof. unfold item_url. destruct (item !! "url") as [[]|]; auto with py. Qed.

Lemma mild_detail_items (c : scraper_class) (items acc : list record) :
  mild (detail_items E c items acc).
Proof.
  revert acc. induction items as [|item rest IH]; intros acc; simpl.
  - auto with py.
  - apply mild_bind; [apply mild_item_url|]. intros url.
    apply mild_bind; [destruct c; apply total_mild, total_scrape_item | auto].
Qed.

(** In such a world [_scrape_page] returns, whatever the job. *)
Lemma total_scrape_page (job : ScrapingJob) : total (_scrape_page E job).
Proof.
  apply total_try_except; [|auto with py].
  apply mild_bind; [apply mild_get|]. intros html.
  apply mild_bind; [intros s; exact I|]. intros [c|]; [|auto with py].
  apply mild_bind; [destruct c; apply mild_parse_search_results|].
  intros items. apply mild_detail_items.
Qed.

Lemma total_process_job job rest results : total (process_job E job rest results).
Proof. apply total_bind; [apply total_scrape_page | auto with py]. Qed.

Lemma quiet_drain (fuel : nat) (queue : list ScrapingJob) (results : list record) :
  quiet (drain E fuel queue results).
Proof.
  revert queue results. induction fuel as [|fuel IH]; intros [|job rest] results; simpl;
    try (intros s; exact I).
  intros s. unfold bind.
  pose proof (total_process_job job rest results s) as H.
  destruct (process_job E job rest results s) as [qr s'| |]; try contradiction.
  apply IH.
Qed.

End WorldFacts.

(* ===================================================================== *)
(** * The initial queue                                                   *)
(* ===================================================================== *)

Section InitialQueue.

Lemma in_range_down (start stop c : Z) : In c (range_down start stop) <-> stop < c <= start.
Proof.
  unfold range_down. rewrite in_map_iff. split.
  - intros (i & <- & Hi). apply in_seq in Hi. lia.
  - intros H. exists (Z.to_nat (start - c)). split; [lia|]. apply in_seq. lia.
Qed.

Lemma range_down_descending (start stop : Z) : StronglySorted Z.gt (range_down start stop).
Proof.
  unfold range_down. generalize (Z.to_nat (start - stop)) as n. generalize 0%nat as k.
  intros k n. revert k. induction n as [|n IH]; intros k; simpl; constructor.
  - apply IH.
  - apply Forall_forall. intros x Hx. apply list_elem_of_In, in_map_iff in Hx.
    destruct Hx as (i & <- & Hi). apply in_seq in Hi. lia.
Qed.

Lemma range_down_NoDup (start stop : Z) : NoDup (range_down start stop).
Proof.
  pose proof (range_down_descending start stop) as H.
  induction H as [|c l Hs IH Hall]; constructor; auto.
  intros Hin. rewrite Forall_forall in Hall. specialize (Hall _ Hin). lia.
Qed.

Lemma range_down_empty (start stop : Z) : start <= stop -> range_down start stop = [].
Proof. intros H. unfold range_down. now replace (Z.to_nat (start - stop)) with 0%nat by lia. Qed.

Lemma in_initial_jobs (start_congress end_congress : Z) (sources : gset string)
    (job : ScrapingJob) :
  In job (initial_jobs start_congress end_congress sources)
  <-> end_congress <= congress job <= start_congress /\ source job ∈ sources /\ page job = 1.
Proof.
  unfold initial_jobs. rewrite in_flat_map. split.
  - intros (c & Hc & Hjob). apply in_range_down in Hc.
    apply in_map_iff in Hjob as (src & <- & Hsrc). simpl.
    apply list_elem_of_In, elem_of_elements in Hsrc. repeat split; auto; lia.
  - intros (Hc & Hs & Hp). exists (congress job). split.
    + apply in_range_down. lia.
    + apply in_map_iff. exists (source job). split.
      * destruct job as [c s p]. simpl in *. subst p. reflexivity.
      * now apply list_elem_of_In, elem_of_elements.
Qed.

Lemma initial_jobs_NoDup (start_congress end_congress : Z) (sources : gset string) :
  NoDup (initial_jobs start_congress end_congress sources).
Proof.
  unfold initial_jobs.
  pose proof (range_down_descending start_congress (end_congress - 1)) as H.
  induction H as [|c l Hs IH Hall]; simpl; [constructor|].
  apply NoDup_app. split; [|split]; auto.
  - apply NoDup_fmap_2_strong with (f := new_job c) (l := elements sources).
    + intros x y _ _ [= ->]. reflexivity.
    + apply NoDup_elements.
  - intros job Hjob Hjob'.
    apply list_elem_of_In, in_map_iff in Hjob as (src & <- & _).
    apply list_elem_of_In, in_flat_map in Hjob' as (c' & Hc' & Hj).
    apply in_map_iff in Hj as (src' & [= <- _] & _).
    rewrite Forall_forall in Hall. apply list_elem_of_In, Hall in Hc'. lia.
Qed.

Lemma initial_jobs_descending (start_congress end_congress : Z) (sources : gset string) :
  StronglySorted (fun a b => congress b <= congress a)
                 (initial_jobs start_congress end_congress sources).
Proof.
  unfold initial_jobs.
  pose proof (range_down_descending start_congress (end_congress - 1)) as H.
  induction H as [|c l Hs IH Hall]; simpl; [constructor|].
  apply StronglySorted_app_2; auto.
  - intros a b Ha Hb.
    apply list_elem_of_In, in_map_iff in Ha as (src & <- & _).
    apply list_elem_of_In, in_flat_map in Hb as (c' & Hc' & Hj).
    apply in_map_iff in Hj as (src' & <- & _). simpl.
    rewrite Forall_forall in Hall. apply list_elem_of_In, Hall in Hc'. lia.
  - generalize (elements sources). intros els.
    induction els as [|src els IHe]; simpl; constructor; auto.
    apply Forall_forall. intros b Hb.
    apply list_elem_of_In, in_map_iff in Hb as (src' & <- & _). simpl. lia.
Qed.

Lemma drain_nil (E : env) (fuel : nat) (results : list record) (s : state) :
  drain E fuel [] results s = Return results s.
Proof. destruct fuel; reflexivity. Qed.

(** [scrape], step by step: the session is opened, the pool is made, the
    queue is drained, the session is closed. *)
Lemma scrape_eq (E : env) (fuel : nat) (max_workers start_congress end_congress : Z)
    (sources : gset string) (s : state) :
  scrape E fuel max_workers start_congress end_congress sources s =
  let s0 := mkState (tick s) (trace s ++ [SessionOpened])
              (<["legislation" := LegislationScraper]> (scrapers s)) in
  if max_workers <=? 0 then Raise (Exception "ValueError") s0
  else match drain E fuel (initial_jobs start_congress end_congress sources) [] s0 with
       | Return results s1 =>
           Return results (mkState (tick s1) (trace s1 ++ [SessionClosed]) (scrapers s1))
       | Raise e s1 => Raise e s1
       | OutOfFuel => OutOfFuel
       end.
Proof.
  unfold scrape, bind, _init_session, ThreadPoolExecutor, session_close, ret, raise.
  cbv zeta. destruct (max_workers <=? 0); [reflexivity|].
  destruct (drain E fuel _ [] _); reflexivity.
Qed.

Lemma scrape_with_workers (E : env) (fuel : nat) (max_workers start_congress end_congress : Z)
    (sources : gset string) (s : state) :
  0 < max_workers ->
  scrape E fuel max_workers start_congress end_congress sources s =
  let s0 := mkState (tick s) (trace s ++ [SessionOpened])
              (<["legislation" := LegislationScraper]> (scrapers s)) in
  match drain E fuel (initial_jobs start_congress end_congress sources) [] s0 with
  | Return results s1 =>
      Return results (mkState (tick s1) (trace s1 ++ [SessionClosed]) (scrapers s1))
  | Raise e s1 => Raise e s1
  | OutOfFuel => OutOfFuel
  end.
Proof.
  intros H. rewrite scrape_eq. cbv zeta.
  now replace (max_workers <=? 0) with false by (symmetry; apply Z.leb_gt; lia).
Qed.

Lemma scrape_without_workers (E : env) (fuel : nat)
    (max_workers start_congress end_congress : Z) (sources : gset string) (s : state) :
  max_workers <= 0 ->
  scrape E fuel max_workers start_congress end_congress sources s =
  Raise (Exception "ValueError")
        (mkState (tick s) (trace s ++ [SessionOpened])
                 (<["legislation" := LegislationScraper]> (scrapers s))).
Proof.
  intros H. rewrite scrape_eq. cbv zeta.
  now replace (max_workers <=? 0) with true by (symmetry; apply Z.leb_le; lia).
Qed.




End InitialQueue.

(* ===================================================================== *)
(** * Parsing a search page and enriching its records                     *)
(* ===================================================================== *)

Section Records.

Variable E : env.

(** ** [scrape_item] *)

(** What [scrape_item] does, by what the world answers. *)
Lemma scrape_item_eq (url : string) (s : state) :
  scrape_item E url s =
  match http_get E (tick s) url with
  | Ok html =>
      match soup_of E html with
      | Ok soup =>
          Return (details_of url soup (clock E (S (tick s)))) (after_now (after_get s url))
      | Err (Exception _) => Return ∅ (after_get s url)
      | Err (BaseException cls) => Raise (BaseException cls) (after_get s url)
      end
  | Err (Exception _) => Return ∅ (after_get s url)
  | Err (BaseException cls) => Raise (BaseException cls) (after_get s url)
  end.
Proof.
  unfold scrape_item, try_except, bind, get, BeautifulSoup, lift, now, ret, raise.
  destruct (http_get E (tick s) url) as [html|[cls|cls]]; try reflexivity.
  destruct (soup_of E html) as [soup|[cls|cls]]; reflexivity.
Qed.

Lemma scrape_item_returns (url : string) (s s' : state) (details : record) :
  scrape_item E url s = Return details s' ->
  details = ∅ \/ exists soup t, details = details_of url soup t.
Proof.
  rewrite scrape_item_eq.
  destruct (http_get E (tick s) url) as [html|[cls|cls]];
    [destruct (soup_of E html) as [soup|[cls|cls]]|..];
    try discriminate; intros [= <- <-]; eauto.
Qed.

Lemma details_of_search_field url soup t k :
  search_field k -> details_of url soup t !! k = None.
Proof.
  intros [-> | [-> | [-> | ->]]]; unfold details_of;
    rewrite !lookup_insert_ne by discriminate; apply lookup_empty.
Qed.

Lemma update_empty (item : record) : update item ∅ = item.
Proof. unfold update. apply (left_id_L ∅ (∪)). Qed.

Lemma update_keeps (item details : record) (k : string) :
  details !! k = None -> update item details !! k = item !! k.
Proof. intros H. unfold update. now apply lookup_union_r. Qed.

Lemma update_overwrites (item details : record) (k : string) (v : value) :
  details !! k = Some v -> update item details !! k = Some v.
Proof. intros H. unfold update. rewrite lookup_union_l'; eauto. Qed.

Lemma scrape_item_of_keeps c url s s' details item k :
  scrape_item_of E c url s = Return details s' ->
  search_field k -> update item details !! k = item !! k.
Proof.
  destruct c. simpl. intros H Hk. apply update_keeps.
  apply scrape_item_returns in H as [-> | (soup & t & ->)].
  - apply lookup_empty.
  - now apply details_of_search_field.
Qed.

(** The records that [_scrape_page] returns for the parsed items. *)
Lemma detail_items_keeps c items acc s out s' :
  detail_items E c items acc s = Return out s' ->
  exists finals,
    out = acc ++ finals /\
    Forall2 (fun item final => forall k, search_field k -> final !! k = item !! k)
            items finals.
Proof.
  revert acc s. induction items as [|item rest IH]; intros acc s; simpl.
  - intros [= <- <-]. exists []. split; [now rewrite app_nil_r | constructor].
  - unfold bind at 1.
    destruct (item_url item s) as [url s1|e s1|] eqn:Hu; try discriminate.
    unfold bind at 1.
    destruct (scrape_item_of E c url s1) as [details s2|e s2|] eqn:Hd; try discriminate.
    intros H. apply IH in H as (finals & -> & Hall).
    exists (update item details :: finals). split.
    + now rewrite <- app_assoc.
    + constructor; auto. intros k Hk. eapply scrape_item_of_keeps; eauto.
Qed.

(** C8. Whatever mapping [scrape_item] returns, merging it into a record
    leaves the values of [bill_number], [title], [status] and [sponsor] as
    they were, and so every record that [_scrape_page] appends carries the
    four values of the search result it comes from. *)
Theorem enrichment_keeps_search_fields :
  (forall url s details s' (item : record) k,
      scrape_item E url s = Return details s' ->
      search_field k ->
      update item details !! k = item !! k)
  /\ (forall c items acc s out s',
        detail_items E c items acc s = Return out s' ->
        exists finals,
          out = acc ++ finals /\
          Forall2 (fun item final => forall k, search_field k -> final !! k = item !! k)
                  items finals).
Proof.
  split.
  - intros url s details s' item k H Hk.
    apply (scrape_item_of_keeps LegislationScraper url s s' details item k H Hk).
  - apply detail_items_keeps.
Qed.

(** ** [parse_search_results] *)

Lemma kept_fields_no_stamp (item : Bs4.node) (r : record) :
  kept_fields item = Some r -> r !! "scraped_at" = None.
Proof.
  unfold kept_fields, item_fields.
  destruct (Bs4.find "h2" _ item); [|discriminate].
  destruct (Bs4.find "a" None _); [|discriminate].
  destruct (Bs4.getitem "href" _); [|discriminate].
  intros [= <-]. rewrite !lookup_insert_ne by discriminate. apply lookup_empty.
Qed.

(** The fields of an item that is kept. *)
Lemma kept_fields_values (item : Bs4.node) (r : record) :
  kept_fields item = Some r ->
  exists title_elem link href,
    Bs4.find "h2" (Some "item-name") item = Some title_elem
    /\ Bs4.find "a" None title_elem = Some link
    /\ Bs4.getitem "href" link = Some href
    /\ r !! "bill_number" = Some (VStr (Py.strip (Bs4.text link)))
    /\ r !! "url" = Some (VStr ("https://www.congress.gov" +:+ href))
    /\ r !! "title"
       = Some (or_default (Bs4.find "p" (Some "item-description") item) "No title available")
    /\ r !! "status"
       = Some (or_default (Bs4.find "span" (Some "status") item) "Status unknown")
    /\ r !! "sponsor"
       = Some (or_default (Bs4.find "span" (Some "sponsor") item) "No sponsor info").
Proof.
  unfold kept_fields, item_fields.
  destruct (Bs4.find "h2" _ item) as [title_elem|]; [|discriminate].
  destruct (Bs4.find "a" None _) as [link|] eqn:Hl; [|discriminate].
  destruct (Bs4.getitem "href" _) as [href|] eqn:Hh; [|discriminate].
  intros [= <-]. exists title_elem, link, href.
  repeat split; auto;
    repeat (rewrite lookup_insert_eq || rewrite lookup_insert_ne by discriminate);
    reflexivity.
Qed.

(** One turn of the loop: the item is kept with the time of the moment, or
    dropped without any effect. *)
Lemma parse_item_eq (item : Bs4.node) (s : state) :
  parse_item E item s =
  match kept_fields item with
  | Some r => Return (Some (<["scraped_at" := VStr (clock E (tick s))]> r)) (after_now s)
  | None => Return None s
  end.
Proof.
  unfold parse_item, kept_fields, try_except, bind, lift, now, ret, raise.
  destruct (item_fields item) as [[r|]|e] eqn:H; try reflexivity.
  apply item_fields_mild in H as [cls ->]. reflexivity.
Qed.

Lemma parse_items_spec (items : list Bs4.node) (acc : list record) (s : state) :
  exists results s',
    parse_items E items acc s = Return (acc ++ results) s'
    /\ map (delete "scraped_at") results = omap kept_fields items
    /\ Forall stamped_with_url results
    /\ scrapers s' = scrapers s.
Proof.
  revert acc s. induction items as [|item rest IH]; intros acc s; simpl.
  - exists [], s. rewrite app_nil_r. repeat split; constructor.
  - unfold bind. rewrite parse_item_eq.
    destruct (kept_fields item) as [r|] eqn:Hk.
    + destruct (IH (acc ++ [<["scraped_at" := VStr (clock E (tick s))]> r]) (after_now s))
        as (results & s' & Hrun & Hmap & Hall & Hreg).
      exists (<["scraped_at" := VStr (clock E (tick s))]> r :: results), s'.
      split; [now rewrite Hrun, <- app_assoc|]. split; [|split].
      * simpl. rewrite Hmap. f_equal.
        apply delete_insert_id. exact (kept_fields_no_stamp item r Hk).
      * constructor; auto. split.
        -- eexists. apply lookup_insert_eq.
        -- apply kept_fields_values in Hk
             as (te & link & href & _ & _ & _ & _ & Hurl & _).
           eexists. rewrite lookup_insert_ne by discriminate. exact Hurl.
      * exact Hreg.
    + destruct (IH acc s) as (results & s' & Hrun & Hmap & Hall & Hreg).
      exists results, s'. auto.
Qed.

Lemma parse_search_results_spec (html : string) (soup : Bs4.node) (s : state) :
  soup_of E html = Ok soup ->
  exists results s',
    parse_search_results E html s = Return results s'
    /\ map (delete "scraped_at") results
       = omap kept_fields (Bs4.find_all "li" (Some "expanded") soup)
    /\ Forall stamped_with_url results.
Proof.
  intros Hsoup.
  unfold parse_search_results, bind, BeautifulSoup, lift. rewrite Hsoup. cbn [ret].
  destruct (parse_items_spec (Bs4.find_all "li" (Some "expanded") soup) [] s)
    as (results & s' & Hrun & Hmap & Hall & _).
  exists results, s'. auto.
Qed.

(** C9. When the page can be read at all, [parse_search_results] returns.
    Its records are, in order and apart from the time stamp, those of the
    listing items that are kept, each computed from its own item: an item
    without a title element, or whose title has no link, gives no record and
    changes no other record. In a record, an absent description, status or
    sponsor is replaced by "No title available", "Status unknown" and
    "No sponsor info". [_parse_bill_item] treats one item the same way. *)
Theorem parse_search_results_skips_and_defaults (html : string) (soup : Bs4.node) (s : state) :
  soup_of E html = Ok soup ->
  let items := Bs4.find_all "li" (Some "expanded") soup in
  (exists results s',
      parse_search_results E html s = Return results s'
      /\ map (delete "scraped_at") results = omap kept_fields items
      /\ Forall stamped_with_url results)
  /\ (forall item,
        Bs4.find "h2" (Some "item-name") item = None -> kept_fields item = None)
  /\ (forall item title_elem,
        Bs4.find "h2" (Some "item-name") item = Some title_elem ->
        Bs4.find "a" None title_elem = None -> kept_fields item = None)
  /\ (forall item title_elem link,
        Bs4.find "h2" (Some "item-name") item = Some title_elem ->
        Bs4.find "a" None title_elem = Some link ->
        (Bs4.getitem "href" link = None -> kept_fields item = None)
        /\ (forall href, Bs4.getitem "href" link = Some href ->
            exists r, kept_fields item = Some r))
  /\ (forall item r,
        kept_fields item = Some r ->
        (Bs4.find "p" (Some "item-description") item = None ->
         r !! "title" = Some (VStr "No title available"))
        /\ (Bs4.find "span" (Some "status") item = None ->
            r !! "status" = Some (VStr "Status unknown"))
        /\ (Bs4.find "span" (Some "sponsor") item = None ->
            r !! "sponsor" = Some (VStr "No sponsor info"))
        /\ (forall d, Bs4.find "p" (Some "item-description") item = Some d ->
            r !! "title" = Some (VStr (Py.strip (Bs4.text d))))
        /\ (forall e, Bs4.find "span" (Some "status") item = Some e ->
            r !! "status" = Some (VStr (Py.strip (Bs4.text e))))
        /\ (forall e, Bs4.find "span" (Some "sponsor") item = Some e ->
            r !! "sponsor" = Some (VStr (Py.strip (Bs4.text e)))))
  /\ (forall item s0,
        _parse_bill_item E item s0 =
        match kept_fields item with
        | Some r => Return (Some (<["scraped_at" := VStr (clock E (tick s0))]> r)) (after_now s0)
        | None => Return None s0
        end).
Proof.
  intros Hsoup items. split; [|split; [|split; [|split; [|split]]]].
  - now apply parse_search_results_spec.
  - intros item H. unfold kept_fields, item_fields. now rewrite H.
  - intros item title_elem H Ha. unfold kept_fields, item_fields. now rewrite H, Ha.
  - intros item title_elem link H Ha. unfold kept_fields, item_fields. rewrite H, Ha.
    split; [intros ->; reflexivity | intros href ->; eauto].
  - intros item r Hr.
    apply kept_fields_values in Hr as (te & link & href & _ & _ & _ & _ & _ & Ht & Hs & Hp).
    unfold or_default in *.
    repeat split; intros; simplify_eq; try rewrite Ht; try rewrite Hs; try rewrite Hp;
      repeat match goal with H : Bs4.find _ _ _ = _ |- _ => rewrite H; clear H end;
      reflexivity.
  - intros item s0. apply parse_item_eq.
Qed.

End Records.

(* ===================================================================== *)
(** * One page, and the loop over the queue                               *)
(* ===================================================================== *)

Section Orchestrator.

Variable E : env.

Lemma parse_search_results_returns (html : string) (s s' : state) (results : list record) :
  parse_search_results E html s = Return results s' ->
  Forall stamped_with_url results /\ scrapers s' = scrapers s.
Proof.
  unfold parse_search_results, bind, BeautifulSoup, lift.
  destruct (soup_of E html) as [soup|e]; [|discriminate]. cbn [ret].
  destruct (parse_items_spec E (Bs4.find_all "li" (Some "expanded") soup) [] s)
    as (results0 & s0 & Hrun & _ & Hall & Hreg).
  rewrite Hrun. intros [= <- <-]. auto.
Qed.


(** ** [_scrape_page] *)

(** What [_scrape_page] does, by what the world answers. *)
Lemma scrape_page_eq (job : ScrapingJob) (s : state) :
  _scrape_page E job s =
  match http_get E (tick s) (search_url job) with
  | Ok html =>
      match scrapers s !! source job with
      | Some c =>
          match parse_search_results_of E c html (after_get s (search_url job)) with
          | Return items s1 =>
              match detail_items E c items [] s1 with
              | Raise (Exception _) s2 => Return [] s2
              | o => o
              end
          | Raise (Exception _) s1 => Return [] s1
          | Raise (BaseException cls) s1 => Raise (BaseException cls) s1
          | OutOfFuel => OutOfFuel
          end
      | None => Return [] (after_get s (search_url job))
      end
  | Err (Exception _) => Return [] (after_get s (search_url job))
  | Err (BaseException cls) => Raise (BaseException cls) (after_get s (search_url job))
  end.
Proof.
  unfold _scrape_page, try_except, bind, get, scrapers_get, search_url, after_get.
  destruct (http_get E (tick s) _) as [html|[cls|cls]]; try reflexivity.
  cbn [scrapers]. destruct (scrapers s !! source job) as [c|]; [|reflexivity].
  destruct (parse_search_results_of E c html _) as [items s1|[cls|cls] s1|]; try reflexivity.
Qed.

(** A failed page of the search: the fetch raises an [Exception]. *)
Lemma scrape_page_fetch_fails (job : ScrapingJob) (s : state) (cls : string) :
  http_get E (tick s) (search_url job) = Err (Exception cls) ->
  _scrape_page E job s = Return [] (after_get s (search_url job)).
Proof. intros H. now rewrite scrape_page_eq, H. Qed.

(** The page cannot be read. *)
Lemma scrape_page_parse_fails (job : ScrapingJob) (s : state) (html cls : string) :
  http_get E (tick s) (search_url job) = Ok html ->
  soup_of E html = Err (Exception cls) ->
  _scrape_page E job s = Return [] (after_get s (search_url job)).
Proof.
  intros Hget Hsoup. rewrite scrape_page_eq, Hget.
  destruct (scrapers s !! source job) as [[]|]; [|reflexivity].
  cbn [parse_search_results_of]. unfold parse_search_results, bind, BeautifulSoup, lift.
  now rewrite Hsoup.
Qed.

(** No scraper is registered for the source. *)
Lemma scrape_page_unknown_source (job : ScrapingJob) (s : state) :
  scrapers s !! source job = None ->
  (forall cls, http_get E (tick s) (search_url job) <> Err (BaseException cls)) ->
  _scrape_page E job s = Return [] (after_get s (search_url job)).
Proof.
  intros Hreg Hget. rewrite scrape_page_eq, Hreg.
  destruct (http_get E (tick s) _) as [html|[cls|cls]]; try reflexivity.
  now destruct (Hget cls).
Qed.

(** With a URL in every record, the loop over the items raises no
    [Exception] of its own and returns one record per item. *)
Lemma detail_items_length c items acc s :
  Forall stamped_with_url items ->
  match detail_items E c items acc s with
  | Return out _ => length out = (length acc + length items)%nat
  | Raise (Exception _) _ => False
  | _ => True
  end.
Proof.
  intros Hall. revert acc s. induction Hall as [|item rest [_ [u Hu]] _ IH]; intros acc s.
  - simpl. lia.
  - cbn [detail_items]. unfold bind at 1, item_url. rewrite Hu. cbn [ret].
    unfold bind at 1. destruct c. cbn [scrape_item_of]. rewrite scrape_item_eq.
    destruct (http_get E (tick s) u) as [html|[cls|cls]];
      [destruct (soup_of E html) as [soup|[cls|cls]]|..]; try exact I;
      (match goal with |- context [detail_items E _ rest ?a ?s1] =>
         specialize (IH a s1); destruct (detail_items E LegislationScraper rest a s1)
           as [out s2|[cls'|cls'] s2|]; auto;
         rewrite IH, length_app; simpl; lia
       end).
Qed.

(** The list that a job returns is empty exactly when the list that was
    parsed from its page is. *)
Lemma scrape_page_items_of_parsed job s items s' html c parsed s1 :
  _scrape_page E job s = Return items s' ->
  http_get E (tick s) (search_url job) = Ok html ->
  scrapers s !! source job = Some c ->
  parse_search_results_of E c html (after_get s (search_url job)) = Return parsed s1 ->
  length items = length parsed.
Proof.
  intros Hrun Hget Hreg Hparse. rewrite scrape_page_eq, Hget, Hreg, Hparse in Hrun.
  assert (Hall : Forall stamped_with_url parsed).
  { destruct c. now apply parse_search_results_returns in Hparse. }
  pose proof (detail_items_length c parsed [] s1 Hall) as Hlen.
  destruct (detail_items E c parsed [] s1) as [out s2|[cls|cls] s2|];
    try contradiction; try discriminate.
  injection Hrun as <- <-. exact Hlen.
Qed.

Lemma continuation_nonempty (job : ScrapingJob) (items : list record) :
  items <> [] ->
  continuation job items = [mkJob (congress job) (source job) (page job + 1)].
Proof. destruct items; [congruence | reflexivity]. Qed.

Lemma in_continuation (job next : ScrapingJob) (items : list record) :
  In next (continuation job items)
  <-> items <> [] /\ next = mkJob (congress job) (source job) (page job + 1).
Proof.
  destruct items; simpl.
  - split; [contradiction | intros [H _]; congruence].
  - split; [intros [<-|[]]; split; [discriminate|reflexivity] | intros [_ ->]; auto].
Qed.

Lemma drain_step fuel job rest results s items s' :
  _scrape_page E job s = Return items s' ->
  drain E (S fuel) (job :: rest) results s
  = drain E fuel (rest ++ continuation job items) (results ++ items) s'.
Proof.
  intros H. cbn [drain]. unfold bind at 1, process_job, bind. now rewrite H.
Qed.

(** C1. For a job that is processed, the loop puts the job of the next page
    of the same congress and source at the end of the queue exactly when the
    list returned for the job is not empty, and puts nothing otherwise; the
    returned list is empty exactly when the list parsed from the page is. *)
Theorem continuation_iff_results_nonempty
    (job : ScrapingJob) (rest : list ScrapingJob) (results : list record)
    (s : state) (items : list record) (s' : state) :
  _scrape_page E job s = Return items s' ->
  let next := mkJob (congress job) (source job) (page job + 1) in
  process_job E job rest results s
    = Return (rest ++ continuation job items, results ++ items) s'
  /\ (forall fuel,
        drain E (S fuel) (job :: rest) results s
        = drain E fuel (rest ++ continuation job items) (results ++ items) s')
  /\ (forall j, In j (continuation job items) <-> items <> [] /\ j = next)
  /\ (continuation job items = [next] <-> items <> [])
  /\ (continuation job items = [] <-> items = [])
  /\ (forall html c parsed s1,
        http_get E (tick s) (search_url job) = Ok html ->
        scrapers s !! source job = Some c ->
        parse_search_results_of E c html (after_get s (search_url job)) = Return parsed s1 ->
        (items <> [] <-> parsed <> [])).
Proof.
  intros Hrun next. split; [|split; [|split; [|split; [|split]]]].
  - unfold process_job, bind. now rewrite Hrun.
  - intros fuel. now apply drain_step.
  - intros j. apply in_continuation.
  - subst next. destruct items; simpl; split; intros H; congruence.
  - destruct items; simpl; split; intros H; congruence.
  - intros html c parsed s1 Hget Hreg Hparse.
    pose proof (scrape_page_items_of_parsed _ _ _ _ _ _ _ _ Hrun Hget Hreg Hparse) as Hlen.
    destruct items, parsed; simpl in Hlen; try discriminate; split; intros H; congruence.
Qed.

(** ** The session *)

Lemma extends_scrapers (s s' : state) : extends s s' -> scrapers s' = scrapers s.
Proof. now intros [H _]. Qed.

(** C6, amended. [scrape] opens the session once, before any request. When
    it returns, the session was closed once, after the last request; when an
    exception leaves the loop, the session has not been closed. *)
Theorem session_closed_on_return_only
    (fuel : nat) (max_workers start_congress end_congress : Z) (sources : gset string)
    (s : state) :
  match scrape E fuel max_workers start_congress end_congress sources s with
  | Return _ s' =>
      exists requests,
        trace s' = trace s ++ [SessionOpened] ++ requests ++ [SessionClosed]
        /\ Forall (fun e => is_get e = true) requests
  | Raise _ s' =>
      exists requests,
        trace s' = trace s ++ [SessionOpened] ++ requests
        /\ Forall (fun e => is_get e = true) requests
  | OutOfFuel => True
  end.
Proof.
  rewrite scrape_eq. cbv zeta.
  set (s0 := mkState (tick s) (trace s ++ [SessionOpened]) _).
  destruct (max_workers <=? 0).
  { exists []. split; [reflexivity | constructor]. }
  pose proof (requests_only_drain E fuel
                (initial_jobs start_congress end_congress sources) [] s0) as H.
  destruct (drain E fuel _ [] s0) as [results s1|e s1|]; [| |exact I].
  - destruct H as [_ (mid & Ht & Hg)]. cbn. exists mid. split; [|exact Hg].
    rewrite Ht. subst s0. cbn. now rewrite <- !app_assoc.
  - destruct H as [_ (mid & Ht & Hg)]. exists mid. split; [|exact Hg].
    rewrite Ht. subst s0. cbn. now rewrite <- !app_assoc.
Qed.

(** ** Failures *)

Lemma drain_accumulates fuel queue results s out s' :
  drain E fuel queue results s = Return out s' -> exists more, out = results ++ more.
Proof.
  revert queue results s. induction fuel as [|fuel IH]; intros [|job rest] results s;
    cbn [drain]; try discriminate.
  - intros [= <- <-]. exists []. now rewrite app_nil_r.
  - intros [= <- <-]. exists []. now rewrite app_nil_r.
  - unfold bind at 1, process_job, bind.
    destruct (_scrape_page E job s) as [items s1|e s1|]; try discriminate.
    cbn [ret fst snd]. intros H. apply IH in H as [more ->].
    exists (items ++ more). now rewrite app_assoc.
Qed.

Hypothesis HE : only_exceptions E.

Lemma scrape_quiet fuel max_workers start_congress end_congress sources :
  0 < max_workers ->
  quiet (scrape E fuel max_workers start_congress end_congress sources).
Proof.
  intros Hw s. rewrite scrape_with_workers by exact Hw. cbv zeta.
  set (s0 := mkState _ _ _).
  pose proof (quiet_drain E HE fuel
                (initial_jobs start_congress end_congress sources) [] s0) as H.
  destruct (drain E fuel _ [] s0); auto; exact I.
Qed.

Variable bound : Z.
Hypothesis Hend : pages_end E bound.

Lemma total_weight_app (q1 q2 : list ScrapingJob) :
  total_weight bound (q1 ++ q2) = (total_weight bound q1 + total_weight bound q2)%nat.
Proof. unfold total_weight. now rewrite map_app, list_sum_app. Qed.

Lemma total_weight_cons (job : ScrapingJob) (rest : list ScrapingJob) :
  total_weight bound (job :: rest) = (weight bound job + total_weight bound rest)%nat.
Proof. reflexivity. Qed.

(** With fuel for every turn that the queue can cost, the loop returns. *)
Lemma drain_returns fuel queue results s :
  (total_weight bound queue <= fuel)%nat ->
  exists out s', drain E fuel queue results s = Return out s'.
Proof.
  revert queue results s. induction fuel as [|fuel IH]; intros [|job rest] results s Hw.
  - rewrite drain_nil. eauto.
  - rewrite total_weight_cons in Hw. unfold weight in Hw. lia.
  - rewrite drain_nil. eauto.
  - pose proof (total_scrape_page E HE job s) as Hpage.
    destruct (_scrape_page E job s) as [items s1|e s1|] eqn:Hrun; try contradiction.
    rewrite (drain_step _ _ _ _ _ _ _ Hrun). apply IH.
    rewrite total_weight_app. rewrite total_weight_cons in Hw.
    destruct items as [|item items].
    + cbn [continuation]. change (total_weight bound []) with 0%nat.
      unfold weight in Hw. lia.
    + assert (Hp : page job < bound).
      { destruct (Z.lt_ge_cases (page job) bound) as [|Hge]; [assumption|].
        now apply (Hend job s _ s1 Hge) in Hrun. }
      cbn [continuation]. rewrite total_weight_cons.
      change (total_weight bound []) with 0%nat.
      unfold weight in *. cbn [page]. lia.
Qed.

Lemma scrape_returns max_workers start_congress end_congress sources s :
  0 < max_workers ->
  exists fuel results s',
    scrape E fuel max_workers start_congress end_congress sources s = Return results s'.
Proof.
  intros Hw.
  exists (total_weight bound (initial_jobs start_congress end_congress sources)).
  rewrite scrape_with_workers by exact Hw. cbv zeta. set (s0 := mkState _ _ _).
  destruct (drain_returns _ (initial_jobs start_congress end_congress sources) [] s0
              (Nat.le_refl _)) as (out & s1 & Hrun).
  rewrite Hrun. eauto.
Qed.

End Orchestrator.


(* ===================================================================== *)
(** * The example worlds                                                  *)
(* ===================================================================== *)

Section ExampleWorlds.

Import Examples.

Lemma soup_only_exceptions (html : string) (e : exn) :
  soup html = Err e -> exists cls, e = Exception cls.
Proof.
  unfold soup.
  repeat match goal with |- context [String.eqb ?a ?b] => destruct (String.eqb a b) end;
    try discriminate.
  intros [= <-]. eauto.
Qed.

Lemma offline_only_exceptions : only_exceptions offline.
Proof.
  split.
  - intros t url e [= <-]. eauto.
  - apply soup_only_exceptions.
Qed.

Lemma offline_pages_end (bound : Z) : pages_end offline bound.
Proof.
  intros job s items s' _ H.
  rewrite (scrape_page_fetch_fails offline job s "ClientConnectorError") in H by reflexivity.
  now injection H as <- _.
Qed.

Lemma endless_only_exceptions : only_exceptions endless.
Proof.
  split.
  - intros t url e. cbn. destruct (String.prefix _ url); discriminate.
  - apply soup_only_exceptions.
Qed.

Lemma two_pages_only_exceptions : only_exceptions two_pages.
Proof.
  split.
  - intros t url e. cbn. destruct (String.eqb url _); [discriminate|].
    destruct (String.prefix _ url); discriminate.
  - apply soup_only_exceptions.
Qed.

(** An item with a title, a link and an [href] is kept. *)
Lemma kept_fields_is_Some (item title_elem link : Bs4.node) (href : string) :
  Bs4.find "h2" (Some "item-name") item = Some title_elem ->
  Bs4.find "a" None title_elem = Some link ->
  Bs4.getitem "href" link = Some href ->
  is_Some (kept_fields item).
Proof. intros H1 H2 H3. unfold kept_fields, item_fields. rewrite H1, H2, H3. eauto. Qed.

Lemma item_bare_kept : is_Some (kept_fields item_bare).
Proof.
  apply (kept_fields_is_Some item_bare
           (link "S.2" "/bill/119th-congress/senate-bill/2")
           (Bs4.Tag "a" [] [("href", "/bill/119th-congress/senate-bill/2")] [Bs4.Text "S.2"])
           "/bill/119th-congress/senate-bill/2"); reflexivity.
Qed.

Lemma item_full_kept : is_Some (kept_fields item_full).
Proof.
  apply (kept_fields_is_Some item_full
           (link " H.R.1 " "/bill/119th-congress/house-bill/1")
           (Bs4.Tag "a" [] [("href", "/bill/119th-congress/house-bill/1")]
              [Bs4.Text " H.R.1 "])
           "/bill/119th-congress/house-bill/1"); reflexivity.
Qed.

(** A page with a kept item gives a job a result. *)
Lemma scrape_page_nonempty (E : env) (job : ScrapingJob) (s : state) (html : string)
    (soup : Bs4.node) :
  only_exceptions E ->
  http_get E (tick s) (search_url job) = Ok html ->
  scrapers s !! source job = Some LegislationScraper ->
  soup_of E html = Ok soup ->
  omap kept_fields (Bs4.find_all "li" (Some "expanded") soup) <> [] ->
  exists items s',
    _scrape_page E job s = Return items s' /\ items <> [] /\ scrapers s' = scrapers s.
Proof.
  intros HE Hget Hreg Hsoup Hkept.
  pose proof (total_scrape_page E HE job s) as Htot.
  pose proof (requests_only_scrape_page E job s) as Hext.
  destruct (_scrape_page E job s) as [items s'| |] eqn:Hrun; try contradiction.
  exists items, s'. split; [reflexivity|]. split; [|now apply extends_scrapers].
  destruct (parse_search_results_spec E html soup (after_get s (search_url job)) Hsoup)
    as (parsed & s1 & Hparse & Hmap & _).
  pose proof (scrape_page_items_of_parsed E job s items s' html LegislationScraper
                parsed s1 Hrun Hget Hreg Hparse) as Hlen.
  intros ->. destruct parsed; [|discriminate Hlen]. apply Hkept. now rewrite <- Hmap.
Qed.

Lemma endless_never_returns (fuel : nat) (queue : list ScrapingJob) (results : list record)
    (s : state) :
  queue <> [] ->
  Forall (fun job => source job = "legislation") queue ->
  scrapers s !! "legislation" = Some LegislationScraper ->
  drain endless fuel queue results s = OutOfFuel.
Proof.
  revert queue results s. induction fuel as [|fuel IH]; intros [|job rest] results s Hne Hall Hreg;
    try congruence; [reflexivity|].
  apply Forall_cons in Hall as [Hsrc Hall].
  assert (Hget : http_get endless (tick s) (search_url job) = Ok "one") by reflexivity.
  assert (Hkept : omap kept_fields
                    (Bs4.find_all "li" (Some "expanded") (page_of [item_bare])) <> []).
  { change (Bs4.find_all "li" (Some "expanded") (page_of [item_bare])) with [item_bare].
    cbn [omap list_omap]. destruct item_bare_kept as [r ->]. discriminate. }
  assert (Hreg0 : scrapers s !! source job = Some LegislationScraper) by now rewrite Hsrc.
  destruct (scrape_page_nonempty endless job s "one" (page_of [item_bare])
              endless_only_exceptions Hget Hreg0 eq_refl Hkept)
    as (items & s' & Hrun & Hitems & Hreg').
  rewrite (drain_step _ _ _ _ _ _ _ _ Hrun).
  rewrite continuation_nonempty by assumption. apply IH.
  - destruct rest; discriminate.
  - apply Forall_app. split; [exact Hall|]. now repeat constructor.
  - now rewrite Hreg'.
Qed.

End ExampleWorlds.



(** C6, as the claim states it, fails: when the task is cancelled during the
    first fetch, the exception leaves the loop and [scrape], and the session
    that was opened is not closed. *)
Lemma session_left_open_when_exception_escapes :
  exists e s',
    scrape Examples.cancelled 1 5 119 119 {["legislation"]} (init_state 0) = Raise e s'
    /\ trace s' = [SessionOpened; Get (search_url Examples.job1)]
    /\ ~ In SessionClosed (trace s').
Proof.
  eexists. eexists. split; [vm_compute; reflexivity|].
  split; [vm_compute; reflexivity|].
  cbn. intros [H|[H|[]]]; discriminate H.
Qed.

Lemma continuation_iff_results_nonempty_witness :
  exists items s',
    _scrape_page Examples.two_pages Examples.job1 (Examples.ready 0) = Return items s'
    /\ items <> []
    /\ process_job Examples.two_pages Examples.job1 [] [] (Examples.ready 0)
       = Return ([] ++ continuation Examples.job1 items, [] ++ items) s'
    /\ continuation Examples.job1 items = [mkJob 119 "legislation" 2].
Proof.
  destruct (scrape_page_nonempty Examples.two_pages Examples.job1 (Examples.ready 0) "three"
              (Examples.page_of [Examples.item_full; Examples.item_untitled;
                                 Examples.item_bare; Examples.item_full])
              two_pages_only_exceptions eq_refl eq_refl eq_refl)
    as (items & s' & Hrun & Hne & _).
  { change (Bs4.find_all "li" (Some "expanded") _)
      with [Examples.item_full; Examples.item_untitled; Examples.item_bare;
            Examples.item_full].
    cbn [omap list_omap]. destruct item_full_kept as [r ->]. discriminate. }
  exists items, s'. split; [exact Hrun|]. split; [exact Hne|].
  destruct (continuation_iff_results_nonempty Examples.two_pages Examples.job1 [] []
              (Examples.ready 0) items s' Hrun) as (Hp & _ & _ & Hc & _).
  split; [exact Hp | now apply Hc].
Defined.

Lemma enrichment_keeps_search_fields_witness :
  let url := "https://www.congress.gov/bill/119th-congress/house-bill/1" in
  let details := details_of url Examples.detail_page (Examples.stamp 1) in
  scrape_item Examples.two_pages url (Examples.ready 0)
    = Return details (after_now (after_get (Examples.ready 0) url))
  /\ update {["title" := VStr "An Act"]} details !! "title"
     = ({["title" := VStr "An Act"]} : record) !! "title".
Proof.
  intros url details.
  assert (Hrun : scrape_item Examples.two_pages url (Examples.ready 0)
                 = Return details (after_now (after_get (Examples.ready 0) url)))
    by (rewrite scrape_item_eq; reflexivity).
  split; [exact Hrun|].
  apply (proj1 (enrichment_keeps_search_fields Examples.two_pages) _ _ _ _
           {["title" := VStr "An Act"]} "title" Hrun).
  unfold search_field. auto.
Defined.

Lemma parse_search_results_skips_and_defaults_witness :
  exists results s',
    parse_search_results Examples.details_down "mixed" (Examples.ready 0) = Return results s'
    /\ map (delete "scraped_at") results
       = omap kept_fields
           [Examples.item_untitled; Examples.item_full; Examples.item_unlinked;
            Examples.item_bare; Examples.item_no_href]
    /\ length results = 2%nat.
Proof.
  destruct (parse_search_results_skips_and_defaults Examples.details_down "mixed"
              (Examples.page_of [Examples.item_untitled; Examples.item_full;
                                 Examples.item_unlinked; Examples.item_bare;
                                 Examples.item_no_href])
              (Examples.ready 0) eq_refl)
    as ((results & s' & Hrun & Hmap & _) & _).
  exists results, s'. split; [exact Hrun|]. split; [exact Hmap|].
  rewrite <- (length_map (delete "scraped_at")), Hmap. reflexivity.
Defined.


(** The scenario of the specification: three listing items on the first
    page, none on the second. Two search pages and three detail pages are
    fetched, and three records are returned. *)
Example three_items_then_none :
  match scrape Examples.two_pages 2 5 119 119 {["legislation"]} (init_state 0) with
  | Return results s' =>
      length results = 3%nat
      /\ map is_get (trace s') = [false; true; true; true; true; true; false]
      /\ trace s' !! 1%nat = Some (Get (search_url Examples.job1))
      /\ trace s' !! 5%nat = Some (Get (search_url (mkJob 119 "legislation" 2)))
  | _ => False
  end.
Proof. vm_compute. repeat split; reflexivity. Qed.

(* ===================================================================== *)
(** * More about the URL builder                                          *)
(* ===================================================================== *)

Section UrlMore.

Lemma url_value_app (a b : string) : url_value (a +:+ b) = url_value a && url_value b.
Proof.
  induction a as [|x a IH]; simpl; [reflexivity|].
  rewrite IH. now rewrite andb_assoc.
Qed.

Lemma url_value_quote_plus (s : string) : url_value (Urllib.quote_plus s) = true.
Proof.
  induction s as [|c s IH]; [reflexivity|].
  change (Urllib.quote_plus (String c s))
    with (Urllib.quote_plus_char c +:+ Urllib.quote_plus s).
  rewrite url_value_app, IH, andb_true_r.
  clear IH. each_char c; vm_compute; reflexivity.
Qed.

(** The value of the [q] parameter is made of letters, digits, the marks
    [_.-~], percent signs and plus signs, whatever the congress, the source
    and the page are: no space, quote, ampersand or character outside ASCII
    reaches the URL. *)
Theorem q_value_is_url_safe (congress : congress_arg) (source : string) (page : Z) :
  exists v,
    _build_search_url congress source page = base_url +:+ "?q=" +:+ v
    /\ q_param (_build_search_url congress source page) = Some v
    /\ url_value v = true.
Proof.
  exists (Urllib.quote_plus (json_text congress source page)).
  split; [|split].
  - rewrite build_search_url_q. now rewrite dumps_build_query.
  - apply q_param_build_search_url.
  - apply url_value_quote_plus.
Qed.

Lemma decode_plus_build_search_url (congress : congress_arg) (source : string) (page : Z) :
  match q_param (_build_search_url congress source page) with
  | Some v => match Urllib.unquote_plus v with Some t => Json.loads t | None => None end
  | None => None
  end = Some (Json.JObj (build_query congress source page)).
Proof.
  rewrite q_param_build_search_url.
  rewrite unquote_plus_quote_plus by apply printable_json_text.
  apply loads_json_text.
Qed.

Lemma str_of_int_inj (a b : Z) : Py.str_of_int a = Py.str_of_int b -> a = b.
Proof.
  intros H. pose proof (int_of_str_of_int a) as Ha. rewrite H in Ha.
  rewrite int_of_str_of_int in Ha. now injection Ha.
Qed.

Lemma build_query_eq_iff c1 s1 p1 c2 s2 p2 :
  build_query c1 s1 p1 = build_query c2 s2 p2
  <-> congress_str c1 = congress_str c2 /\ s1 = s2 /\ (p1 = p2 \/ (p1 <= 1 /\ p2 <= 1)).
Proof.
  unfold build_query.
  destruct (1 <? p1) eqn:H1; destruct (1 <? p2) eqn:H2; cbn;
    try apply Z.ltb_lt in H1; try apply Z.ltb_lt in H2;
    try apply Z.ltb_ge in H1; try apply Z.ltb_ge in H2; split.
  - intros [= -> -> ->]. auto.
  - intros (-> & -> & [-> | [? ?]]); [reflexivity | lia].
  - discriminate.
  - intros (_ & _ & [-> | [? ?]]); lia.
  - discriminate.
  - intros (_ & _ & [-> | [? ?]]); lia.
  - intros [= -> ->]. auto.
  - intros (-> & -> & _). reflexivity.
Qed.

(** Two calls of [_build_search_url] give the same URL exactly when they
    agree on the string form of the congress, on the source, and on the
    page, where all pages up to 1 count as one. For integers the string form
    tells the congress. *)
Theorem same_url_iff_same_query c1 s1 p1 c2 s2 p2 :
  (_build_search_url c1 s1 p1 = _build_search_url c2 s2 p2
   <-> congress_str c1 = congress_str c2 /\ s1 = s2 /\ (p1 = p2 \/ (p1 <= 1 /\ p2 <= 1)))
  /\ (forall a b, congress_str (CInt a) = congress_str (CInt b) <-> a = b).
Proof.
  split.
  - rewrite <- build_query_eq_iff. split.
    + intros H.
      pose proof (decode_plus_build_search_url c1 s1 p1) as D1.
      pose proof (decode_plus_build_search_url c2 s2 p2) as D2.
      rewrite H, D2 in D1. now injection D1.
    + intros H. unfold _build_search_url. now rewrite H.
  - intros a b. split; [apply str_of_int_inj | now intros ->].
Qed.

(** ** The decoding of [url_test.py] *)

Lemma prefix_cons (a b : ascii) (p s : string) :
  String.prefix (String a p) (String b s) = Ascii.eqb a b && String.prefix p s.
Proof.
  cbn [String.prefix]. destruct (ascii_dec a b) as [->|H].
  - now rewrite Ascii.eqb_refl.
  - apply Ascii.eqb_neq in H. now rewrite H.
Qed.

Lemma prefix_nil (s : string) : String.prefix "" s = true.
Proof. destruct s; reflexivity. Qed.

Lemma q_run_occurs (s : string) :
  q_run 0 s = occurs "?q=" s
  /\ q_run 1 s = String.prefix "q=" s || occurs "?q=" s
  /\ q_run 2 s = String.prefix "=" s || occurs "?q=" s.
Proof.
  induction s as [|c r (IH0 & IH1 & IH2)]; [repeat split; reflexivity|].
  cbn [q_run occurs q_step]. rewrite !prefix_cons, prefix_nil.
  rewrite (Ascii.eqb_sym "?" c), (Ascii.eqb_sym "q" c), (Ascii.eqb_sym "=" c).
  destruct (Ascii.eqb_spec c "?") as [->|Hq];
    [|destruct (Ascii.eqb_spec c "q") as [->|Hp];
      [|destruct (Ascii.eqb_spec c "=") as [->|He]]];
    cbn -[String.prefix occurs]; rewrite ?IH0, ?IH1, ?IH2; repeat split;
    try reflexivity.
Qed.

Lemma q_step_cases (k : nat) (c : ascii) :
  q_step k c = 3%nat \/ (q_step k c <= 2)%nat.
Proof.
  destruct k as [|[|[|k]]]; cbn;
    repeat match goal with |- context [Ascii.eqb ?a ?b] => destruct (Ascii.eqb a b) end;
    auto; right; lia.
Qed.

Lemma q_run_escape_char (k : nat) (c : ascii) (tail : string) :
  q_run k (Json.escape_char c +:+ tail)
  = Nat.eqb (q_step k c) 3 || q_run (q_step k c) tail.
Proof. destruct k as [|[|[|k]]]; each_char c; reflexivity. Qed.

Lemma q_run_escape (k : nat) (s tail : string) :
  q_run k (Json.escape s +:+ tail) = q_run k s || q_run (q_state k s) tail.
Proof.
  revert k. induction s as [|c s IH]; intros k; [reflexivity|].
  change (Json.escape (String c s)) with (Json.escape_char c +:+ Json.escape s).
  rewrite append_assoc, q_run_escape_char, IH. cbn [q_run q_state].
  now rewrite orb_assoc.
Qed.

Lemma q_run_reset (k : nat) (c : ascii) (tail : string) :
  Ascii.eqb c "?" = false -> Ascii.eqb c "q" = false -> Ascii.eqb c "=" = false ->
  q_run k (String c tail) = q_run 0 tail.
Proof.
  intros H1 H2 H3. cbn [q_run].
  destruct k as [|[|[|k]]]; cbn [q_step]; rewrite ?H1, ?H2, ?H3; reflexivity.
Qed.

Lemma q_run_lit (k : nat) (s rest : string) :
  q_run k (lit s rest) = q_run 0 s || q_run 0 rest.
Proof.
  unfold lit. rewrite q_run_reset by reflexivity.
  rewrite q_run_escape. now rewrite q_run_reset by reflexivity.
Qed.

Lemma q_run_digits (k : nat) (u : Decimal.uint) (c : ascii) (rest : string) :
  Ascii.eqb c "?" = false -> Ascii.eqb c "q" = false -> Ascii.eqb c "=" = false ->
  q_run k (NilEmpty.string_of_uint u +:+ String c rest) = q_run 0 rest.
Proof.
  intros H1 H2 H3. revert k.
  induction u; intros k; cbn [NilEmpty.string_of_uint String.append];
    try (rewrite q_run_reset by reflexivity; apply IHu).
  now apply q_run_reset.
Qed.

Lemma occurs_json_text (congress : congress_arg) (source : string) (page : Z) :
  occurs "?q=" (json_text congress source page)
  = occurs "?q=" (congress_str congress) || occurs "?q=" source.
Proof.
  rewrite <- !(proj1 (q_run_occurs _)).
  unfold json_text, json_tail.
  rewrite (q_run_reset _ "{") by reflexivity. rewrite q_run_lit.
  rewrite (q_run_reset _ ":") by reflexivity. rewrite q_run_lit.
  rewrite (q_run_reset _ ",") by reflexivity. rewrite q_run_lit.
  rewrite (q_run_reset _ ":") by reflexivity.
  rewrite (q_run_reset _ "[") by reflexivity. rewrite q_run_lit.
  rewrite (q_run_reset _ "]") by reflexivity.
  change (q_run 0 "congress") with false. change (q_run 0 "source") with false.
  cbn [orb]. f_equal.
  destruct (1 <? page) eqn:Hpage; [|now rewrite orb_false_r].
  destruct page as [|p|p]; try discriminate Hpage.
  rewrite (q_run_reset _ ",") by reflexivity. rewrite q_run_lit.
  rewrite (q_run_reset _ ":") by reflexivity.
  cbn [String.append].
  rewrite (q_run_reset _ "1") by reflexivity.
  rewrite (q_run_reset _ "0") by reflexivity.
  rewrite (q_run_reset _ "0") by reflexivity.
  rewrite (q_run_reset _ ",") by reflexivity. rewrite q_run_lit.
  rewrite (q_run_reset _ ":") by reflexivity.
  rewrite str_of_int_pos, q_run_digits by reflexivity.
  now rewrite orb_false_r.
Qed.

Lemma split_go_no_sep (cur s : string) :
  occurs "?q=" s = false -> split_go "?q=" 0 cur s = [cur +:+ s].
Proof.
  revert cur. induction s as [|c r IH]; intros cur H.
  - cbn. now rewrite append_nil_r.
  - cbn [occurs] in H. apply orb_false_iff in H as [Hp Ho].
    cbn [split_go]. rewrite Hp, (IH _ Ho). now rewrite append_assoc.
Qed.

Lemma split_go_miss (cur : string) (c : ascii) (r : string) :
  Ascii.eqb "?" c = false ->
  split_go "?q=" 0 cur (String c r) = split_go "?q=" 0 (cur +:+ String c "") r.
Proof. intros H. cbn [split_go]. now rewrite prefix_cons, H. Qed.

Lemma split_go_hit (cur r : string) :
  split_go "?q=" 0 cur ("?q=" +:+ r) = cur :: split_go "?q=" 0 "" r.
Proof.
  cbn [String.append split_go]. rewrite !prefix_cons, prefix_nil. reflexivity.
Qed.

Lemma str_split_built (v : string) :
  occurs "?q=" v = false ->
  nth_error (str_split "?q=" (base_url +:+ "?q=" +:+ v)) 1 = Some v.
Proof.
  intros H. unfold str_split, base_url. cbn [String.append].
  rewrite !split_go_miss by reflexivity.
  change (String "?" (String "q" (String "=" v))) with ("?q=" +:+ v).
  rewrite split_go_hit, (split_go_no_sep "" v H). reflexivity.
Qed.

Lemma unquote_cons (c : ascii) (r : string) :
  Ascii.eqb c "%" = false -> Urllib.unquote (String c r) = String c <$> Urllib.unquote r.
Proof. intros H. cbn [Urllib.unquote]. now rewrite H. Qed.

Lemma unquote_built (v t : string) :
  Urllib.unquote v = Some t ->
  Urllib.unquote (base_url +:+ "?q=" +:+ v) = Some (base_url +:+ "?q=" +:+ t).
Proof.
  intros H. unfold base_url. cbn [String.append].
  rewrite !unquote_cons by reflexivity. rewrite H. reflexivity.
Qed.

(** The decoding of [test_url_builder], which unquotes the whole URL and
    then takes what stands between the first and the second [?q=], gives
    the query object back when neither the string form of the congress nor
    the source contains a space or the text [?q=]. *)
Theorem test_url_builder_recovers_query
    (congress : congress_arg) (source : string) (page : Z) :
  Py.has_space (congress_str congress) = false ->
  Py.has_space source = false ->
  occurs "?q=" (congress_str congress) = false ->
  occurs "?q=" source = false ->
  test_url_builder_query (_build_search_url congress source page)
  = Some (Json.JObj (build_query congress source page)).
Proof.
  intros Hc Hs Oc Os. unfold test_url_builder_query.
  rewrite build_search_url_q, dumps_build_query.
  rewrite (unquote_built _ (json_text congress source page))
    by (apply unquote_quote_plus; now apply plain_json_text).
  rewrite str_split_built by (now rewrite occurs_json_text, Oc, Os).
  apply loads_json_text.
Qed.

Lemma test_url_builder_recovers_query_witness :
  test_url_builder_query (_build_search_url (CInt 118) "comreports" 2)
  = Some (Json.JObj (build_query (CInt 118) "comreports" 2)).
Proof.
  apply (test_url_builder_recovers_query (CInt 118) "comreports" 2); reflexivity.
Defined.

End UrlMore.

(* ===================================================================== *)
(** * More about one page and about the loop                             *)
(* ===================================================================== *)

Section EventsIn.

Context {A B : Type} (P : event -> Prop).

Lemma extends_by_refl (s : state) : extends_by P s s.
Proof. exists []. split; [now rewrite app_nil_r | constructor]. Qed.

Lemma extends_by_trans (s1 s2 s3 : state) :
  extends_by P s1 s2 -> extends_by P s2 s3 -> extends_by P s1 s3.
Proof.
  intros (m1 & Ht1 & Hg1) (m2 & Ht2 & Hg2). exists (m1 ++ m2). split.
  - rewrite Ht2, Ht1. now rewrite app_assoc.
  - now apply Forall_app.
Qed.

Lemma events_in_ret (a : A) : events_in P (ret a).
Proof. intros s. apply extends_by_refl. Qed.

Lemma events_in_raise (e : exn) : events_in P (raise e : M A).
Proof. intros s. apply extends_by_refl. Qed.

Lemma events_in_lift (r : result A) : events_in P (lift r).
Proof. destruct r; [apply events_in_ret | apply events_in_raise]. Qed.

(** Sequencing, with what is known of the value that is passed on. *)
Lemma events_in_bind (Q : A -> Prop) (m : M A) (k : A -> M B) :
  (forall s a s', m s = Return a s' -> Q a) ->
  events_in P m -> (forall a, Q a -> events_in P (k a)) -> events_in P (bind m k).
Proof.
  intros HQ Hm Hk s. unfold bind. specialize (Hm s). specialize (HQ s).
  destruct (m s) as [a s'|e s'|]; auto.
  specialize (Hk a (HQ a s' eq_refl) s').
  destruct (k a s'); auto; eapply extends_by_trans; eauto.
Qed.

Lemma events_in_try_except (m : M A) (h : string -> M A) :
  events_in P m -> (forall cls, events_in P (h cls)) -> events_in P (try_except m h).
Proof.
  intros Hm Hh s. unfold try_except. specialize (Hm s).
  destruct (m s) as [a s'|[cls|cls] s'|]; auto.
  specialize (Hh cls s'). destruct (h cls s'); auto; eapply extends_by_trans; eauto.
Qed.

End EventsIn.

Section PageMore.

Variable E : env.

Lemma events_in_get (P : event -> Prop) (url : string) : P (Get url) -> events_in P (get E url).
Proof.
  intros HP s. unfold get.
  assert (extends_by P s (mkState (S (tick s)) (trace s ++ [Get url]) (scrapers s))).
  { exists [Get url]. split; [reflexivity | now repeat constructor]. }
  destruct (http_get E (tick s) url); assumption.
Qed.

Lemma events_in_now (P : event -> Prop) : events_in P (now E).
Proof. intros s. exists []. split; [cbn; now rewrite app_nil_r | constructor]. Qed.

(** ** What the parsed records are *)

Lemma parse_items_full (items : list Bs4.node) (acc : list record) (s : state) :
  exists results s',
    parse_items E items acc s = Return (acc ++ results) s'
    /\ trace s' = trace s
    /\ Forall parsed_record results.
Proof.
  revert acc s. induction items as [|item rest IH]; intros acc s; cbn [parse_items].
  - exists [], s. rewrite app_nil_r. repeat split; constructor.
  - unfold bind. rewrite parse_item_eq.
    destruct (kept_fields item) as [r|] eqn:Hk.
    + destruct (IH (acc ++ [<["scraped_at" := VStr (clock E (tick s))]> r]) (after_now s))
        as (results & s' & Hrun & Htr & Hall).
      exists (<["scraped_at" := VStr (clock E (tick s))]> r :: results), s'.
      split; [now rewrite Hrun, <- app_assoc|]. split; [exact Htr|].
      constructor; [|exact Hall]. exists item, r, (clock E (tick s)). auto.
    + destruct (IH acc s) as (results & s' & Hrun & Htr & Hall).
      exists results, s'. auto.
Qed.

Lemma parse_search_results_full (html : string) (s : state) :
  match parse_search_results E html s with
  | Return results s' => trace s' = trace s /\ Forall parsed_record results
  | Raise _ s' => s' = s
  | OutOfFuel => False
  end.
Proof.
  unfold parse_search_results, bind, BeautifulSoup, lift.
  destruct (soup_of E html) as [soup|e]; [|reflexivity]. cbn [ret].
  destruct (parse_items_full (Bs4.find_all "li" (Some "expanded") soup) [] s)
    as (results & s' & Hrun & Htr & Hall).
  rewrite Hrun. auto.
Qed.

Lemma parsed_record_url (r : record) :
  parsed_record r ->
  exists href, r !! "url" = Some (VStr ("https://www.congress.gov" +:+ href)).
Proof.
  intros (item & r0 & t & Hk & ->).
  apply kept_fields_values in Hk as (te & link & href & _ & _ & _ & _ & Hurl & _).
  exists href. now rewrite lookup_insert_ne by discriminate.
Qed.

Lemma parsed_record_stamped (r : record) : parsed_record r -> stamped_with_url r.
Proof.
  intros Hr. split.
  - destruct Hr as (item & r0 & t & _ & ->). eexists. apply lookup_insert_eq.
  - destruct (parsed_record_url r Hr) as [href H]. eauto.
Qed.

(** ** What the loop over the parsed items does *)

Lemma record_url_lookup (r : record) (u : string) :
  r !! "url" = Some (VStr u) -> record_url r = u.
Proof. intros H. unfold record_url. now rewrite H. Qed.

Lemma enriched_url (item final : record) :
  (exists u, item !! "url" = Some (VStr u)) ->
  enriched item final -> final !! "url" = item !! "url".
Proof.
  intros [u Hu] [->|(soup & t & ->)]; [reflexivity|].
  rewrite (record_url_lookup _ _ Hu), Hu.
  apply update_overwrites, lookup_insert_eq.
Qed.

Lemma detail_items_finals c items acc s out s' :
  Forall stamped_with_url items ->
  detail_items E c items acc s = Return out s' ->
  exists finals,
    out = acc ++ finals
    /\ trace s' = trace s ++ map (fun r => Get (record_url r)) items
    /\ Forall2 enriched items finals.
Proof.
  intros Hall. revert acc s. induction Hall as [|item rest [_ [u Hu]] _ IH]; intros acc s.
  - cbn. intros [= <- <-]. exists []. rewrite !app_nil_r. repeat split. constructor.
  - cbn [detail_items]. unfold bind at 1, item_url. rewrite Hu. cbn [ret].
    unfold bind at 1. destruct c. cbn [scrape_item_of]. rewrite scrape_item_eq.
    assert (Hstep : forall details s1,
               trace s1 = trace s ++ [Get u] ->
               (details = ∅ \/ exists soup t, details = details_of u soup t) ->
               detail_items E LegislationScraper rest (acc ++ [update item details]) s1
               = Return out s' ->
               exists finals,
                 out = acc ++ finals
                 /\ trace s' = trace s ++ map (fun r => Get (record_url r)) (item :: rest)
                 /\ Forall2 enriched (item :: rest) finals).
    { intros details s1 Htr Hd Hrun. apply IH in Hrun as (finals & -> & Htr' & H2).
      exists (update item details :: finals). split; [now rewrite <- app_assoc|]. split.
      - rewrite Htr', Htr. cbn [map]. rewrite (record_url_lookup _ _ Hu).
        now rewrite <- app_assoc.
      - constructor; [|exact H2]. destruct Hd as [->|(soup & t & ->)].
        + left. apply update_empty.
        + right. exists soup, t. now rewrite (record_url_lookup _ _ Hu). }
    destruct (http_get E (tick s) u) as [html|[cls|cls]];
      [destruct (soup_of E html) as [soup|[cls|cls]]|..]; try discriminate;
      apply Hstep; auto; eauto.
Qed.

(** A job that returns has made one request for its search page and then
    one request per returned record, to the URL of the record and in the
    order of the records; the URL of a record is the one that was parsed. *)
Theorem one_detail_request_per_record (job : ScrapingJob) (s : state)
    (items : list record) (s' : state) :
  _scrape_page E job s = Return items s' ->
  trace s' = trace s ++ Get (search_url job) :: map (fun r => Get (record_url r)) items
  /\ Forall (fun r => exists href,
                 r !! "url" = Some (VStr ("https://www.congress.gov" +:+ href))) items.
Proof.
  rewrite scrape_page_eq.
  assert (Hnil : forall s1, trace s1 = trace s ++ [Get (search_url job)] ->
                  Return ([] : list record) s1 = Return items s' ->
                  trace s' = trace s ++ Get (search_url job)
                                        :: map (fun r => Get (record_url r)) items
                  /\ Forall (fun r => exists href,
                                r !! "url" = Some (VStr ("https://www.congress.gov" +:+ href)))
                            items).
  { intros s1 Htr [= <- <-]. split; [exact Htr | constructor]. }
  destruct (http_get E (tick s) (search_url job)) as [html|[cls|cls]];
    [|apply Hnil; reflexivity|discriminate].
  destruct (scrapers s !! source job) as [c|]; [|apply Hnil; reflexivity].
  destruct c. cbn [parse_search_results_of].
  pose proof (parse_search_results_full html (after_get s (search_url job))) as Hp.
  destruct (parse_search_results E html _) as [parsed s1|[cls|cls] s1|];
    [|subst s1; apply Hnil; reflexivity|discriminate|contradiction].
  destruct Hp as [Htr Hall].
  assert (Hst : Forall stamped_with_url parsed)
    by (eapply Forall_impl; [exact Hall | apply parsed_record_stamped]).
  pose proof (detail_items_length E LegislationScraper parsed [] s1 Hst) as Hlen.
  destruct (detail_items E LegislationScraper parsed [] s1) as [out s2|[cls|cls] s2|] eqn:Hd;
    try contradiction; try discriminate.
  intros [= <- <-].
  apply detail_items_finals in Hd as (finals & -> & Htr2 & H2); [|exact Hst].
  cbn [app]. split.
  - rewrite Htr2, Htr. cbn [after_get trace]. rewrite <- app_assoc. cbn [app].
    do 2 f_equal. clear - H2 Hst.
    induction H2 as [|item final items finals He _ IH]; [reflexivity|].
    apply Forall_cons in Hst as [[_ Hu] Hst]. cbn [map]. rewrite (IH Hst). f_equal.
    unfold record_url. now rewrite (enriched_url item final Hu He).
  - clear - H2 Hall. induction H2 as [|item final items finals He _ IH]; [constructor|].
    apply Forall_cons in Hall as [Hi Hall]. constructor; [|now apply IH].
    destruct (parsed_record_url item Hi) as [href Hu]. exists href.
    rewrite <- Hu. apply enriched_url; eauto.
Qed.

End PageMore.

Section ScopeAndKeys.

Variable E : env.

(** ** The keys of the records *)

Lemma dom_kept_fields (item : Bs4.node) (r : record) :
  kept_fields item = Some r ->
  dom r = ({["bill_number"; "title"; "status"; "sponsor"; "url"]} : gset string).
Proof.
  unfold kept_fields, item_fields.
  destruct (Bs4.find "h2" _ item); [|discriminate].
  destruct (Bs4.find "a" None _); [|discriminate].
  destruct (Bs4.getitem "href" _); [|discriminate].
  intros [= <-]. rewrite !dom_insert_L, dom_empty_L. set_solver.
Qed.

Lemma dom_parsed_record (r : record) : parsed_record r -> dom r = search_keys.
Proof.
  intros (item & r0 & t & Hk & ->). rewrite dom_insert_L, (dom_kept_fields _ _ Hk).
  unfold search_keys. set_solver.
Qed.

Lemma dom_details_of (url : string) (soup : Bs4.node) (t : string) :
  dom (details_of url soup t) = detail_keys.
Proof. unfold details_of, detail_keys. rewrite !dom_insert_L, dom_empty_L. set_solver. Qed.

Lemma dom_enriched (item final : record) :
  dom item = search_keys -> enriched item final ->
  dom final = search_keys \/ dom final = search_keys ∪ detail_keys.
Proof.
  intros Hd [->|(soup & t & ->)]; [now left|]. right.
  unfold update. rewrite dom_union_L, dom_details_of, Hd. set_solver.
Qed.

(** What a job that returns has done: it parsed records and enriched each
    of them. *)
Lemma scrape_page_enriched (job : ScrapingJob) (s : state) (items : list record) (s' : state) :
  _scrape_page E job s = Return items s' ->
  exists parsed, Forall parsed_record parsed /\ Forall2 enriched parsed items.
Proof.
  rewrite scrape_page_eq.
  assert (Hnil : forall s1, Return ([] : list record) s1 = Return items s' ->
                  exists parsed, Forall parsed_record parsed /\ Forall2 enriched parsed items).
  { intros s1 [= <- <-]. exists []. split; constructor. }
  destruct (http_get E (tick s) (search_url job)) as [html|[cls|cls]];
    [|apply Hnil|discriminate].
  destruct (scrapers s !! source job) as [c|]; [|apply Hnil].
  destruct c. cbn [parse_search_results_of].
  pose proof (parse_search_results_full E html (after_get s (search_url job))) as Hp.
  destruct (parse_search_results E html _) as [parsed s1|[cls|cls] s1|];
    [|apply Hnil|discriminate|contradiction].
  destruct Hp as [_ Hall].
  assert (Hst : Forall stamped_with_url parsed)
    by (eapply Forall_impl; [exact Hall | apply parsed_record_stamped]).
  pose proof (detail_items_length E LegislationScraper parsed [] s1 Hst) as Hlen.
  destruct (detail_items E LegislationScraper parsed [] s1) as [out s2|[cls|cls] s2|] eqn:Hd;
    try contradiction; try discriminate.
  intros [= <- <-].
  apply detail_items_finals in Hd as (finals & -> & _ & H2); [|exact Hst].
  exists parsed. auto.
Qed.

(** Every record that a job returns has the six keys of a search result, or
    these and the keys of the detail page, eleven in all: a record never
    carries part of the details. *)
Theorem returned_records_have_fixed_keys (job : ScrapingJob) (s : state)
    (items : list record) (s' : state) :
  _scrape_page E job s = Return items s' ->
  Forall (fun r => dom r = search_keys
                   \/ (dom r = search_keys ∪ detail_keys /\ size (dom r) = 11%nat)) items.
Proof.
  intros H. apply scrape_page_enriched in H as (parsed & Hall & H2).
  induction H2 as [|item final parsed items He _ IH]; [constructor|].
  apply Forall_cons in Hall as [Hi Hall]. constructor; [|now apply IH].
  destruct (dom_enriched item final (dom_parsed_record _ Hi) He) as [Hd|Hd]; [now left|].
  right. split; [exact Hd|]. rewrite Hd. reflexivity.
Qed.

(** ** The requests stay in scope *)

Section Scope.

Variable P : event -> Prop.
Hypothesis Hsite : forall href, P (Get ("https://www.congress.gov" +:+ href)).

Lemma events_in_parse_item (item : Bs4.node) : events_in P (parse_item E item).
Proof.
  intros s. rewrite parse_item_eq. destruct (kept_fields item).
  - exists []. split; [cbn; now rewrite app_nil_r | constructor].
  - apply extends_by_refl.
Qed.

Lemma events_in_parse_search_results (html : string) :
  events_in P (parse_search_results E html).
Proof.
  intros s. pose proof (parse_search_results_full E html s) as H.
  destruct (parse_search_results E html s) as [results s1|e s1|]; [| |exact I].
  - destruct H as [Htr _]. exists []. split; [now rewrite app_nil_r | constructor].
  - subst s1. apply extends_by_refl.
Qed.

Lemma events_in_scrape_item (url : string) : P (Get url) -> events_in P (scrape_item E url).
Proof.
  intros HP. apply events_in_try_except; [|intros; apply events_in_ret].
  apply (events_in_bind P (fun _ => True)); [auto | now apply events_in_get|]. intros html _.
  apply (events_in_bind P (fun _ => True)); [auto | apply events_in_lift|]. intros soup _.
  apply (events_in_bind P (fun _ => True)); [auto | apply events_in_now|]. intros t _.
  apply events_in_ret.
Qed.

Lemma events_in_detail_items c items acc :
  Forall parsed_record items -> events_in P (detail_items E c items acc).
Proof.
  intros Hall. revert acc. induction Hall as [|item rest Hi _ IH]; intros acc; cbn [detail_items].
  - apply events_in_ret.
  - destruct (parsed_record_url item Hi) as [href Hu].
    apply (events_in_bind P (fun u => u = "https://www.congress.gov" +:+ href)).
    + intros s u s'. unfold item_url. rewrite Hu. now intros [= <- _].
    + unfold item_url. rewrite Hu. apply events_in_ret.
    + intros u ->.
      apply (events_in_bind P (fun _ => True)); [auto| |intros; apply IH].
      destruct c. now apply events_in_scrape_item.
Qed.

Lemma events_in_scrape_page (job : ScrapingJob) :
  P (Get (search_url job)) -> events_in P (_scrape_page E job).
Proof.
  intros HP. apply events_in_try_except; [|intros; apply events_in_ret].
  apply (events_in_bind P (fun _ => True)); [auto | now apply events_in_get|]. intros html _.
  apply (events_in_bind P (fun _ => True)); [auto | intros s; apply extends_by_refl|].
  intros [c|] _; [|apply events_in_ret]. destruct c. cbn [parse_search_results_of].
  apply (events_in_bind P (Forall parsed_record)).
  - intros s results s' H. pose proof (parse_search_results_full E html s) as Hp.
    rewrite H in Hp. tauto.
  - apply events_in_parse_search_results.
  - intros items Hall. now apply events_in_detail_items.
Qed.

End Scope.

Variables (start_congress end_congress : Z) (sources : gset string).

Lemma continuation_in_scope (job : ScrapingJob) (items : list record) :
  in_scope start_congress end_congress sources job ->
  Forall (in_scope start_congress end_congress sources) (continuation job items).
Proof.
  intros (Hc & Hs & Hp). destruct items; constructor; [|constructor].
  unfold in_scope. cbn. repeat split; auto; lia.
Qed.

Lemma events_in_drain (fuel : nat) (queue : list ScrapingJob) (results : list record) :
  Forall (in_scope start_congress end_congress sources) queue ->
  events_in (allowed_request start_congress end_congress sources)
            (drain E fuel queue results).
Proof.
  revert queue results. induction fuel as [|fuel IH]; intros [|job rest] results Hq;
    cbn [drain]; try apply events_in_ret; [intros s; exact I|].
  apply Forall_cons in Hq as [Hjob Hrest].
  apply (events_in_bind _
           (fun qr => Forall (in_scope start_congress end_congress sources) (fst qr))).
  - intros s qr s'. unfold process_job, bind.
    destruct (_scrape_page E job s) as [items s1|e s1|]; try discriminate.
    intros [= <- _]. cbn [fst]. apply Forall_app. split; [exact Hrest|].
    now apply continuation_in_scope.
  - unfold process_job.
    apply (events_in_bind _ (fun _ => True)); [auto| |intros; apply events_in_ret].
    apply events_in_scrape_page.
    + intros href. right. eauto.
    + left. eauto.
  - intros qr Hqr. now apply IH.
Qed.

(** Whatever the world answers, between the opening of the session and the
    end of [scrape] every request is for the search page of a job of the
    configured congresses and sources with a page of 1 or more, or for a
    page below [https://www.congress.gov]. *)
Theorem scrape_requests_stay_in_scope (fuel : nat) (max_workers : Z) (s : state) :
  match scrape E fuel max_workers start_congress end_congress sources s with
  | Return _ s' =>
      exists requests,
        trace s' = trace s ++ [SessionOpened] ++ requests ++ [SessionClosed]
        /\ Forall (allowed_request start_congress end_congress sources) requests
  | Raise _ s' =>
      exists requests,
        trace s' = trace s ++ [SessionOpened] ++ requests
        /\ Forall (allowed_request start_congress end_congress sources) requests
  | OutOfFuel => True
  end.
Proof.
  rewrite scrape_eq. cbv zeta.
  set (s0 := mkState (tick s) (trace s ++ [SessionOpened]) _).
  destruct (max_workers <=? 0).
  { exists []. split; [reflexivity | constructor]. }
  assert (Hq : Forall (in_scope start_congress end_congress sources)
                      (initial_jobs start_congress end_congress sources)).
  { apply Forall_forall. intros job Hjob.
    apply list_elem_of_In, in_initial_jobs in Hjob as (Hc & Hs & Hp).
    unfold in_scope. repeat split; auto; lia. }
  pose proof (events_in_drain fuel _ [] Hq s0) as H.
  destruct (drain E fuel _ [] s0) as [results s1|e s1|]; [| |exact I];
    destruct H as (mid & Ht & Hg); cbn; exists mid; (split; [|exact Hg]);
    rewrite Ht; subst s0; cbn; now rewrite <- !app_assoc.
Qed.

(** ** Sources without a scraper *)

Lemma drain_unregistered (queue : list ScrapingJob) (results : list record) (s : state) :
  only_exceptions E ->
  Forall (fun job => scrapers s !! source job = None) queue ->
  drain E (length queue) queue results s
  = Return results
      (mkState (length queue + tick s)
               (trace s ++ map (fun job => Get (search_url job)) queue) (scrapers s)).
Proof.
  intros HE. revert s. induction queue as [|job rest IH]; intros s Hq.
  - cbn. rewrite app_nil_r. now destruct s.
  - apply Forall_cons in Hq as [Hjob Hrest]. cbn [length].
    assert (Hrun : _scrape_page E job s = Return [] (after_get s (search_url job))).
    { apply scrape_page_unknown_source; [exact Hjob|].
      intros cls H. apply HE in H as [cls' H]. discriminate H. }
    rewrite (drain_step E _ _ _ _ _ _ _ Hrun). cbn [continuation]. rewrite !app_nil_r.
    rewrite IH by exact Hrest. cbn. f_equal. f_equal; [lia|].
    now rewrite <- app_assoc.
Qed.

End ScopeAndKeys.

(** A run that asks for sources other than [legislation] only, on a fresh
    scraper with a positive budget of workers and in a world that raises
    nothing outside [Exception], fetches the first search page of every
    congress and source, once each, and returns the empty list: no other
    source has a scraper. *)
Theorem unregistered_sources_yield_nothing
    (E : env) (max_workers start_congress end_congress : Z) (sources : gset string)
    (t : nat) :
  0 < max_workers ->
  only_exceptions E ->
  "legislation" ∉ sources ->
  let queue := initial_jobs start_congress end_congress sources in
  exists s',
    scrape E (length queue) max_workers start_congress end_congress sources (init_state t)
    = Return [] s'
    /\ trace s' = [SessionOpened] ++ map (fun job => Get (search_url job)) queue
                  ++ [SessionClosed].
Proof.
  intros Hw HE Hleg queue. rewrite scrape_with_workers by exact Hw. cbv zeta.
  fold queue. rewrite drain_unregistered; [|exact HE|].
  - cbn. eexists. split; [reflexivity|]. cbn. reflexivity.
  - apply Forall_forall. intros job Hjob.
    apply list_elem_of_In, in_initial_jobs in Hjob as (_ & Hs & _). cbn.
    rewrite lookup_insert_ne; [apply lookup_empty|].
    intros Heq. rewrite <- Heq in Hs. contradiction.
Qed.

(* ===================================================================== *)
(** * The extracted values                                                *)
(* ===================================================================== *)

Section Extracted.

Lemma lstrip_head (s : string) :
  match Py.lstrip s with
  | String c _ => Py.isspace c = false
  | EmptyString => True
  end.
Proof.
  induction s as [|c r IH]; [exact I|]. cbn [Py.lstrip].
  destruct (Py.isspace c) eqn:Hc; [exact IH | exact Hc].
Qed.

Lemma rstrip_rstrip (s : string) : Py.rstrip (Py.rstrip s) = Py.rstrip s.
Proof.
  induction s as [|c r IH]; [reflexivity|]. cbn [Py.rstrip].
  destruct (Py.rstrip r) as [|d r'] eqn:Hr.
  - destruct (Py.isspace c) eqn:Hc; [reflexivity|]. cbn [Py.rstrip]. now rewrite Hc.
  - cbn [Py.rstrip]. cbn [Py.rstrip] in IH. now rewrite IH.
Qed.

Lemma rstrip_keeps_head (c : ascii) (r : string) :
  Py.isspace c = false -> exists r', Py.rstrip (String c r) = String c r'.
Proof.
  intros Hc. cbn [Py.rstrip]. destruct (Py.rstrip r); [rewrite Hc|]; eauto.
Qed.

(** [strip] leaves no white space at either end. *)
Lemma stripped_strip (s : string) : stripped (Py.strip s).
Proof.
  unfold stripped, Py.strip. split; [|apply rstrip_rstrip].
  pose proof (lstrip_head s) as H. destruct (Py.lstrip s) as [|c r]; [reflexivity|].
  destruct (rstrip_keeps_head c r H) as [r' ->]. cbn [Py.lstrip]. now rewrite H.
Qed.

Lemma stripped_or_default (elem : option Bs4.node) (default : string) :
  stripped default -> exists v, or_default elem default = VStr v /\ stripped v.
Proof.
  intros Hd. unfold or_default. destruct elem; eexists; split; eauto using stripped_strip.
Qed.

(** In a record of the search, the bill number, the title, the status and
    the sponsor are strings without white space at either end, the
    placeholders included. *)
Theorem search_fields_are_stripped (item : Bs4.node) (r : record) (k : string) :
  kept_fields item = Some r ->
  search_field k ->
  exists v, r !! k = Some (VStr v) /\ stripped v.
Proof.
  intros Hk Hf.
  apply kept_fields_values in Hk
    as (te & link & href & _ & _ & _ & Hn & _ & Ht & Hs & Hp).
  destruct Hf as [-> | [-> | [-> | ->]]].
  - eexists. split; [exact Hn | apply stripped_strip].
  - rewrite Ht. destruct (stripped_or_default
                            (Bs4.find "p" (Some "item-description") item)
                            "No title available") as (v & -> & Hv); [now split|eauto].
  - rewrite Hs. destruct (stripped_or_default
                            (Bs4.find "span" (Some "status") item)
                            "Status unknown") as (v & -> & Hv); [now split|eauto].
  - rewrite Hp. destruct (stripped_or_default
                            (Bs4.find "span" (Some "sponsor") item)
                            "No sponsor info") as (v & -> & Hv); [now split|eauto].
Qed.

Lemma in_extract_actions (soup : Bs4.node) (d a : string) :
  In (d, a) (_extract_actions soup)
  <-> exists action_table row c0 c1 more,
        Bs4.find "table" (Some "actions") soup = Some action_table
        /\ In row (tail (Bs4.find_all "tr" None action_table))
        /\ Bs4.find_all "td" None row = c0 :: c1 :: more
        /\ d = Py.strip (Bs4.text c0) /\ a = Py.strip (Bs4.text c1).
Proof.
  unfold _extract_actions.
  destruct (Bs4.find "table" (Some "actions") soup) as [action_table|].
  - rewrite in_flat_map. split.
    + intros (row & Hrow & Hin).
      destruct (Bs4.find_all "td" None row) as [|c0 [|c1 more]] eqn:Hc; try contradiction.
      destruct Hin as [[= <- <-]|[]]. exists action_table, row, c0, c1, more. auto.
    + intros (t' & row & c0 & c1 & more & [= <-] & Hrow & Hc & -> & ->).
      exists row. split; [exact Hrow|]. rewrite Hc. now left.
  - split; [contradiction|]. intros (t' & _ & _ & _ & _ & H & _). discriminate H.
Qed.

Lemma length_flat_map_le {X Y : Type} (f : X -> list Y) (l : list X) :
  (forall x, length (f x) <= 1)%nat -> (length (flat_map f l) <= length l)%nat.
Proof.
  intros Hf. induction l as [|x l IH]; [reflexivity|].
  cbn [flat_map]. rewrite length_app. specialize (Hf x). cbn [length]. lia.
Qed.

(** [_extract_actions] gives no action without an action table. With one,
    its actions are the stripped texts of the first two cells of the rows
    after the first that have two cells or more: the header row and the
    short rows give nothing, so there are fewer actions than rows. *)
Theorem extract_actions_skips_header_and_short_rows (soup : Bs4.node) :
  (Bs4.find "table" (Some "actions") soup = None -> _extract_actions soup = [])
  /\ (forall action_table,
        Bs4.find "table" (Some "actions") soup = Some action_table ->
        (length (_extract_actions soup)
         <= length (Bs4.find_all "tr" None action_table) - 1)%nat)
  /\ (forall d a,
        In (d, a) (_extract_actions soup)
        <-> exists action_table row c0 c1 more,
              Bs4.find "table" (Some "actions") soup = Some action_table
              /\ In row (tail (Bs4.find_all "tr" None action_table))
              /\ Bs4.find_all "td" None row = c0 :: c1 :: more
              /\ d = Py.strip (Bs4.text c0) /\ a = Py.strip (Bs4.text c1))
  /\ Forall (fun da => stripped (fst da) /\ stripped (snd da)) (_extract_actions soup).
Proof.
  split; [|split; [|split]].
  - intros H. unfold _extract_actions. now rewrite H.
  - intros action_table H. unfold _extract_actions. rewrite H.
    etransitivity; [apply length_flat_map_le|].
    + intros row. destruct (Bs4.find_all "td" None row) as [|c0 [|c1 more]]; cbn; lia.
    + destruct (Bs4.find_all "tr" None action_table); cbn; lia.
  - apply in_extract_actions.
  - apply Forall_forall. intros [d a] Hin.
    apply list_elem_of_In, in_extract_actions in Hin
      as (_ & _ & c0 & c1 & _ & _ & _ & _ & -> & ->).
    split; apply stripped_strip.
Qed.

(** The committees and the cosponsors are the stripped texts of the list
    items of the first matching block, in their order, and there are none
    when the block is absent. Each date is the stripped text of its element
    when the element is present and [None] when it is absent. Every string
    is stripped. *)
Theorem extracted_lists_and_dates (soup : Bs4.node) :
  (forall committee_div,
      Bs4.find "div" (Some "committees") soup = Some committee_div ->
      _extract_committees soup
      = map (fun item => Py.strip (Bs4.text item)) (Bs4.find_all "li" None committee_div)
      /\ length (_extract_committees soup) = length (Bs4.find_all "li" None committee_div))
  /\ (Bs4.find "div" (Some "committees") soup = None -> _extract_committees soup = [])
  /\ (forall cosponsor_div,
        Bs4.find "div" (Some "cosponsors") soup = Some cosponsor_div ->
        _extract_cosponsors soup
        = map (fun item => Py.strip (Bs4.text item)) (Bs4.find_all "li" None cosponsor_div)
        /\ length (_extract_cosponsors soup) = length (Bs4.find_all "li" None cosponsor_div))
  /\ (Bs4.find "div" (Some "cosponsors") soup = None -> _extract_cosponsors soup = [])
  /\ Forall stripped (_extract_committees soup)
  /\ Forall stripped (_extract_cosponsors soup)
  /\ (forall last_action,
        Bs4.find "span" (Some "last-action") soup = Some last_action ->
        _extract_last_action_date soup = VStr (Py.strip (Bs4.text last_action)))
  /\ (Bs4.find "span" (Some "last-action") soup = None
      -> _extract_last_action_date soup = VNone)
  /\ (forall introduced,
        Bs4.find "span" (Some "introduced-date") soup = Some introduced ->
        _extract_introduced_date soup = VStr (Py.strip (Bs4.text introduced)))
  /\ (Bs4.find "span" (Some "introduced-date") soup = None
      -> _extract_introduced_date soup = VNone)
  /\ (forall v, _extract_last_action_date soup = VStr v -> stripped v)
  /\ (forall v, _extract_introduced_date soup = VStr v -> stripped v).
Proof.
  unfold _extract_committees, _extract_cosponsors, _extract_last_action_date,
    _extract_introduced_date.
  repeat match goal with |- _ /\ _ => split end.
  - intros d ->. split; [reflexivity | apply length_map].
  - now intros ->.
  - intros d ->. split; [reflexivity | apply length_map].
  - now intros ->.
  - destruct (Bs4.find "div" (Some "committees") soup); [|constructor].
    apply Forall_forall. intros x Hx. apply list_elem_of_In, in_map_iff in Hx as (li & <- & _).
    apply stripped_strip.
  - destruct (Bs4.find "div" (Some "cosponsors") soup); [|constructor].
    apply Forall_forall. intros x Hx. apply list_elem_of_In, in_map_iff in Hx as (li & <- & _).
    apply stripped_strip.
  - now intros e ->.
  - now intros ->.
  - now intros e ->.
  - now intros ->.
  - destruct (Bs4.find "span" (Some "last-action") soup); [|discriminate].
    intros v [= <-]. apply stripped_strip.
  - destruct (Bs4.find "span" (Some "introduced-date") soup); [|discriminate].
    intros v [= <-]. apply stripped_strip.
Qed.

End Extracted.

(* ===================================================================== *)
(** * The synchronous scraper                                             *)
(* ===================================================================== *)

Section SyncFacts.

Variable R : Sync.requests_env.

Lemma truthy_insert (k : string) (v : value) (r : record) :
  Sync.truthy (Some (<[k := v]> r)) = true.
Proof.
  unfold Sync.truthy. apply negb_true_iff, Nat.eqb_neq.
  intros H. apply map_size_empty_iff in H. now apply insert_non_empty in H.
Qed.

Lemma keep_bill_parsed (r : record) (bills : list record) (s : state) :
  parsed_record r -> Sync.keep_bill (Some r) bills s = (bills ++ [r], Return tt s).
Proof.
  intros (item & r0 & t & Hk & ->). unfold Sync.keep_bill. rewrite truthy_insert.
  apply kept_fields_values in Hk as (te & link & href & _ & _ & _ & Hn & _).
  rewrite lookup_insert_ne by discriminate. now rewrite Hn.
Qed.

(** The loop examines every item and keeps the bills of those that have a
    title, a link and an [href]; it never stops early. *)
Lemma bills_loop_eq (items : list Bs4.node) (bills : list record) (s : state) :
  exists kept s',
    Sync.bills_loop R items bills s = (bills ++ kept, Return tt s')
    /\ map (delete "scraped_at") kept = omap kept_fields items
    /\ Forall parsed_record kept
    /\ trace s' = trace s.
Proof.
  revert bills s. induction items as [|item rest IH]; intros bills s; cbn [Sync.bills_loop].
  - exists [], s. rewrite app_nil_r. repeat split; constructor.
  - unfold _parse_bill_item. rewrite parse_item_eq.
    destruct (kept_fields item) as [r0|] eqn:Hk.
    + set (r := <["scraped_at" := VStr (clock (Sync.world R) (tick s))]> r0).
      assert (Hr : parsed_record r) by (exists item, r0, (clock (Sync.world R) (tick s)); auto).
      rewrite (keep_bill_parsed r bills _ Hr). cbn [Sync.sleep].
      destruct (IH (bills ++ [r]) (after_now (after_now s))) as (kept & s' & Hrun & Hmap & Hall & Htr).
      exists (r :: kept), s'. split; [now rewrite Hrun, <- app_assoc|].
      split; [|split; [now constructor | exact Htr]].
      cbn [map omap list_omap]. rewrite Hk, <- Hmap. f_equal.
      apply delete_insert_id. exact (kept_fields_no_stamp item r0 Hk).
    + cbn [Sync.keep_bill Sync.sleep].
      destruct (IH bills (after_now s)) as (kept & s' & Hrun & Hmap & Hall & Htr).
      exists kept, s'. cbn [omap list_omap]. rewrite Hk. auto.
Qed.

Lemma fetch_bill_items_eq (congress_number : Z) (s : state) :
  Sync.fetch_bill_items R congress_number s =
  let url := bills_url congress_number in
  match http_get (Sync.world R) (tick s) url with
  | Ok content =>
      if error_status (Sync.status_code R (tick s) url)
      then Raise (Exception "HTTPError") (after_get s url)
      else match soup_of (Sync.world R) content with
           | Ok soup => Return (Bs4.find_all "li" (Some "expanded") soup) (after_get s url)
           | Err e => Raise e (after_get s url)
           end
  | Err e => Raise e (after_get s url)
  end.
Proof.
  unfold Sync.fetch_bill_items, bind, Sync.session_get, Sync.raise_for_status, bills_url,
    error_status, BeautifulSoup, lift, ret, raise.
  cbv zeta.
  destruct (http_get (Sync.world R) (tick s) _) as [content|e]; [|reflexivity].
  cbn [fst snd].
  destruct ((400 <=? _) && (_ <? 600)); [reflexivity|].
  destruct (soup_of (Sync.world R) content); reflexivity.
Qed.

Lemma length_slice_to {X : Type} (limit : Z) (l : list X) :
  length (Sync.slice_to limit l)
  = if 0 <=? limit then Nat.min (Z.to_nat limit) (length l)
    else (length l - Z.to_nat (- limit))%nat.
Proof.
  unfold Sync.slice_to. destruct (0 <=? limit); rewrite length_firstn; lia.
Qed.

Lemma length_omap_le {X Y : Type} (f : X -> option Y) (l : list X) :
  (length (omap f l) <= length l)%nat.
Proof. induction l as [|x l IH]; cbn; [lia|]. destruct (f x); cbn; lia. Qed.

(** Whatever it returns, [get_recent_bills] returns no more bills than the
    slice has items. *)
Lemma get_recent_bills_bound (congress_number limit : Z) (s s' : state) (bills : list record) :
  Sync.get_recent_bills R congress_number limit s = Return bills s' ->
  Forall parsed_record bills
  /\ (0 <= limit -> (length bills <= Z.to_nat limit)%nat).
Proof.
  unfold Sync.get_recent_bills.
  destruct (Sync.fetch_bill_items R congress_number s) as [items s1|[cls|cls] s1|];
    try discriminate.
  - destruct (bills_loop_eq (Sync.slice_to limit items) [] s1)
      as (kept & s2 & Hrun & Hmap & Hall & _).
    rewrite Hrun. cbn [app]. intros [= <- <-]. split; [exact Hall|]. intros Hl.
    rewrite <- (length_map (delete "scraped_at")), Hmap.
    etransitivity; [apply length_omap_le|]. rewrite length_slice_to.
    destruct (0 <=? limit) eqn:H0; [lia|]. apply Z.leb_gt in H0. lia.
  - intros [= <- <-]. split; [constructor | cbn; lia].
Qed.

(** When the listing page is fetched without an error status and can be
    read, [get_recent_bills] returns, in order, the bills of the kept items
    among [bill_items[:limit]]: at most [limit] bills for a limit of 0 or
    more, none for 0; a negative limit leaves out the last items instead.
    One request is made. *)
Theorem recent_bills_are_the_first_kept (congress_number limit : Z) (s : state)
    (content : string) (soup : Bs4.node) :
  let url := bills_url congress_number in
  let items := Bs4.find_all "li" (Some "expanded") soup in
  http_get (Sync.world R) (tick s) url = Ok content ->
  error_status (Sync.status_code R (tick s) url) = false ->
  soup_of (Sync.world R) content = Ok soup ->
  exists bills s',
    Sync.get_recent_bills R congress_number limit s = Return bills s'
    /\ map (delete "scraped_at") bills = omap kept_fields (Sync.slice_to limit items)
    /\ (0 <= limit -> Sync.slice_to limit items = firstn (Z.to_nat limit) items
                      /\ (length bills <= Z.to_nat limit)%nat)
    /\ (limit < 0 ->
        Sync.slice_to limit items = firstn (length items - Z.to_nat (- limit)) items
        /\ (length bills <= length items - Z.to_nat (- limit))%nat)
    /\ trace s' = trace s ++ [Get url].
Proof.
  intros url items Hget Hst Hsoup. unfold Sync.get_recent_bills.
  rewrite fetch_bill_items_eq. cbv zeta. fold url. rewrite Hget, Hst, Hsoup. fold items.
  destruct (bills_loop_eq (Sync.slice_to limit items) [] (after_get s url))
    as (kept & s2 & Hrun & Hmap & Hall & Htr).
  rewrite Hrun. cbn [app]. exists kept, s2. split; [reflexivity|]. split; [exact Hmap|].
  assert (Hlen : (length kept <= length (Sync.slice_to limit items))%nat).
  { rewrite <- (length_map (delete "scraped_at")), Hmap. apply length_omap_le. }
  rewrite length_slice_to in Hlen.
  split; [|split].
  - intros Hl. apply Z.leb_le in Hl as Hl'. unfold Sync.slice_to. rewrite Hl' in *.
    split; [reflexivity | lia].
  - intros Hl. apply Z.leb_gt in Hl as Hl'. unfold Sync.slice_to. rewrite Hl' in *.
    split; [reflexivity | lia].
  - exact Htr.
Qed.

(** A request that raises an [Exception], an answer with a status from 400
    to 599, and a page that cannot be read each make [get_recent_bills]
    return the empty list. *)
Theorem recent_bills_empty_on_failure (congress_number limit : Z) (s : state) :
  let url := bills_url congress_number in
  (forall cls,
      http_get (Sync.world R) (tick s) url = Err (Exception cls) ->
      Sync.get_recent_bills R congress_number limit s = Return [] (after_get s url))
  /\ (forall content,
        http_get (Sync.world R) (tick s) url = Ok content ->
        400 <= Sync.status_code R (tick s) url < 600 ->
        Sync.get_recent_bills R congress_number limit s = Return [] (after_get s url))
  /\ (forall content cls,
        http_get (Sync.world R) (tick s) url = Ok content ->
        soup_of (Sync.world R) content = Err (Exception cls) ->
        Sync.get_recent_bills R congress_number limit s = Return [] (after_get s url)).
Proof.
  intros url. unfold Sync.get_recent_bills. rewrite fetch_bill_items_eq. cbv zeta. fold url.
  split; [|split].
  - intros cls ->. reflexivity.
  - intros content -> H. unfold error_status.
    replace (400 <=? _) with true by (symmetry; apply Z.leb_le; lia).
    replace (_ <? 600) with true by (symmetry; apply Z.ltb_lt; lia). reflexivity.
  - intros content cls -> H. rewrite H. now destruct (error_status _).
Qed.

(** ** [get_bill_details] and the loop of [main] *)

Lemma get_bill_details_eq (bill_url : string) (s : state) :
  Sync.get_bill_details R bill_url s =
  match http_get (Sync.world R) (tick s) bill_url with
  | Ok content =>
      if error_status (Sync.status_code R (tick s) bill_url)
      then Return None (after_get s bill_url)
      else match soup_of (Sync.world R) content with
           | Ok soup =>
               Return (Some (Sync.details_of bill_url soup
                               (clock (Sync.world R) (S (tick s)))))
                      (after_now (after_get s bill_url))
           | Err (Exception _) => Return None (after_get s bill_url)
           | Err (BaseException cls) => Raise (BaseException cls) (after_get s bill_url)
           end
  | Err (Exception _) => Return None (after_get s bill_url)
  | Err (BaseException cls) => Raise (BaseException cls) (after_get s bill_url)
  end.
Proof.
  unfold Sync.get_bill_details, try_except, bind, Sync.session_get, Sync.raise_for_status,
    error_status, BeautifulSoup, lift, now, ret, raise.
  destruct (http_get (Sync.world R) (tick s) bill_url) as [content|[cls|cls]]; try reflexivity.
  cbn [fst snd].
  destruct ((400 <=? _) && (_ <? 600)); [reflexivity|].
  destruct (soup_of (Sync.world R) content) as [soup|[cls|cls]]; reflexivity.
Qed.

Lemma sync_details_search_field url soup t k :
  search_field k -> Sync.details_of url soup t !! k = None.
Proof.
  intros [-> | [-> | [-> | ->]]]; unfold Sync.details_of;
    rewrite !lookup_insert_ne by discriminate; apply lookup_empty.
Qed.

Lemma sync_details_full_text url soup t :
  exists v,
    Sync.details_of url soup t !! "full_text" = Some (VStr v)
    /\ stripped v
    /\ (Bs4.find "div" (Some "generated-text-container") soup = None
        -> v = "Full text not available").
Proof.
  exists (Sync._extract_full_text soup). split; [|split].
  - unfold Sync.details_of. rewrite lookup_insert_ne by discriminate. apply lookup_insert_eq.
  - unfold Sync._extract_full_text. destruct (Bs4.find "div" _ soup).
    + apply stripped_strip.
    + now split.
  - intros H. unfold Sync._extract_full_text. now rewrite H.
Qed.

Lemma truthy_sync_details url soup t :
  Sync.truthy (Some (Sync.details_of url soup t)) = true.
Proof. unfold Sync.details_of. apply truthy_insert. Qed.

Lemma get_bill_details_returns (bill_url : string) (s s' : state) (details : option record) :
  Sync.get_bill_details R bill_url s = Return details s' ->
  details = None \/ exists soup t, details = Some (Sync.details_of bill_url soup t).
Proof.
  rewrite get_bill_details_eq.
  destruct (http_get (Sync.world R) (tick s) bill_url) as [content|[cls|cls]];
    [destruct (error_status _);
     [|destruct (soup_of (Sync.world R) content) as [soup|[cls|cls]]]|..];
    try discriminate; intros [= <- <-]; eauto.
Qed.

(** The details of a bill have a [full_text], the placeholder
    "Full text not available" when the page has no text container; a request
    that raises an [Exception], a status from 400 to 599 and an unreadable
    page give [None] instead of details. *)
Theorem bill_details_or_none (bill_url : string) (s : state) :
  (forall content soup,
      http_get (Sync.world R) (tick s) bill_url = Ok content ->
      error_status (Sync.status_code R (tick s) bill_url) = false ->
      soup_of (Sync.world R) content = Ok soup ->
      exists details s' v,
        Sync.get_bill_details R bill_url s = Return (Some details) s'
        /\ details !! "url" = Some (VStr bill_url)
        /\ details !! "full_text" = Some (VStr v)
        /\ (Bs4.find "div" (Some "generated-text-container") soup = None
            -> v = "Full text not available")
        /\ (forall text_div,
              Bs4.find "div" (Some "generated-text-container") soup = Some text_div
              -> v = Py.strip (Bs4.text text_div)))
  /\ (forall cls,
        http_get (Sync.world R) (tick s) bill_url = Err (Exception cls) ->
        Sync.get_bill_details R bill_url s = Return None (after_get s bill_url))
  /\ (forall content,
        http_get (Sync.world R) (tick s) bill_url = Ok content ->
        400 <= Sync.status_code R (tick s) bill_url < 600 ->
        Sync.get_bill_details R bill_url s = Return None (after_get s bill_url))
  /\ (forall content cls,
        http_get (Sync.world R) (tick s) bill_url = Ok content ->
        soup_of (Sync.world R) content = Err (Exception cls) ->
        Sync.get_bill_details R bill_url s = Return None (after_get s bill_url)).
Proof.
  rewrite get_bill_details_eq. split; [|split; [|split]].
  - intros content soup -> -> ->. do 2 eexists. exists (Sync._extract_full_text soup).
    split; [reflexivity|]. split; [apply lookup_insert_eq|]. split; [|split].
    + unfold Sync.details_of. rewrite lookup_insert_ne by discriminate.
      apply lookup_insert_eq.
    + intros H. unfold Sync._extract_full_text. now rewrite H.
    + intros d H. unfold Sync._extract_full_text. now rewrite H.
  - intros cls ->. reflexivity.
  - intros content -> H. unfold error_status.
    replace (400 <=? _) with true by (symmetry; apply Z.leb_le; lia).
    replace (_ <? 600) with true by (symmetry; apply Z.ltb_lt; lia). reflexivity.
  - intros content cls -> H. rewrite H. now destruct (error_status _).
Qed.

Lemma enrich_bills_spec (bills done : list record) (s : state) (out : list record)
    (s' : state) :
  Sync.enrich_bills R bills done s = Return out s' ->
  exists finals,
    out = done ++ finals
    /\ Forall2 (fun bill final =>
                  (forall k, search_field k -> final !! k = bill !! k)
                  /\ final !! "url" = bill !! "url"
                  /\ (final = bill
                      \/ (is_Some (final !! "full_text")
                          /\ exists soup t,
                               final
                               = update bill (Sync.details_of (record_url bill) soup t))))
               bills finals.
Proof.
  revert done s. induction bills as [|bill rest IH]; intros done s; cbn [Sync.enrich_bills].
  - intros [= <- <-]. exists []. split; [now rewrite app_nil_r | constructor].
  - unfold bind at 1.
    destruct (item_url bill s) as [url s1|e s1|] eqn:Hu; try discriminate.
    assert (Hurl : bill !! "url" = Some (VStr url)).
    { unfold item_url in Hu. destruct (bill !! "url") as [[u| | |]|]; try discriminate.
      now injection Hu as <- _. }
    unfold bind at 1.
    destruct (Sync.get_bill_details R url s1) as [details s2|e s2|] eqn:Hd; try discriminate.
    intros H. apply IH in H as (finals & -> & Hall).
    eexists (_ :: finals). split; [now rewrite <- app_assoc|].
    constructor; [|exact Hall].
    apply get_bill_details_returns in Hd as [->|(soup & t & ->)]; [auto|].
    rewrite truthy_sync_details. split; [|split].
    + intros k Hk. apply update_keeps. now apply sync_details_search_field.
    + rewrite Hurl. apply update_overwrites, lookup_insert_eq.
    + right. split.
      * destruct (sync_details_full_text url soup t) as (v & Hv & _).
        exists (VStr v). now apply update_overwrites.
      * exists soup, t. now rewrite (record_url_lookup _ _ Hurl).
Qed.

(** When [main] reaches [save_to_csv], the list it hands over has one entry
    for each bill that [get_recent_bills(limit=10)] returned, at most ten,
    in the same order, none dropped when its details cannot be had. Each
    entry keeps the bill number, title, status, sponsor and URL of its bill,
    and is either the bill as the listing gave it or the bill updated with
    the details of its own URL, which bring a [full_text]. *)
Theorem main_keeps_every_bill (s : state) (out : list record) (s' : state) :
  Sync.main_bills R s = Return out s' ->
  exists bills s1,
    Sync.get_recent_bills R 118 10 s = Return bills s1
    /\ Forall parsed_record bills
    /\ (length bills <= 10)%nat
    /\ length out = length bills
    /\ Forall2 (fun bill final =>
                  (forall k, search_field k -> final !! k = bill !! k)
                  /\ final !! "url" = bill !! "url"
                  /\ (final = bill
                      \/ (is_Some (final !! "full_text")
                          /\ exists soup t,
                               final
                               = update bill (Sync.details_of (record_url bill) soup t))))
               bills out.
Proof.
  unfold Sync.main_bills, bind.
  destruct (Sync.get_recent_bills R 118 10 s) as [bills s1|e s1|] eqn:Hb; try discriminate.
  intros H. pose proof (get_recent_bills_bound _ _ _ _ _ Hb) as [Hall Hlen].
  apply enrich_bills_spec in H as (finals & -> & H2). cbn [app].
  exists bills, s1. split; [reflexivity|]. split; [exact Hall|]. split; [apply Hlen; lia|].
  split; [symmetry; eapply Forall2_length; eauto | exact H2].
Qed.

(** ** [main] runs to its end *)

Lemma get_recent_bills_total (congress_number limit : Z) (s : state) :
  only_exceptions (Sync.world R) ->
  exists bills s',
    Sync.get_recent_bills R congress_number limit s = Return bills s'
    /\ Forall parsed_record bills
    /\ trace s' = trace s ++ [Get (bills_url congress_number)]
    /\ (forall content soup,
          http_get (Sync.world R) (tick s) (bills_url congress_number) = Ok content ->
          error_status (Sync.status_code R (tick s) (bills_url congress_number)) = false ->
          soup_of (Sync.world R) content = Ok soup ->
          map (delete "scraped_at") bills
          = omap kept_fields
              (Sync.slice_to limit (Bs4.find_all "li" (Some "expanded") soup))).
Proof.
  intros [Hg Hs]. unfold Sync.get_recent_bills. rewrite fetch_bill_items_eq. cbv zeta.
  set (url := bills_url congress_number).
  assert (Hfail :
            exists bills s',
              Return ([] : list record) (after_get s url) = Return bills s'
              /\ Forall parsed_record bills
              /\ trace s' = trace s ++ [Get url]).
  { exists [], (after_get s url). repeat split. constructor. }
  destruct (http_get (Sync.world R) (tick s) url) as [content|e] eqn:Hget.
  - destruct (error_status _) eqn:Hst.
    + destruct Hfail as (bills & s' & H1 & H2 & H3).
      exists bills, s'. repeat split; try assumption. intros ? ? _ [=].
    + destruct (soup_of (Sync.world R) content) as [soup|e] eqn:Hsoup.
      * destruct (bills_loop_eq (Sync.slice_to limit (Bs4.find_all "li" (Some "expanded") soup))
                    [] (after_get s url)) as (kept & s2 & Hrun & Hmap & Hall & Htr).
        rewrite Hrun. cbn [app]. exists kept, s2. repeat split; try assumption.
        intros content' soup' [= <-] _ Hs'. rewrite Hsoup in Hs'. now injection Hs' as <-.
      * destruct (Hs _ _ Hsoup) as [cls ->].
        destruct Hfail as (bills & s' & H1 & H2 & H3).
        exists bills, s'. repeat split; try assumption.
        intros ? ? [= <-] _ Hs'. rewrite Hsoup in Hs'. discriminate Hs'.
  - destruct (Hg _ _ _ Hget) as [cls ->].
    destruct Hfail as (bills & s' & H1 & H2 & H3).
    exists bills, s'. repeat split; try assumption. intros ? ? [=].
Qed.

(** One call of [get_bill_details] makes one request, whatever its end. *)
Lemma get_bill_details_total (bill_url : string) (s : state) :
  only_exceptions (Sync.world R) ->
  exists details s',
    Sync.get_bill_details R bill_url s = Return details s'
    /\ trace s' = trace s ++ [Get bill_url].
Proof.
  intros [Hg Hs]. rewrite get_bill_details_eq.
  destruct (http_get (Sync.world R) (tick s) bill_url) as [content|e] eqn:Hget.
  - destruct (error_status _); [eauto|].
    destruct (soup_of (Sync.world R) content) as [soup|e] eqn:Hsoup; [eauto|].
    destruct (Hs _ _ Hsoup) as [cls ->]. eauto.
  - destruct (Hg _ _ _ Hget) as [cls ->]. eauto.
Qed.

Lemma enrich_bills_total (bills done : list record) (s : state) :
  only_exceptions (Sync.world R) ->
  Forall parsed_record bills ->
  exists out s',
    Sync.enrich_bills R bills done s = Return out s'
    /\ trace s' = trace s ++ map (fun r => Get (record_url r)) bills.
Proof.
  intros HE Hall. revert done s.
  induction Hall as [|bill rest Hbill _ IH]; intros done s; cbn [Sync.enrich_bills].
  - exists done, s. split; [reflexivity|]. cbn [map]. now rewrite app_nil_r.
  - destruct (parsed_record_url bill Hbill) as [href Hurl].
    unfold bind at 1. unfold item_url. rewrite Hurl. unfold ret at 1.
    destruct (get_bill_details_total ("https://www.congress.gov" +:+ href) s HE)
      as (details & s1 & Hd & Htr).
    unfold bind at 1. rewrite Hd.
    match goal with |- context [Sync.enrich_bills R rest ?d s1] =>
      destruct (IH d s1) as (out & s' & Hrun & Htr') end.
    exists out, s'. split; [exact Hrun|].
    rewrite Htr', Htr, <- app_assoc. cbn [map app].
    now rewrite (record_url_lookup _ _ Hurl).
Qed.

Lemma enrich_bills_urls (bills done : list record) (s : state) (out : list record)
    (s' : state) :
  Sync.enrich_bills R bills done s = Return out s' ->
  exists finals,
    out = done ++ finals
    /\ length finals = length bills
    /\ map record_url finals = map record_url bills.
Proof.
  intros H. apply enrich_bills_spec in H as (finals & -> & Hall).
  exists finals. split; [reflexivity|].
  induction Hall as [|bill final bills finals (_ & Hu & _) _ [IH1 IH2]]; [now split|].
  cbn [length map]. split; [now rewrite IH1|].
  rewrite IH2. f_equal. unfold record_url. now rewrite Hu.
Qed.

(** [main] with its listing read: it returns as many bills as the first ten
    items of the listing have kept ones. *)
Lemma main_bills_runs (s : state) (content : string) (soup : Bs4.node) :
  only_exceptions (Sync.world R) ->
  http_get (Sync.world R) (tick s) (bills_url 118) = Ok content ->
  error_status (Sync.status_code R (tick s) (bills_url 118)) = false ->
  soup_of (Sync.world R) content = Ok soup ->
  exists out s',
    Sync.main_bills R s = Return out s'
    /\ length out
       = length (omap kept_fields
                   (Sync.slice_to 10 (Bs4.find_all "li" (Some "expanded") soup))).
Proof.
  intros HE Hget Hst Hsoup. unfold Sync.main_bills, bind.
  destruct (get_recent_bills_total 118 10 s HE) as (bills & s1 & Hb & Hall & _ & Hmap).
  rewrite Hb.
  destruct (enrich_bills_total bills [] s1 HE Hall) as (out & s' & Hrun & _).
  exists out, s'. split; [exact Hrun|].
  apply enrich_bills_urls in Hrun as (finals & -> & Hlen & _). cbn [app].
  now rewrite Hlen, <- (Hmap content soup Hget Hst Hsoup), length_map.
Qed.

(** In a world where requests and parsing fail with [Exception]s only,
    [main] reaches [save_to_csv]. By then it has requested the listing of
    the 118th congress once and then the URL of each bill it hands over,
    once each and in their order, whether the details were had or not. *)
Theorem main_requests_listing_then_each_bill (s : state) :
  only_exceptions (Sync.world R) ->
  exists out s',
    Sync.main_bills R s = Return out s'
    /\ trace s' = trace s ++ Get (bills_url 118)
                             :: map (fun r => Get (record_url r)) out.
Proof.
  intros HE. unfold Sync.main_bills, bind.
  destruct (get_recent_bills_total 118 10 s HE) as (bills & s1 & Hb & Hall & Htr & _).
  rewrite Hb.
  destruct (enrich_bills_total bills [] s1 HE Hall) as (out & s' & Hrun & Htr').
  exists out, s'. split; [exact Hrun|].
  apply enrich_bills_urls in Hrun as (finals & -> & _ & Hurls). cbn [app].
  rewrite Htr', Htr, <- app_assoc. cbn [app]. do 2 f_equal.
  rewrite <- (map_map record_url Get), <- (map_map record_url Get finals).
  now rewrite Hurls.
Qed.

End SyncFacts.

(* ===================================================================== *)
(** * The statements above, on the example worlds                         *)
(* ===================================================================== *)

Lemma garbled_only_exceptions : only_exceptions Examples.garbled.
Proof.
  split.
  - intros t url e H. discriminate H.
  - apply soup_only_exceptions.
Qed.

Lemma two_pages_first_job :
  exists items s',
    _scrape_page Examples.two_pages Examples.job1 (Examples.ready 0) = Return items s'
    /\ items <> [].
Proof.
  destruct (scrape_page_nonempty Examples.two_pages Examples.job1 (Examples.ready 0) "three"
              (Examples.page_of [Examples.item_full; Examples.item_untitled;
                                 Examples.item_bare; Examples.item_full])
              two_pages_only_exceptions eq_refl eq_refl eq_refl)
    as (items & s' & Hrun & Hne & _).
  { change (Bs4.find_all "li" (Some "expanded") _)
      with [Examples.item_full; Examples.item_untitled; Examples.item_bare;
            Examples.item_full].
    cbn [omap list_omap]. destruct item_full_kept as [r ->]. discriminate. }
  eauto.
Qed.

Lemma one_detail_request_per_record_witness :
  exists items s',
    _scrape_page Examples.two_pages Examples.job1 (Examples.ready 0) = Return items s'
    /\ items <> []
    /\ trace s' = trace (Examples.ready 0)
                  ++ Get (search_url Examples.job1)
                     :: map (fun r => Get (record_url r)) items.
Proof.
  destruct two_pages_first_job as (items & s' & Hrun & Hne).
  exists items, s'. split; [exact Hrun|]. split; [exact Hne|].
  apply (one_detail_request_per_record Examples.two_pages Examples.job1 (Examples.ready 0)
           items s' Hrun).
Defined.

Lemma returned_records_have_fixed_keys_witness :
  exists items s',
    _scrape_page Examples.two_pages Examples.job1 (Examples.ready 0) = Return items s'
    /\ items <> []
    /\ Forall (fun r => dom r = search_keys
                        \/ (dom r = search_keys ∪ detail_keys /\ size (dom r) = 11%nat))
              items.
Proof.
  destruct two_pages_first_job as (items & s' & Hrun & Hne).
  exists items, s'. split; [exact Hrun|]. split; [exact Hne|].
  apply (returned_records_have_fixed_keys Examples.two_pages Examples.job1
           (Examples.ready 0) items s' Hrun).
Defined.

Lemma unregistered_sources_yield_nothing_witness :
  exists s',
    scrape Examples.garbled
           (length (initial_jobs 119 118 {["comreports"]})) 5 119 118 {["comreports"]}
           (init_state 0) = Return [] s'
    /\ trace s' = [SessionOpened]
                  ++ map (fun job => Get (search_url job))
                         (initial_jobs 119 118 {["comreports"]})
                  ++ [SessionClosed].
Proof.
  apply (unregistered_sources_yield_nothing Examples.garbled 5 119 118 {["comreports"]} 0).
  - lia.
  - exact garbled_only_exceptions.
  - intros H. apply elem_of_singleton in H. discriminate H.
Defined.

Lemma search_fields_are_stripped_witness :
  exists r v,
    kept_fields Examples.item_bare = Some r
    /\ r !! "status" = Some (VStr v) /\ stripped v.
Proof.
  destruct item_bare_kept as [r Hr]. 
  destruct (search_fields_are_stripped Examples.item_bare r "status" Hr) as (v & Hv & Hs).
  - unfold search_field. auto.
  - exists r, v. auto.
Defined.

Lemma extract_actions_skips_header_and_short_rows_witness :
  (length (_extract_actions Examples.detail_page) <= 2 - 1)%nat
  /\ In ("01/03/2025", "Introduced in House") (_extract_actions Examples.detail_page).
Proof.
  destruct (extract_actions_skips_header_and_short_rows Examples.detail_page)
    as (_ & Hlen & Hin & _).
  split.
  - apply (Hlen (Bs4.Tag "table" ["actions"] []
                   [Bs4.Tag "tr" [] [] [Bs4.Tag "th" [] [] [Bs4.Text "Date"]];
                    Bs4.Tag "tr" [] []
                      [Bs4.Tag "td" [] [] [Bs4.Text "01/03/2025"];
                       Bs4.Tag "td" [] [] [Bs4.Text "Introduced in House"]]])).
    reflexivity.
  - apply Hin. do 5 eexists. split; [reflexivity|]. split; [left; reflexivity|].
    split; [reflexivity|]. split; reflexivity.
Defined.

Lemma extracted_lists_and_dates_witness :
  _extract_committees Examples.detail_page = ["Judiciary"]
  /\ _extract_cosponsors Examples.detail_page = []
  /\ _extract_last_action_date Examples.detail_page = VNone
  /\ _extract_introduced_date Examples.detail_page = VStr "01/03/2025".
Proof.
  destruct (extracted_lists_and_dates Examples.detail_page)
    as (Hc & _ & _ & Hco & _ & _ & _ & Hl & Hi & _).
  split; [|split; [|split]].
  - destruct (Hc (Bs4.Tag "div" ["committees"] []
                    [Bs4.Tag "li" [] [] [Bs4.Text " Judiciary "]]) eq_refl) as [-> _].
    reflexivity.
  - apply Hco. reflexivity.
  - apply Hl. reflexivity.
  - rewrite (Hi (Examples.span "introduced-date" "01/03/2025") eq_refl). reflexivity.
Defined.

Lemma recent_bills_are_the_first_kept_witness :
  exists bills s',
    Sync.get_recent_bills SyncExamples.listing 118 2 (Examples.ready 0) = Return bills s'
    /\ map (delete "scraped_at") bills
       = omap kept_fields [Examples.item_untitled; Examples.item_full]
    /\ (length bills <= 2)%nat.
Proof.
  destruct (recent_bills_are_the_first_kept SyncExamples.listing 118 2 (Examples.ready 0)
              "mixed"
              (Examples.page_of [Examples.item_untitled; Examples.item_full;
                                 Examples.item_unlinked; Examples.item_bare;
                                 Examples.item_no_href])
              eq_refl eq_refl eq_refl)
    as (bills & s' & Hrun & Hmap & Hpos & _).
  exists bills, s'. split; [exact Hrun|]. split; [exact Hmap|].
  apply Hpos. lia.
Defined.

Lemma recent_bills_empty_on_failure_witness :
  Sync.get_recent_bills SyncExamples.not_found 118 20 (Examples.ready 0)
  = Return [] (after_get (Examples.ready 0) (bills_url 118)).
Proof.
  destruct (recent_bills_empty_on_failure SyncExamples.not_found 118 20 (Examples.ready 0))
    as (_ & H & _).
  apply (H "mixed"); [reflexivity | cbn; lia].
Defined.

Lemma bill_details_or_none_witness :
  (exists details s',
      Sync.get_bill_details SyncExamples.listing "u" (Examples.ready 0)
      = Return (Some details) s'
      /\ details !! "full_text" = Some (VStr "Full text not available"))
  /\ Sync.get_bill_details SyncExamples.not_found "u" (Examples.ready 0)
     = Return None (after_get (Examples.ready 0) "u").
Proof.
  destruct (bill_details_or_none SyncExamples.listing "u" (Examples.ready 0))
    as (Hok & _).
  destruct (bill_details_or_none SyncExamples.not_found "u" (Examples.ready 0))
    as (_ & _ & Hst & _).
  split.
  - destruct (Hok "detail" Examples.detail_page eq_refl eq_refl eq_refl)
      as (details & s' & v & Hrun & _ & Hv & Hnone & _).
    exists details, s'. split; [exact Hrun|]. now rewrite Hv, (Hnone eq_refl).
  - apply (Hst "detail"); [reflexivity | cbn; lia].
Defined.

Lemma listing_only_exceptions : only_exceptions (Sync.world SyncExamples.listing).
Proof.
  split.
  - intros t url e.
    change ((if String.eqb url (bills_url 118) then Ok "mixed" else Ok "detail") = Err e
            -> exists cls, e = Exception cls).
    destruct (String.eqb url (bills_url 118)); discriminate.
  - apply soup_only_exceptions.
Qed.

Lemma listing_main_returns :
  exists (out : list record) (s' : state),
    Sync.main_bills SyncExamples.listing (Examples.ready 0) = Return out s'
    /\ length out = 2%nat.
Proof.
  destruct (main_bills_runs SyncExamples.listing (Examples.ready 0) "mixed"
              (Examples.page_of [Examples.item_untitled; Examples.item_full;
                                 Examples.item_unlinked; Examples.item_bare;
                                 Examples.item_no_href])
              listing_only_exceptions eq_refl eq_refl eq_refl)
    as (out & s' & Hrun & Hlen).
  exists out, s'. split; [exact Hrun|]. rewrite Hlen. vm_compute. reflexivity.
Qed.

Lemma main_keeps_every_bill_witness :
  exists (out : list record) (s' : state) (bills : list record) (s1 : state),
    Sync.main_bills SyncExamples.listing (Examples.ready 0) = Return out s'
    /\ Sync.get_recent_bills SyncExamples.listing 118 10 (Examples.ready 0)
       = Return bills s1
    /\ length out = 2%nat
    /\ length out = length bills
    /\ (length bills <= 10)%nat.
Proof.
  destruct listing_main_returns as (out & s' & Hrun & Hlen).
  destruct (main_keeps_every_bill SyncExamples.listing (Examples.ready 0) out s' Hrun)
    as (bills & s1 & Hget & _ & Hb & He & _).
  exists out, s', bills, s1. auto.
Defined.

Lemma main_requests_listing_then_each_bill_witness :
  exists (out : list record) (s' : state),
    Sync.main_bills SyncExamples.listing (Examples.ready 0) = Return out s'
    /\ trace s' = trace (Examples.ready 0)
                  ++ Get (bills_url 118) :: map (fun r => Get (record_url r)) out.
Proof.
  apply (main_requests_listing_then_each_bill SyncExamples.listing (Examples.ready 0)).
  exact listing_only_exceptions.
Defined.
